(** * Subscription lifecycle and billing reconciliation

    A shallow embedding of [SubscriptionsService] (subscriptions.service.ts)
    together with the two collaborators it reads and writes through
    ([PlansService], [CustomersService]), and the properties of the
    lifecycle operations and of the reconciliation routine
    [syncFromStripe].

    Modelling conventions.
    - The datastore is three in-memory tables.  A query returns the rows
      that match its filters; [single] and [maybeSingle] give data only
      for exactly one row.  The datastore is available: a read or a
      delete does not fail.
    - A write to the [subscriptions] table is checked against the
      constraints of its schema (migrations 003 and 006) and is refused
      when it violates one; the service turns the refusal into an
      [InternalServerErrorException].  The [users] table, which the
      schema refers to and the service never reads or writes, is the
      [user_exists] method of the [Runtime] class.
    - The row-level security policies of migration 003 protect the data
      from clients with an anon key; the client of the service is exempt
      from them, it sees and writes every row.
    - The schema of the customer mapping is not part of the repository:
      the writes to [stripe_customers] are accepted.
    - The payment processor, the identity service, the clock and the
      datastore's identifier generator are outside the repository: they
      are the methods of the [Runtime] class.  The answer to the lookup
      of an invoice, which every reconciliation pass repeats, depends on
      the moment of the request; the other requests are made at most
      once by an operation and are functions of the request.
    - Every datastore query and every processor call is appended to the
      [trace] of the world, so that "no call was made" is a statement
      about the trace.
    - A JavaScript [string | null] is an [option string]; truthiness
      tests are written out ([truthy]), the empty string being falsy. *)

From stdpp Require Import gmap strings list fin_maps pretty.
From Stdlib Require Import ZArith Ascii String.

Set Warnings "-register-all".
Local Open Scope Z_scope.
Local Open Scope string_scope.
Local Open Scope list_scope.

(** ** JavaScript values *)

(** The values that can sit in a [Record<string, any>]. *)
Inductive Json :=
  | JUndefined
  | JNull
  | JBool (b : bool)
  | JNum (z : Z)
  | JStr (s : string)
  | JArr (l : list Json)
  | JObj (m : gmap string Json).

(** What the datastore keeps of a value sent as a JSON body: a property
    holding [undefined] is dropped, [undefined] elsewhere becomes [null]
    ([JSON.stringify]). *)
Fixpoint to_jsonb (j : Json) : Json :=
  match j with
  | JUndefined => JNull
  | JArr l => JArr (map to_jsonb l)
  | JObj m =>
      JObj (omap (fun v => match v with
                           | JUndefined => None
                           | _ => Some (to_jsonb v)
                           end) m)
  | _ => j
  end.

Definition nullish (j : Json) : bool :=
  match j with JUndefined | JNull => true | _ => false end.

Definition truthy (o : option string) : bool :=
  match o with
  | Some s => negb (String.eqb s EmptyString)
  | None => false
  end.

(** The string of a truthy [string | null]. *)
Definition nonempty (o : option string) : option string :=
  match o with
  | Some s => if String.eqb s EmptyString then None else Some s
  | None => None
  end.

(** The number of a truthy [number | null]. *)
Definition nonzero (o : option Z) : option Z :=
  match o with
  | Some z => if Z.eqb z 0 then None else Some z
  | None => None
  end.

(** [a ?? b] on nullable values. *)
Definition nullish_or {A} (a b : option A) : option A :=
  match a with Some _ => a | None => b end.
Infix "??" := nullish_or (at level 45, right associativity).

(** The own enumerable properties copied by an object spread [{...j}]. *)
Fixpoint chars_from (i : nat) (s : string) : gmap string Json :=
  match s with
  | EmptyString => ∅
  | String c s' => <[pretty i := JStr (String c EmptyString)]> (chars_from (S i) s')
  end.

Fixpoint elements_from (i : nat) (l : list Json) : gmap string Json :=
  match l with
  | [] => ∅
  | x :: l' => <[pretty i := x]> (elements_from (S i) l')
  end.

Definition spread (j : Json) : gmap string Json :=
  match j with
  | JObj m => m
  | JArr l => elements_from 0 l
  | JStr s => chars_from 0 s
  | _ => ∅
  end.

(** [{...a, ...b}]: the properties of [b] win. *)
Definition assign (a b : gmap string Json) : gmap string Json := b ∪ a.

Definition of_string_opt (o : option string) : Json :=
  match o with Some s => JStr s | None => JUndefined end.

(** ** isValidUUID *)

Definition in_range (lo hi : string) (c : ascii) : bool :=
  match lo, hi with
  | String l _, String h _ =>
      (nat_of_ascii l <=? nat_of_ascii c)%nat && (nat_of_ascii c <=? nat_of_ascii h)%nat
  | _, _ => false
  end.

(** [[0-9a-f]] under the [i] flag. *)
Definition hex (c : ascii) : bool :=
  in_range "0" "9" c || in_range "a" "f" c || in_range "A" "F" c.

Definition dash (c : ascii) : bool := in_range "-" "-" c.

(** [[1-5]]. *)
Definition version_digit (c : ascii) : bool := in_range "1" "5" c.

(** [[89ab]] under the [i] flag. *)
Definition variant_digit (c : ascii) : bool :=
  in_range "8" "9" c || in_range "a" "b" c || in_range "A" "B" c.

Fixpoint matches (classes : list (ascii → bool)) (s : string) : bool :=
  match classes, s with
  | [], EmptyString => true
  | p :: classes', String c s' => p c && matches classes' s'
  | _, _ => false
  end.

Definition uuid_regex : list (ascii → bool) :=
  replicate 8 hex ++ [dash] ++ replicate 4 hex ++ [dash]
  ++ [version_digit] ++ replicate 3 hex ++ [dash]
  ++ [variant_digit] ++ replicate 3 hex ++ [dash] ++ replicate 12 hex.

Definition isValidUUID (uuid : string) : bool := matches uuid_regex uuid.

(** ** Entities *)

Inductive SubscriptionStatus :=
  | Active | Trialing | PastDue | Paused | Canceled
  | Expired | Incomplete | IncompleteExpired | Unpaid.

#[global] Instance SubscriptionStatus_eq_dec : EqDecision SubscriptionStatus.
Proof. solve_decision. Defined.

Definition includes (statuses : list SubscriptionStatus) (s : SubscriptionStatus) : bool :=
  bool_decide (s ∈ statuses).

Definition ACTIVE_STATUSES : list SubscriptionStatus :=
  [Active; Trialing; PastDue; Unpaid; Incomplete].

(** A row of the [subscriptions] table. *)
Module Subscription.
Record t := mk {
    id : string;
    created_at : string;
    user_id : string;
    plan : option string;
    plan_id : option string;
    stripe_subscription_id : option string;
    stripe_customer_id : option string;
    status : SubscriptionStatus;
    started_at : option string;
    current_period_start : option string;
    current_period_end : option string;
    ended_at : option string;
    cancel_at : option string;
    canceled_at : option string;
    stripe_invoice_url : option string;
    pause_reason : option string;
    cancel_reason : option string;
    metadata : Json;
    last_event_at : option string
  }.
End Subscription.

(** A row of the [plans] table (the columns the service reads). *)
Module Plan.
Record t := mk {
    id : string;
    name : string;
    stripe_product_id : string;
    stripe_price_id : string
  }.
End Plan.

(** A row of the [stripe_customers] table. *)
Module CustomerRecord.
Record t := mk {
    id : string;
    user_id : string;
    stripe_customer_id : string;
    email : option string;
    metadata : Json;
    created_at : string;
    updated_at : string
  }.
End CustomerRecord.

(** The authenticated requester (Supabase [User]). *)
Module User.
Record t := mk {
    id : string;
    email : option string;
    full_name : option string   (* user_metadata?.full_name *)
  }.
End User.

(** ** Request bodies *)

(** A property that the code tests with [!== undefined]. *)
Inductive Optional (A : Type) :=
  | Absent
  | Null
  | Given (a : A).
Arguments Absent {A}.
Arguments Null {A}.
Arguments Given {A} a.

Module CreateSubscriptionDto.
Record t := mk {
    user_id : option string;
    plan : option string;
    plan_id : option string;
    stripe_price_id : option string;
    trial_period_days : option Z;
    metadata : option (gmap string Json)
  }.
End CreateSubscriptionDto.

Module UpdateSubscriptionDto.
Record t := mk {
    user_id : option string;
    plan : option string;
    plan_id : option string;
    stripe_price_id : option string;
    status : option SubscriptionStatus;
    started_at : option string;
    ended_at : Optional string;
    stripe_invoice_url : Optional string;
    pause_reason : Optional string;
    cancel_reason : Optional string;
    metadata : option (gmap string Json)
  }.
End UpdateSubscriptionDto.

Module PauseSubscriptionDto.
Record t := mk { reason : option string }.
End PauseSubscriptionDto.

Module ResumeSubscriptionDto.
Record t := mk { plan : option string; stripe_invoice_url : option string }.
End ResumeSubscriptionDto.

Module CancelSubscriptionDto.
Record t := mk { reason : option string; stripe_invoice_url : option string }.
End CancelSubscriptionDto.

(** ** Objects of the payment processor *)

Module Stripe.

Module Price.
Record t := mk { id : string; nickname : option string }.
End Price.

Module Item.
Record t := mk { id : string; price : option Price.t }.
End Item.

Module Invoice.
Record t := mk { hosted_invoice_url : option string; invoice_pdf : option string }.
End Invoice.

Module PauseCollection.
Record t := mk { behavior : string }.
End PauseCollection.

  (** [string | Customer | DeletedCustomer], read defensively by the code. *)
Inductive CustomerRef :=
    | CustomerId (s : string)
    | CustomerObject (id : option string)
    | NoCustomer.

  (** [string | Invoice | null]. *)
Inductive InvoiceRef :=
    | InvoiceId (s : string)
    | InvoiceObject (i : Invoice.t)
    | NoInvoice.

Module Subscription.
Record t := mk {
      id : string;
      customer : CustomerRef;
      metadata : option (gmap string string);
      items : list Item.t;                 (* items.data *)
      latest_invoice : InvoiceRef;
      status : string;
      pause_collection : option PauseCollection.t;
      start_date : option Z;
      current_period_start : option Z;
      current_period_end : option Z;
      ended_at : option Z;
      cancel_at : option Z;
      canceled_at : option Z
    }.
End Subscription.

Module Customer.
Record t := mk {
      id : string;
      email : option string;
      metadata : option (gmap string string)
    }.
End Customer.

  (** [string | Subscription | null] on a checkout session. *)
Inductive SubscriptionRef :=
    | SubscriptionId (s : string)
    | SubscriptionObject (id : option string)
    | NoSubscription.

Module Session.
Record t := mk {
      mode : option string;
      subscription : SubscriptionRef;
      metadata : option (gmap string string)
    }.
End Session.

Module SubscriptionCreateParams.
Record t := mk {
      customer : string;
      price : string;                      (* items: [{ price }] *)
      trial_period_days : option Z;
      metadata : gmap string Json
    }.
End SubscriptionCreateParams.

Module SubscriptionUpdateParams.
Record t := mk {
      items : option (string * string);    (* [{ id, price }] *)
      metadata : option (gmap string Json);
      pause_collection : Optional PauseCollection.t
    }.
End SubscriptionUpdateParams.

Module CustomerCreateParams.
Record t := mk {
      email : option string;
      name : option string;
      metadata : gmap string Json
    }.
End CustomerCreateParams.

Inductive Request :=
    | SubscriptionsCreate (p : SubscriptionCreateParams.t)
    | SubscriptionsUpdate (id : string) (p : SubscriptionUpdateParams.t)
    | SubscriptionsRetrieve (id : string)
    | SubscriptionsCancel (id : string)      (* { invoice_now: false, prorate: false } *)
    | InvoicesRetrieve (id : string)
    | CustomersCreate (p : CustomerCreateParams.t)
    | CustomersUpdate (id : string) (email : string).

End Stripe.

(** ** Exceptions

    The HTTP exceptions that the service throws, the error of the
    processor's client, and the [RangeError] of
    [Date.prototype.toISOString]. *)

Inductive HttpException :=
  | BadRequestException (message : string)
  | ForbiddenException (message : string)
  | NotFoundException (message : string)
  | InternalServerErrorException (message : string)
  | StripeError (message : string)
  | RangeError (message : string).

(** ** The world: datastore tables and the trace of outside calls *)

Inductive Table := subscriptions_table | stripe_customers_table | plans_table.

Inductive Event :=
  | DbSelect (t : Table)
  | DbInsert (t : Table)
  | DbUpdate (t : Table)
  | DbDelete (t : Table)
  | StripeCall (r : Stripe.Request)
  | AuthGetUserById (uid : string).

Record World := mkWorld {
  subscriptions : list Subscription.t;
  stripe_customers : list CustomerRecord.t;
  plans : list Plan.t;
  trace : list Event;        (* oldest first *)
  clock_reads : nat;         (* [new Date()] evaluated so far *)
  generated : nat            (* rows inserted so far *)
}.

(** ** Promises: state passing with exceptions *)

Inductive Outcome (A : Type) :=
  | Fulfilled (a : A)
  | Rejected (e : HttpException).
Arguments Fulfilled {A} a.
Arguments Rejected {A} e.

Definition Promise (A : Type) : Type := World → Outcome A * World.

#[global] Instance Promise_ret : MRet Promise := λ A a w, (Fulfilled a, w).

#[global] Instance Promise_bind : MBind Promise := λ A B f m w,
  match m w with
  | (Fulfilled a, w') => f a w'
  | (Rejected e, w') => (Rejected e, w')
  end.

Definition throw {A} (e : HttpException) : Promise A := λ w, (Rejected e, w).

Definition log (ev : Event) (w : World) : World :=
  mkWorld (subscriptions w) (stripe_customers w) (plans w)
          (trace w ++ [ev]) (clock_reads w) (generated w).

Definition record (ev : Event) : Promise unit := λ w, (Fulfilled tt, log ev w).

Definition set_subscriptions (rows : list Subscription.t) (w : World) : World :=
  mkWorld rows (stripe_customers w) (plans w) (trace w) (clock_reads w) (generated w).

Definition set_stripe_customers (rows : list CustomerRecord.t) (w : World) : World :=
  mkWorld (subscriptions w) rows (plans w) (trace w) (clock_reads w) (generated w).

(** The processor calls of a trace, in order. *)
Definition stripe_calls (tr : list Event) : list Stripe.Request :=
  omap (λ ev, match ev with StripeCall r => Some r | _ => None end) tr.

Definition is_read (t : Table) (ev : Event) : bool :=
  match ev, t with
  | DbSelect subscriptions_table, subscriptions_table => true
  | DbSelect stripe_customers_table, stripe_customers_table => true
  | DbSelect plans_table, plans_table => true
  | _, _ => false
  end.

(** ** Datastore and runtime primitives *)

Definition gets {A} (f : World → A) : Promise A := λ w, (Fulfilled (f w), w).

Definition modify (f : World → World) : Promise unit := λ w, (Fulfilled tt, f w).

(** [.single()]: data only when exactly one row matches (an error otherwise). *)
Definition single {A} (rows : list A) : option A :=
  match rows with [r] => Some r | _ => None end.

(** [.maybeSingle()]: no row gives [null] data, several rows an error that
    the callers here do not read; data only for exactly one row. *)
Definition maybeSingle {A} (rows : list A) : option A :=
  match rows with [r] => Some r | _ => None end.

Definition dquote : string := String (ascii_of_nat 34) EmptyString.

(** What an [update] of the [subscriptions] table may carry: one optional
    entry per column ([None]: the key is absent or holds [undefined]). *)
Module Updates.
Record t := mk {
  user_id : option string;
  plan : option (option string);
  plan_id : option (option string);
  stripe_subscription_id : option (option string);
  stripe_customer_id : option (option string);
  status : option SubscriptionStatus;
  started_at : option (option string);
  current_period_start : option (option string);
  current_period_end : option (option string);
  ended_at : option (option string);
  cancel_at : option (option string);
  canceled_at : option (option string);
  stripe_invoice_url : option (option string);
  pause_reason : option (option string);
  cancel_reason : option (option string);
  metadata : option Json;
  last_event_at : option (option string)
}.

(** [Object.keys(updates).length]. *)
Definition keys (u : t) : nat :=
  let n {A} (o : option A) : nat := match o with Some _ => 1%nat | None => 0%nat end in
  (n (user_id u) + n (plan u) + n (plan_id u) + n (stripe_subscription_id u)
   + n (stripe_customer_id u) + n (status u) + n (started_at u)
   + n (current_period_start u) + n (current_period_end u) + n (ended_at u)
   + n (cancel_at u) + n (canceled_at u) + n (stripe_invoice_url u)
   + n (pause_reason u) + n (cancel_reason u) + n (metadata u)
   + n (last_event_at u))%nat.

(** The row after [.update(updates)]. *)
Definition apply (u : t) (r : Subscription.t) : Subscription.t :=
  Subscription.mk
    (Subscription.id r)
    (Subscription.created_at r)
    (default (Subscription.user_id r) (user_id u))
    (default (Subscription.plan r) (plan u))
    (default (Subscription.plan_id r) (plan_id u))
    (default (Subscription.stripe_subscription_id r) (stripe_subscription_id u))
    (default (Subscription.stripe_customer_id r) (stripe_customer_id u))
    (default (Subscription.status r) (status u))
    (default (Subscription.started_at r) (started_at u))
    (default (Subscription.current_period_start r) (current_period_start u))
    (default (Subscription.current_period_end r) (current_period_end u))
    (default (Subscription.ended_at r) (ended_at u))
    (default (Subscription.cancel_at r) (cancel_at u))
    (default (Subscription.canceled_at r) (canceled_at u))
    (default (Subscription.stripe_invoice_url r) (stripe_invoice_url u))
    (default (Subscription.pause_reason r) (pause_reason u))
    (default (Subscription.cancel_reason r) (cancel_reason u))
    (default (Subscription.metadata r) (to_jsonb <$> metadata u))
    (default (Subscription.last_event_at r) (last_event_at u)).
End Updates.

(** The [payload] object of [syncFromStripe]: every derivable column. *)
Module Payload.
Record t := mk {
  user_id : string;
  plan : option string;
  plan_id : option string;
  stripe_subscription_id : string;
  stripe_customer_id : string;
  status : SubscriptionStatus;
  started_at : option string;
  current_period_start : option string;
  current_period_end : option string;
  ended_at : option string;
  cancel_at : option string;
  canceled_at : option string;
  stripe_invoice_url : option string;
  pause_reason : option string;
  metadata : Json;
  last_event_at : string
}.

Definition with_canceled_at (v : option string) (p : t) : t :=
  mk (user_id p) (plan p) (plan_id p) (stripe_subscription_id p)
     (stripe_customer_id p) (status p) (started_at p) (current_period_start p)
     (current_period_end p) (ended_at p) (cancel_at p) v
     (stripe_invoice_url p) (pause_reason p) (metadata p) (last_event_at p).

(** The same sixteen columns as an [update]. *)
Definition updates (p : t) : Updates.t :=
  Updates.mk (Some (user_id p)) (Some (plan p)) (Some (plan_id p))
    (Some (Some (stripe_subscription_id p))) (Some (Some (stripe_customer_id p)))
    (Some (status p)) (Some (started_at p)) (Some (current_period_start p))
    (Some (current_period_end p)) (Some (ended_at p)) (Some (cancel_at p))
    (Some (canceled_at p)) (Some (stripe_invoice_url p)) (Some (pause_reason p))
    None (Some (metadata p)) (Some (Some (last_event_at p))).

(** The row that [.insert([payload])] creates: [id] and [created_at] are
    the column defaults, [cancel_reason] is left [NULL]. *)
Definition row (new_id new_created_at : string) (p : t) : Subscription.t :=
  Subscription.mk new_id new_created_at
    (user_id p) (plan p) (plan_id p)
    (Some (stripe_subscription_id p)) (Some (stripe_customer_id p))
    (status p) (started_at p) (current_period_start p) (current_period_end p)
    (ended_at p) (cancel_at p) (canceled_at p) (stripe_invoice_url p)
    (pause_reason p) None (to_jsonb (metadata p)) (Some (last_event_at p)).
End Payload.

(** The timestamps that [syncFromStripe] converts for its payload. *)
Module Timestamps.
Record t := mk {
  started_at : option string;
  current_period_start : option string;
  current_period_end : option string;
  ended_at : option string;
  cancel_at : option string;
  canceled_at : option string
}.
End Timestamps.

(** ** The constraints of the [subscriptions] table

    [user_id UUID NOT NULL] with [FOREIGN KEY (user_id) REFERENCES users
    (id)] and [plan TEXT NOT NULL] (migration 003);
    [stripe_subscription_id TEXT UNIQUE] and [plan_id UUID REFERENCES
    plans(id)] (migration 006).  The service always sends a [status] and
    an object as [metadata], and never an [id]. *)
Inductive Violation :=
  | subscriptions_user_id_fkey
  | subscriptions_plan_not_null
  | subscriptions_stripe_subscription_id_key
  | subscriptions_plan_id_fkey.

(** What lies outside the repository. *)
Class Runtime := {
  subscriptions_create : Stripe.SubscriptionCreateParams.t → string + Stripe.Subscription.t;
  subscriptions_update : string → Stripe.SubscriptionUpdateParams.t → string + Stripe.Subscription.t;
  subscriptions_retrieve : string → string + Stripe.Subscription.t;
  subscriptions_cancel : string → string + Stripe.Subscription.t;
  (** [invoices.retrieve(id)] when it is the request that follows [asked]
      earlier requests to the processor. *)
  invoices_retrieve : nat → string → string + Stripe.Invoice.t;
  customers_create : Stripe.CustomerCreateParams.t → string + Stripe.Customer.t;
  customers_update : string → string → string + Stripe.Customer.t;
  (** [supabase.auth.admin.getUserById(uid)], giving [data?.user?.email]. *)
  getUserById : string → option string;
  (** [new Date(ms).toISOString()] for a time value in the range of [Date]. *)
  toISOString : Z → string;
  (** [new Date().toISOString()] at the n-th reading of the clock. *)
  now : nat → string;
  (** The [DEFAULT gen_random_uuid()] and [DEFAULT NOW()] of an inserted row. *)
  gen_random_uuid : nat → string;
  db_now : nat → string;
  (** The [users] table: whether the datastore reads the text as the id
      of one of its rows. *)
  user_exists : string → bool;
  (** The [error.message] with which the datastore refuses a write that
      violates the listed constraints, given the columns sent. *)
  error_message : list Violation → Updates.t → string
}.

(** [sanitizePayload] deletes the keys that hold [undefined]; in an
    [Updates.t] such a key and an absent key are the same [None]. *)
Definition sanitizePayload (payload : Updates.t) : Updates.t := payload.

Module EnsureCustomerOptions.
Record t := mk {
  userId : string;
  email : option string;
  name : option string;
  metadata : option (gmap string Json)
}.
End EnsureCustomerOptions.

Module PriceResolution.
Record t := mk {
  priceId : option string;
  planId : option string;
  planName : option string
}.
End PriceResolution.

Section Service.
Context `{Runtime}.

(** [new Date().toISOString()]. *)
Definition Date_now : Promise string := λ w,
  (Fulfilled (now (clock_reads w)),
   mkWorld (subscriptions w) (stripe_customers w) (plans w) (trace w)
           (S (clock_reads w)) (generated w)).

(** The next [(gen_random_uuid(), NOW())] pair of the datastore. *)
Definition fresh_defaults : Promise (string * string) := λ w,
  (Fulfilled (gen_random_uuid (generated w), db_now (generated w)),
   mkWorld (subscriptions w) (stripe_customers w) (plans w) (trace w)
           (clock_reads w) (S (generated w))).

(** A call of the processor's client: the request is traced, a failure of
    the processor is thrown. *)
Definition stripe {A} (r : Stripe.Request) (response : string + A) : Promise A :=
  record (StripeCall r);;
  match response with
  | inr a => mret a
  | inl message => throw (StripeError message)
  end.

(** ** PlansService *)

Definition PlansService_findOne (id : string) : Promise Plan.t :=
  record (DbSelect plans_table);;
  rows ← gets plans;
  match single (List.filter (λ p, String.eqb (Plan.id p) id) rows) with
  | Some plan => mret plan
  | None => throw (NotFoundException ("Plan with id " +:+ dquote +:+ id +:+ dquote +:+ " not found"))
  end.

Definition PlansService_findByStripePrice (priceId : string) : Promise (option Plan.t) :=
  record (DbSelect plans_table);;
  rows ← gets plans;
  mret (maybeSingle (List.filter (λ p, String.eqb (Plan.stripe_price_id p) priceId) rows)).

(** ** CustomersService *)

Definition CustomersService_findByUserId (userId : string) : Promise (option CustomerRecord.t) :=
  record (DbSelect stripe_customers_table);;
  rows ← gets stripe_customers;
  mret (maybeSingle (List.filter (λ c, String.eqb (CustomerRecord.user_id c) userId) rows)).

Definition fetchUserEmail (userId : string) : Promise (option string) :=
  record (AuthGetUserById userId);;
  mret (getUserById userId).

(** [updateLocal(id, { email })]. *)
Definition updateLocal (id : string) (email : string) : Promise CustomerRecord.t :=
  t ← Date_now;
  record (DbUpdate stripe_customers_table);;
  modify (λ w, set_stripe_customers
    (map (λ c, if String.eqb (CustomerRecord.id c) id
               then CustomerRecord.mk (CustomerRecord.id c) (CustomerRecord.user_id c)
                      (CustomerRecord.stripe_customer_id c) (Some email)
                      (CustomerRecord.metadata c) (CustomerRecord.created_at c) t
               else c) (stripe_customers w)) w);;
  rows ← gets stripe_customers;
  match single (List.filter (λ c, String.eqb (CustomerRecord.id c) id) rows) with
  | Some data => mret data
  | None => throw (InternalServerErrorException "Failed to update stripe customer mapping")
  end.

Definition ensureCustomer (options : EnsureCustomerOptions.t) : Promise CustomerRecord.t :=
  existing ← CustomersService_findByUserId (EnsureCustomerOptions.userId options);
  email ← match EnsureCustomerOptions.email options with
           | Some e => mret (Some e)
           | None => fetchUserEmail (EnsureCustomerOptions.userId options)
           end;
  match existing with
  | Some existing =>
      match email with
      | Some e =>
          if negb (String.eqb e EmptyString)
             && negb (bool_decide (CustomerRecord.email existing = Some e))
          then
            stripe (Stripe.CustomersUpdate (CustomerRecord.stripe_customer_id existing) e)
                   (customers_update (CustomerRecord.stripe_customer_id existing) e);;
            updateLocal (CustomerRecord.id existing) e;;
            mret existing
          else mret existing
      | None => mret existing
      end
  | None =>
      let params :=
        Stripe.CustomerCreateParams.mk email (EnsureCustomerOptions.name options)
          (assign {[ "user_id" := JStr (EnsureCustomerOptions.userId options) ]}
                  (default ∅ (EnsureCustomerOptions.metadata options))) in
      customer ← stripe (Stripe.CustomersCreate params) (customers_create params);
      t ← Date_now;
      defaults ← fresh_defaults;
      let data :=
        CustomerRecord.mk defaults.1
          (EnsureCustomerOptions.userId options)
          (Stripe.Customer.id customer)
          (Stripe.Customer.email customer ?? email)
          (to_jsonb
             match Stripe.Customer.metadata customer with
             | Some m => JObj (JStr <$> m)
             | None => JObj (default ∅ (EnsureCustomerOptions.metadata options))
             end)
          defaults.2 t in
      record (DbInsert stripe_customers_table);;
      modify (λ w, set_stripe_customers (stripe_customers w ++ [data]) w);;
      mret data
  end.

(** ** SubscriptionsService: private helpers *)

Definition ensureUserCanStartNew (userId : string) : Promise unit :=
  record (DbSelect subscriptions_table);;
  rows ← gets subscriptions;
  let data :=
    take 1 (List.filter
              (λ r, String.eqb (Subscription.user_id r) userId
                    && includes (ACTIVE_STATUSES ++ [Paused]) (Subscription.status r))
              rows) in
  if (0 <? List.length data)%nat
  then throw (BadRequestException "An active subscription already exists for this user")
  else mret tt.

Definition ensureAccess (subscription : Subscription.t) (requesterId : string)
    (isAdmin : bool) : Promise unit :=
  if isAdmin then mret tt
  else if negb (String.eqb (Subscription.user_id subscription) requesterId)
  then throw (ForbiddenException "You are not allowed to access this subscription")
  else mret tt.

Definition getById (id : string) : Promise Subscription.t :=
  if negb (isValidUUID id)
  then throw (BadRequestException "Invalid subscription identifier")
  else
    record (DbSelect subscriptions_table);;
    rows ← gets subscriptions;
    match single (List.filter (λ r, String.eqb (Subscription.id r) id) rows) with
    | Some data => mret data
    | None =>
        throw (NotFoundException
                 ("Subscription with id " +:+ dquote +:+ id +:+ dquote +:+ " not found"))
    end.

Definition findByStripeSubscriptionId (stripeId : string) : Promise (option Subscription.t) :=
  record (DbSelect subscriptions_table);;
  rows ← gets subscriptions;
  mret (maybeSingle
          (List.filter
             (λ r, bool_decide (Subscription.stripe_subscription_id r = Some stripeId))
             rows)).

(** The constraints whose test is positive. *)
Definition violated (tests : list (Violation * bool)) : list Violation :=
  (List.filter snd tests).*1.

Definition some_row {A} (rows : list A) : bool :=
  match rows with [] => false | _ => true end.

(** The constraints that [.update(updates).eq('id', id)] violates.  A row
    that is stored satisfies them, so only what the update changes can
    violate one: a foreign key is checked when a row is given another key
    than it had, [NOT NULL] when the column is set to null, [UNIQUE] when
    a row that the update does not touch already carries the value. *)
Definition update_violations (id : string) (updates : Updates.t) (w : World)
  : list Violation :=
  let targets := List.filter (λ r, String.eqb (Subscription.id r) id) (subscriptions w) in
  let others :=
    List.filter (λ r, negb (String.eqb (Subscription.id r) id)) (subscriptions w) in
  violated
    [ (subscriptions_user_id_fkey,
       match Updates.user_id updates with
       | Some user_id =>
           existsb (λ r, negb (String.eqb (Subscription.user_id r) user_id)) targets
           && negb (user_exists user_id)
       | None => false
       end);
      (subscriptions_plan_not_null,
       some_row targets && bool_decide (Updates.plan updates = Some None));
      (subscriptions_stripe_subscription_id_key,
       match Updates.stripe_subscription_id updates with
       | Some (Some stripeId) =>
           some_row targets
           && bool_decide (Some stripeId ∈ Subscription.stripe_subscription_id <$> others)
       | _ => false
       end);
      (subscriptions_plan_id_fkey,
       match Updates.plan_id updates with
       | Some (Some plan_id) =>
           existsb (λ r, negb (bool_decide (Subscription.plan_id r = Some plan_id))) targets
           && bool_decide (plan_id ∉ Plan.id <$> plans w)
       | _ => false
       end) ].

(** The constraints that [.insert([payload])] violates. *)
Definition insert_violations (payload : Payload.t) (w : World) : list Violation :=
  violated
    [ (subscriptions_user_id_fkey, negb (user_exists (Payload.user_id payload)));
      (subscriptions_plan_not_null, bool_decide (Payload.plan payload = None));
      (subscriptions_stripe_subscription_id_key,
       bool_decide (Some (Payload.stripe_subscription_id payload)
                    ∈ Subscription.stripe_subscription_id <$> subscriptions w));
      (subscriptions_plan_id_fkey,
       match Payload.plan_id payload with
       | Some plan_id => bool_decide (plan_id ∉ Plan.id <$> plans w)
       | None => false
       end) ].

(** The [error] of a write, as the service throws it:
    [`Failed to ${what} subscription: ${error.message}`]. *)
Definition refusal (what : string) (sent : Updates.t) (violations : list Violation)
  : option HttpException :=
  match violations with
  | [] => None
  | _ =>
      Some (InternalServerErrorException
              ("Failed to " +:+ what +:+ " subscription: "
               +:+ error_message violations sent))
  end.

(** [.update(updates).eq('id', id)], followed by [if (error) throw]. *)
Definition update_by_id (what id : string) (updates : Updates.t) : Promise unit :=
  record (DbUpdate subscriptions_table);;
  violations ← gets (update_violations id updates);
  match refusal what updates violations with
  | Some error => throw error
  | None =>
      modify (λ w, set_subscriptions
        (map (λ r, if String.eqb (Subscription.id r) id then Updates.apply updates r else r)
             (subscriptions w)) w)
  end.

(** [.insert([payload])], followed by [if (error) throw]. *)
Definition insert_payload (payload : Payload.t) : Promise unit :=
  record (DbInsert subscriptions_table);;
  violations ← gets (insert_violations payload);
  match refusal "insert" (Payload.updates payload) violations with
  | Some error => throw error
  | None =>
      defaults ← fresh_defaults;
      modify (λ w, set_subscriptions
        (subscriptions w ++ [Payload.row defaults.1 defaults.2 payload]) w)
  end.

(** [.delete().eq('id', id)]: no table refers to [subscriptions], so no
    constraint can refuse it. *)
Definition delete_by_id (id : string) : Promise unit :=
  record (DbDelete subscriptions_table);;
  modify (λ w, set_subscriptions
    (List.filter (λ r, negb (String.eqb (Subscription.id r) id)) (subscriptions w)) w).

Definition resolvePrice (plan_id stripe_price_id plan : option string)
  : Promise PriceResolution.t :=
  match nonempty plan_id with
  | Some plan_id =>
      plan ← PlansService_findOne plan_id;
      mret (PriceResolution.mk (Some (Plan.stripe_price_id plan))
                               (Some (Plan.id plan)) (Some (Plan.name plan)))
  | None =>
      match nonempty stripe_price_id with
      | Some stripe_price_id =>
          found ← PlansService_findByStripePrice stripe_price_id;
          mret (PriceResolution.mk (Some stripe_price_id)
                                   (Plan.id <$> found)
                                   ((Plan.name <$> found) ?? plan))
      | None => mret (PriceResolution.mk None None plan)
      end
  end.

Definition invoice_url (invoice : Stripe.Invoice.t) : option string :=
  Stripe.Invoice.hosted_invoice_url invoice ?? Stripe.Invoice.invoice_pdf invoice.

Definition extractInvoiceUrl (subscription : Stripe.Subscription.t)
  : Promise (option string) :=
  match Stripe.Subscription.latest_invoice subscription with
  | Stripe.NoInvoice => mret None
  | Stripe.InvoiceId latestInvoice =>
      if String.eqb latestInvoice EmptyString then mret None
      else
        (* try { ... } catch { return null } *)
        asked ← gets (λ w, List.length (stripe_calls (trace w)));
        record (StripeCall (Stripe.InvoicesRetrieve latestInvoice));;
        match invoices_retrieve asked latestInvoice with
        | inr invoice => mret (invoice_url invoice)
        | inl _ => mret None
        end
  | Stripe.InvoiceObject latestInvoice => mret (invoice_url latestInvoice)
  end.

Definition mapStripeStatus (subscription : Stripe.Subscription.t) : SubscriptionStatus :=
  match Stripe.Subscription.pause_collection subscription with
  | Some _ => Paused
  | None =>
      let status := Stripe.Subscription.status subscription in
      if String.eqb status "active" then Active
      else if String.eqb status "trialing" then Trialing
      else if String.eqb status "past_due" then PastDue
      else if String.eqb status "canceled" then Canceled
      else if String.eqb status "incomplete" then Incomplete
      else if String.eqb status "incomplete_expired" then IncompleteExpired
      else if String.eqb status "unpaid" then Unpaid
      else Expired
  end.

(** The time values of a [Date]: 100,000,000 days on either side of the
    epoch, in milliseconds.  Outside of them the date is invalid. *)
Definition valid_time_value (ms : Z) : bool := (Z.abs ms <=? 8640000000000000)%Z.

(** [toISOString] throws a [RangeError] on an invalid date. *)
Definition convertTimestamp (value : option Z) : Promise (option string) :=
  match nonzero value with
  | None => mret None
  | Some value =>
      if valid_time_value (value * 1000)
      then mret (Some (toISOString (value * 1000)))
      else throw (RangeError "Invalid time value")
  end.

(** The six conversions of the [payload] literal, in its order. *)
Definition convertTimestamps (subscription : Stripe.Subscription.t) : Promise Timestamps.t :=
  started_at ← convertTimestamp (Stripe.Subscription.start_date subscription);
  current_period_start ← convertTimestamp (Stripe.Subscription.current_period_start subscription);
  current_period_end ← convertTimestamp (Stripe.Subscription.current_period_end subscription);
  ended_at ← convertTimestamp (Stripe.Subscription.ended_at subscription);
  cancel_at ← convertTimestamp (Stripe.Subscription.cancel_at subscription);
  canceled_at ← convertTimestamp (Stripe.Subscription.canceled_at subscription);
  mret (Timestamps.mk started_at current_period_start current_period_end
                      ended_at cancel_at canceled_at).

Definition mergeMetadata (existing : option Json) (custom : option (gmap string Json))
    (stripeMetadata : option (gmap string string)) : Json :=
  let metadata : gmap string Json :=
    match existing with
    | Some (JObj existing) => existing
    | _ => ∅
    end in
  let metadata :=
    match custom with
    | Some custom =>
        if (0 <? size custom)%nat
        then
          let previous :=
            match metadata !! "custom" with
            | Some v => if nullish v then ∅ else spread v
            | None => ∅
            end in
          <["custom" := JObj (assign previous custom)]> metadata
        else metadata
    | None => metadata
    end in
  let stripe_key :=
    match stripeMetadata with
    | Some stripeMetadata => JObj (JStr <$> stripeMetadata)
    | None =>
        match metadata !! "stripe" with
        | Some v => if nullish v then JObj ∅ else v
        | None => JObj ∅
        end
    end in
  JObj (<["stripe" := stripe_key]> metadata).

(** ** The reconciliation routine *)

Definition customer_id (customer : Stripe.CustomerRef) : option string :=
  match customer with
  | Stripe.CustomerId s => Some s
  | Stripe.CustomerObject id => id
  | Stripe.NoCustomer => None
  end.

(** The [payload] literal of [syncFromStripe], given the timestamps that
    its conversions return, with the adjustment of [canceled_at] that
    follows it (whose conversion of [ended_at] gives what the one of the
    literal gave). *)
Definition sync_payload (existing : option Subscription.t) (plan : option Plan.t)
    (invoiceUrl : option string) (userId stripeCustomerId : string)
    (subscription : Stripe.Subscription.t) (customMetadata : gmap string Json)
    (timestamps : Timestamps.t) (last_event_at : string) : Payload.t :=
  let price := head (Stripe.Subscription.items subscription) ≫= Stripe.Item.price in
  let metadata :=
    mergeMetadata (Subscription.metadata <$> existing) (Some customMetadata)
      (Some (default ∅ (Stripe.Subscription.metadata subscription))) in
  let payload :=
    Payload.mk
      userId
      ((Plan.name <$> plan) ?? (existing ≫= Subscription.plan)
         ?? (price ≫= Stripe.Price.nickname))
      ((Plan.id <$> plan) ?? (existing ≫= Subscription.plan_id))
      (Stripe.Subscription.id subscription)
      stripeCustomerId
      (mapStripeStatus subscription)
      (Timestamps.started_at timestamps)
      (Timestamps.current_period_start timestamps)
      (Timestamps.current_period_end timestamps)
      (Timestamps.ended_at timestamps)
      (Timestamps.cancel_at timestamps)
      (Timestamps.canceled_at timestamps)
      (invoiceUrl ?? (existing ≫= Subscription.stripe_invoice_url))
      (Stripe.PauseCollection.behavior <$> Stripe.Subscription.pause_collection subscription)
      metadata
      last_event_at in
  if String.eqb (Stripe.Subscription.status subscription) "canceled"
     && negb (truthy (Payload.canceled_at payload))
     && bool_decide (is_Some (nonzero (Stripe.Subscription.ended_at subscription)))
  then Payload.with_canceled_at (Timestamps.ended_at timestamps) payload
  else payload.

Definition syncFromStripe (subscription : Stripe.Subscription.t)
    (customMetadata : gmap string Json) : Promise unit :=
  existing ← findByStripeSubscriptionId (Stripe.Subscription.id subscription);
  match nonempty (customer_id (Stripe.Subscription.customer subscription)) with
  | None => mret tt
  | Some stripeCustomerId =>
    let userId := Subscription.user_id <$> existing in
    userId ←
      (if truthy userId then mret userId
       else
         record (DbSelect stripe_customers_table);;
         rows ← gets stripe_customers;
         let mapping :=
           maybeSingle
             (List.filter
                (λ c, String.eqb (CustomerRecord.stripe_customer_id c) stripeCustomerId)
                rows) in
         mret (CustomerRecord.user_id <$> mapping));
    let hint := Stripe.Subscription.metadata subscription ≫= (λ m, m !! "user_id") in
    let userId := if negb (truthy userId) && truthy hint then hint else userId in
    match nonempty userId with
    | None => mret tt
    | Some userId =>
      let price := head (Stripe.Subscription.items subscription) ≫= Stripe.Item.price in
      plan ←
        match price with
        | Some price =>
            if String.eqb (Stripe.Price.id price) EmptyString then mret None
            else PlansService_findByStripePrice (Stripe.Price.id price)
        | None => mret None
        end;
      invoiceUrl ← extractInvoiceUrl subscription;
      timestamps ← convertTimestamps subscription;
      last_event_at ← Date_now;
      let payload :=
        sync_payload existing plan invoiceUrl userId stripeCustomerId
                     subscription customMetadata timestamps last_event_at in
      match nonempty (Subscription.id <$> existing) with
      | Some id => update_by_id "update" id (Payload.updates payload)
      | None => insert_payload payload
      end
    end
  end.

(** [dto.x !== undefined ? (dto.x ?? null) : <absent>]. *)
Definition defined_or_null {A} (o : Optional A) : option (option A) :=
  match o with
  | Absent => None
  | Null => Some None
  | Given a => Some (Some a)
  end.

(** ** SubscriptionsService: public operations *)

Definition create (requester : User.t) (dto : CreateSubscriptionDto.t) (isAdmin : bool)
  : Promise Subscription.t :=
  let targetUserId := default (User.id requester) (CreateSubscriptionDto.user_id dto) in
  if negb (isValidUUID targetUserId)
  then throw (BadRequestException "Invalid user identifier")
  else if negb isAdmin && negb (String.eqb targetUserId (User.id requester))
  then throw (ForbiddenException "You are not allowed to create subscriptions for other users")
  else
    ensureUserCanStartNew targetUserId;;
    priceResolution ← resolvePrice (CreateSubscriptionDto.plan_id dto)
                        (CreateSubscriptionDto.stripe_price_id dto)
                        (CreateSubscriptionDto.plan dto);
    match nonempty (PriceResolution.priceId priceResolution) with
    | None =>
        throw (BadRequestException
                 "A valid plan_id or stripe_price_id is required to create a subscription")
    | Some priceId =>
        let self := String.eqb targetUserId (User.id requester) in
        customerRecord ← ensureCustomer
          (EnsureCustomerOptions.mk targetUserId
             (if self then User.email requester else None)
             (if self then User.full_name requester ?? User.email requester else None)
             (CreateSubscriptionDto.metadata dto));
        let params :=
          Stripe.SubscriptionCreateParams.mk
            (CustomerRecord.stripe_customer_id customerRecord)
            priceId
            (CreateSubscriptionDto.trial_period_days dto)
            (assign
               (<["plan_name" :=
                    of_string_opt (PriceResolution.planName priceResolution
                                   ?? CreateSubscriptionDto.plan dto)]>
                  (<["plan_id" := of_string_opt (PriceResolution.planId priceResolution)]>
                     {[ "user_id" := JStr targetUserId ]}))
               (default ∅ (CreateSubscriptionDto.metadata dto))) in
        subscription ← stripe (Stripe.SubscriptionsCreate params) (subscriptions_create params);
        syncFromStripe subscription (default ∅ (CreateSubscriptionDto.metadata dto));;
        created ← findByStripeSubscriptionId (Stripe.Subscription.id subscription);
        match created with
        | Some created => mret created
        | None =>
            throw (InternalServerErrorException
                     "Failed to persist subscription after Stripe creation")
        end
    end.

Definition findOne (id requesterId : string) (isAdmin : bool) : Promise Subscription.t :=
  subscription ← getById id;
  ensureAccess subscription requesterId isAdmin;;
  mret subscription.

(** The [updates] object that [update] builds after its processor branch. *)
Definition update_updates (subscription : Subscription.t) (dto : UpdateSubscriptionDto.t)
    (metadataMerged : bool) (nowIso : string) : Updates.t :=
  let local := negb (truthy (Subscription.stripe_subscription_id subscription)) in
  Updates.mk
    None                                              (* delete updates.user_id *)
    (if local && truthy (UpdateSubscriptionDto.plan dto)
     then Some (UpdateSubscriptionDto.plan dto) else None)
    (if local && truthy (UpdateSubscriptionDto.plan_id dto)
     then Some (UpdateSubscriptionDto.plan_id dto) else None)
    None
    None
    (if local then UpdateSubscriptionDto.status dto else None)
    (if truthy (UpdateSubscriptionDto.started_at dto)
     then Some (UpdateSubscriptionDto.started_at dto) else None)
    None
    None
    (defined_or_null (UpdateSubscriptionDto.ended_at dto))
    None
    None
    (defined_or_null (UpdateSubscriptionDto.stripe_invoice_url dto))
    (defined_or_null (UpdateSubscriptionDto.pause_reason dto))
    (defined_or_null (UpdateSubscriptionDto.cancel_reason dto))
    (match UpdateSubscriptionDto.metadata dto with
     | Some custom =>
         if negb metadataMerged
         then Some (mergeMetadata (Some (Subscription.metadata subscription)) (Some custom) None)
         else None
     | None => None
     end)
    (Some (Some nowIso)).

Definition update (id requesterId : string) (dto : UpdateSubscriptionDto.t) (isAdmin : bool)
  : Promise Subscription.t :=
  subscription ← getById id;
  ensureAccess subscription requesterId isAdmin;;
  metadataMerged ←
    match nonempty (Subscription.stripe_subscription_id subscription) with
    | Some stripe_subscription_id =>
        currentStripe ← stripe (Stripe.SubscriptionsRetrieve stripe_subscription_id)
                          (subscriptions_retrieve stripe_subscription_id);
        priceResolution ← resolvePrice (UpdateSubscriptionDto.plan_id dto)
                            (UpdateSubscriptionDto.stripe_price_id dto)
                            (UpdateSubscriptionDto.plan dto);
        let firstItem := head (Stripe.Subscription.items currentStripe) in
        let items :=
          match nonempty (PriceResolution.priceId priceResolution), firstItem with
          | Some priceId, Some firstItem =>
              if bool_decide (Some priceId
                              ≠ (Stripe.Price.id <$> Stripe.Item.price firstItem))
              then Some (Stripe.Item.id firstItem, priceId)
              else None
          | _, _ => None
          end in
        let metadata :=
          match UpdateSubscriptionDto.metadata dto with
          | Some custom =>
              if (0 <? size custom)%nat
              then Some (assign
                           (JStr <$> default ∅ (Stripe.Subscription.metadata currentStripe))
                           custom)
              else None
          | None => None
          end in
        let updateParams := Stripe.SubscriptionUpdateParams.mk items metadata Absent in
        (if bool_decide (is_Some items ∨ is_Some metadata)
         then
           updatedStripe ← stripe (Stripe.SubscriptionsUpdate stripe_subscription_id updateParams)
                             (subscriptions_update stripe_subscription_id updateParams);
           syncFromStripe updatedStripe (default ∅ (UpdateSubscriptionDto.metadata dto))
         else
           syncFromStripe currentStripe (default ∅ (UpdateSubscriptionDto.metadata dto)));;
        mret true
    | None => mret false
    end;
  nowIso ← Date_now;
  let updates := sanitizePayload (update_updates subscription dto metadataMerged nowIso) in
  (if (1 <? Updates.keys updates)%nat then update_by_id "update" id updates else mret tt);;
  getById id.

(** The [updates] object of [pause]. *)
Definition pause_updates (subscription : Subscription.t) (dto : PauseSubscriptionDto.t)
    (nowIso : string) : Updates.t :=
  let local := negb (truthy (Subscription.stripe_subscription_id subscription)) in
  Updates.mk None None None None None
    (if local then Some Paused else None)
    None None None
    (if local then Some (Some nowIso) else None)
    None None None
    (Some (PauseSubscriptionDto.reason dto))
    None None
    (Some (Some nowIso)).

Definition pause (id requesterId : string) (dto : PauseSubscriptionDto.t) (isAdmin : bool)
  : Promise Subscription.t :=
  subscription ← getById id;
  ensureAccess subscription requesterId isAdmin;;
  if negb (includes ACTIVE_STATUSES (Subscription.status subscription))
  then throw (BadRequestException "Only active subscriptions can be paused")
  else
    match nonempty (Subscription.stripe_subscription_id subscription) with
    | Some stripe_subscription_id =>
        let params :=
          Stripe.SubscriptionUpdateParams.mk None
            (if truthy (PauseSubscriptionDto.reason dto)
             then Some {[ "pause_reason" := of_string_opt (PauseSubscriptionDto.reason dto) ]}
             else None)
            (Given (Stripe.PauseCollection.mk "mark_uncollectible")) in
        updatedStripe ← stripe (Stripe.SubscriptionsUpdate stripe_subscription_id params)
                          (subscriptions_update stripe_subscription_id params);
        syncFromStripe updatedStripe
          {[ "pause_reason" := of_string_opt (PauseSubscriptionDto.reason dto) ]}
    | None => mret tt
    end;;
    nowIso ← Date_now;
    update_by_id "pause" id (sanitizePayload (pause_updates subscription dto nowIso));;
    getById id.

(** The [updates] object of [resume]. *)
Definition resume_updates (subscription : Subscription.t) (dto : ResumeSubscriptionDto.t)
    (nowIso : string) : Updates.t :=
  let local := negb (truthy (Subscription.stripe_subscription_id subscription)) in
  Updates.mk None
    (if truthy (ResumeSubscriptionDto.plan dto) && local
     then Some (ResumeSubscriptionDto.plan dto) else None)
    None None None
    (if local then Some Active else None)
    (if local && negb (truthy (Subscription.started_at subscription))
     then Some (Some nowIso) else None)
    None None
    (if local then Some None else None)
    None None
    (if truthy (ResumeSubscriptionDto.stripe_invoice_url dto)
     then Some (ResumeSubscriptionDto.stripe_invoice_url dto) else None)
    (Some None)
    None None
    (Some (Some nowIso)).

Definition resume (id requesterId : string) (dto : ResumeSubscriptionDto.t) (isAdmin : bool)
  : Promise Subscription.t :=
  subscription ← getById id;
  ensureAccess subscription requesterId isAdmin;;
  if negb (bool_decide (Subscription.status subscription = Paused))
  then throw (BadRequestException "Only paused subscriptions can be resumed")
  else
    match nonempty (Subscription.stripe_subscription_id subscription) with
    | Some stripe_subscription_id =>
        let params := Stripe.SubscriptionUpdateParams.mk None None Null in
        updatedStripe ← stripe (Stripe.SubscriptionsUpdate stripe_subscription_id params)
                          (subscriptions_update stripe_subscription_id params);
        syncFromStripe updatedStripe ∅
    | None => mret tt
    end;;
    nowIso ← Date_now;
    update_by_id "resume" id (sanitizePayload (resume_updates subscription dto nowIso));;
    getById id.

(** The [updates] object of [cancel]. *)
Definition cancel_updates (subscription : Subscription.t) (dto : CancelSubscriptionDto.t)
    (nowIso : string) : Updates.t :=
  let local := negb (truthy (Subscription.stripe_subscription_id subscription)) in
  Updates.mk None None None None None
    (if local then Some Canceled else None)
    None None None
    (if local then Some (Some nowIso) else None)
    None None
    (Some (CancelSubscriptionDto.stripe_invoice_url dto
           ?? Subscription.stripe_invoice_url subscription))
    None
    (Some (CancelSubscriptionDto.reason dto))
    None
    (Some (Some nowIso)).

Definition cancel (id requesterId : string) (dto : CancelSubscriptionDto.t) (isAdmin : bool)
  : Promise Subscription.t :=
  subscription ← getById id;
  ensureAccess subscription requesterId isAdmin;;
  if bool_decide (Subscription.status subscription = Canceled)
  then throw (BadRequestException "Subscription is already canceled")
  else
    match nonempty (Subscription.stripe_subscription_id subscription) with
    | Some stripe_subscription_id =>
        canceledStripe ← stripe (Stripe.SubscriptionsCancel stripe_subscription_id)
                           (subscriptions_cancel stripe_subscription_id);
        syncFromStripe canceledStripe
          {[ "cancel_reason" := of_string_opt (CancelSubscriptionDto.reason dto) ]}
    | None => mret tt
    end;;
    nowIso ← Date_now;
    update_by_id "cancel" id (sanitizePayload (cancel_updates subscription dto nowIso));;
    getById id.

Definition remove (id requesterId : string) (isAdmin : bool) : Promise unit :=
  subscription ← getById id;
  ensureAccess subscription requesterId isAdmin;;
  if negb isAdmin && negb (includes [Canceled; Expired] (Subscription.status subscription))
  then throw (BadRequestException "Only canceled or expired subscriptions can be deleted")
  else
    (if truthy (Subscription.stripe_subscription_id subscription)
        && negb (bool_decide (Subscription.status subscription = Canceled))
     then
       cancel id requesterId (CancelSubscriptionDto.mk (Some "Deleted via API") None) isAdmin;;
       mret tt
     else mret tt);;
    delete_by_id id.

Definition handleCheckoutSession (session : option Stripe.Session.t) : Promise unit :=
  match session with
  | None => mret tt
  | Some session =>
      if negb (bool_decide (Stripe.Session.mode session = Some "subscription"))
      then mret tt
      else
        let subscriptionId :=
          match Stripe.Session.subscription session with
          | Stripe.SubscriptionId s => Some s
          | Stripe.SubscriptionObject id => nonempty id
          | Stripe.NoSubscription => None
          end in
        match nonempty subscriptionId with
        | None => mret tt
        | Some subscriptionId =>
            subscription ← stripe (Stripe.SubscriptionsRetrieve subscriptionId)
                             (subscriptions_retrieve subscriptionId);
            let metadata : gmap string Json :=
              JStr <$> default ∅ (Stripe.Session.metadata session) in
            syncFromStripe subscription metadata
        end
  end.

End Service.

(** * Vocabulary of the statements *)

(** A measure for induction over JSON values. *)
Fixpoint json_size (j : Json) : nat :=
  match j with
  | JArr l => S (foldr (λ v n, (json_size v + n)%nat) 0%nat l)
  | JObj m => S (map_fold (λ _ v n, (json_size v + n)%nat) 0%nat m)
  | _ => 1%nat
  end.

(** What the datastore keeps of one property of an object. *)
Definition stored (v : Json) : option Json :=
  match v with JUndefined => None | _ => Some (to_jsonb v) end.

(** The object that [mergeMetadata] starts from. *)
Definition object_of (existing : option Json) : gmap string Json :=
  match existing with
  | Some (JObj existing) => existing
  | _ => ∅
  end.

(** The properties spread from [metadata.custom ?? {}]. *)
Definition previous_custom (metadata : gmap string Json) : gmap string Json :=
  match metadata !! "custom" with
  | Some v => if nullish v then ∅ else spread v
  | None => ∅
  end.

(** The row that [getById id] returns, if any. *)
Definition lookup_subscription (w : World) (id : string) : option Subscription.t :=
  if isValidUUID id
  then single (List.filter (λ r, String.eqb (Subscription.id r) id) (subscriptions w))
  else None.

(** The access check of [ensureAccess], as a test. *)
Definition may_access (subscription : Subscription.t) (requesterId : string)
    (isAdmin : bool) : bool :=
  isAdmin || String.eqb (Subscription.user_id subscription) requesterId.

(** The rows that carry a given external subscription id. *)
Definition rows_for (stripeId : string) (w : World) : list Subscription.t :=
  List.filter (λ r, bool_decide (Subscription.stripe_subscription_id r = Some stripeId))
              (subscriptions w).

(** The rows of the customer mapping for a given external customer id. *)
Definition mappings_for (stripeCustomerId : string) (w : World) : list CustomerRecord.t :=
  List.filter (λ c, String.eqb (CustomerRecord.stripe_customer_id c) stripeCustomerId)
              (stripe_customers w).

(** The user-id hint in the metadata of a snapshot. *)
Definition user_hint (subscription : Stripe.Subscription.t) : option string :=
  Stripe.Subscription.metadata subscription ≫= (λ m, m !! "user_id").

(** The primary key and the non-null owner column of the table: row ids
    are distinct and non-empty, owners are non-empty. *)
Definition well_formed (w : World) : bool :=
  bool_decide (NoDup (Subscription.id <$> subscriptions w))
  && forallb (λ r, negb (String.eqb (Subscription.id r) EmptyString)
                   && negb (String.eqb (Subscription.user_id r) EmptyString))
             (subscriptions w).

(** The identifier that the datastore gives to the next inserted row is
    new and non-empty. *)
Definition next_id_fresh `{Runtime} (w : World) : bool :=
  negb (String.eqb (gen_random_uuid (generated w)) EmptyString)
  && bool_decide (gen_random_uuid (generated w) ∉ (Subscription.id <$> subscriptions w)).

(** The derived fields of a row, as the reconciliation routine writes them. *)
Definition same_derived_fields (a b : Subscription.t) : Prop :=
  Subscription.user_id a = Subscription.user_id b
  ∧ Subscription.plan a = Subscription.plan b
  ∧ Subscription.plan_id a = Subscription.plan_id b
  ∧ Subscription.stripe_subscription_id a = Subscription.stripe_subscription_id b
  ∧ Subscription.stripe_customer_id a = Subscription.stripe_customer_id b
  ∧ Subscription.status a = Subscription.status b
  ∧ Subscription.started_at a = Subscription.started_at b
  ∧ Subscription.current_period_start a = Subscription.current_period_start b
  ∧ Subscription.current_period_end a = Subscription.current_period_end b
  ∧ Subscription.ended_at a = Subscription.ended_at b
  ∧ Subscription.cancel_at a = Subscription.cancel_at b
  ∧ Subscription.canceled_at a = Subscription.canceled_at b
  ∧ Subscription.stripe_invoice_url a = Subscription.stripe_invoice_url b
  ∧ Subscription.pause_reason a = Subscription.pause_reason b
  ∧ Subscription.metadata a = Subscription.metadata b.

(** The events that one reconciliation pass may add to the trace. *)
Definition sync_event (ev : Event) : Prop :=
  match ev with
  | DbSelect _ => True
  | DbInsert subscriptions_table | DbUpdate subscriptions_table => True
  | StripeCall (Stripe.InvoicesRetrieve _) => True
  | _ => False
  end.

(** The row that the reconciliation routine finds for a snapshot. *)
Definition existing_row (stripeId : string) (w : World) : option Subscription.t :=
  maybeSingle (rows_for stripeId w).

(** The owner that the customer mapping gives for an external customer id. *)
Definition mapped_user (stripeCustomerId : string) (w : World) : option string :=
  CustomerRecord.user_id <$> maybeSingle (mappings_for stripeCustomerId w).

(** The first line item's price and the plan mapped to it. *)
Definition first_price (subscription : Stripe.Subscription.t) : option Stripe.Price.t :=
  head (Stripe.Subscription.items subscription) ≫= Stripe.Item.price.

Definition priced_plan (subscription : Stripe.Subscription.t) (w : World) : option Plan.t :=
  match first_price subscription with
  | Some price =>
      if String.eqb (Stripe.Price.id price) EmptyString then None
      else maybeSingle
             (List.filter (λ p, String.eqb (Plan.stripe_price_id p) (Stripe.Price.id price))
                          (plans w))
  | None => None
  end.

(** The value of [extractInvoiceUrl] in a world: when the invoice has to
    be looked up, it is what the processor answers to the request that
    follows those of the trace. *)
Definition latest_invoice_url `{Runtime} (subscription : Stripe.Subscription.t)
    (w : World) : option string :=
  match Stripe.Subscription.latest_invoice subscription with
  | Stripe.NoInvoice => None
  | Stripe.InvoiceId latestInvoice =>
      if String.eqb latestInvoice EmptyString then None
      else match invoices_retrieve (List.length (stripe_calls (trace w))) latestInvoice with
           | inr invoice => invoice_url invoice
           | inl _ => None
           end
  | Stripe.InvoiceObject latestInvoice => invoice_url latestInvoice
  end.

(** A timestamp of the processor that [convertTimestamp] converts
    without an error, and what it returns for it. *)
Definition convertible (value : option Z) : bool :=
  match nonzero value with
  | Some value => valid_time_value (value * 1000)
  | None => true
  end.

Definition converted `{Runtime} (value : option Z) : option string :=
  (λ value, toISOString (value * 1000)) <$> nonzero value.

(** The six timestamps of a snapshot. *)
Definition timestamps_of (subscription : Stripe.Subscription.t) : list (option Z) :=
  [ Stripe.Subscription.start_date subscription;
    Stripe.Subscription.current_period_start subscription;
    Stripe.Subscription.current_period_end subscription;
    Stripe.Subscription.ended_at subscription;
    Stripe.Subscription.cancel_at subscription;
    Stripe.Subscription.canceled_at subscription ].

Definition timestamps_valid (subscription : Stripe.Subscription.t) : bool :=
  forallb convertible (timestamps_of subscription).

Definition converted_timestamps `{Runtime} (subscription : Stripe.Subscription.t)
  : Timestamps.t :=
  Timestamps.mk
    (converted (Stripe.Subscription.start_date subscription))
    (converted (Stripe.Subscription.current_period_start subscription))
    (converted (Stripe.Subscription.current_period_end subscription))
    (converted (Stripe.Subscription.ended_at subscription))
    (converted (Stripe.Subscription.cancel_at subscription))
    (converted (Stripe.Subscription.canceled_at subscription)).

(** The owner that one reconciliation pass attributes a snapshot to. *)
Definition resolved_user (subscription : Stripe.Subscription.t)
    (stripeCustomerId : string) (w : World) : option string :=
  let userId := Subscription.user_id <$> existing_row (Stripe.Subscription.id subscription) w in
  let userId := if truthy userId then userId else mapped_user stripeCustomerId w in
  let userId :=
    if negb (truthy userId) && truthy (user_hint subscription)
    then user_hint subscription else userId in
  nonempty userId.

(** The payload that one reconciliation pass builds once it has
    attributed the snapshot to a user, its timestamps being valid. *)
Definition reconciled_payload `{Runtime} (subscription : Stripe.Subscription.t)
    (customMetadata : gmap string Json) (w : World) : option Payload.t :=
  match nonempty (customer_id (Stripe.Subscription.customer subscription)) with
  | None => None
  | Some stripeCustomerId =>
      match resolved_user subscription stripeCustomerId w with
      | None => None
      | Some userId =>
          Some (sync_payload (existing_row (Stripe.Subscription.id subscription) w)
                  (priced_plan subscription w) (latest_invoice_url subscription w)
                  userId stripeCustomerId subscription customMetadata
                  (converted_timestamps subscription) (now (clock_reads w)))
      end
  end.

(** The error with which one reconciliation pass fails, if it does: a
    timestamp of the snapshot is out of range, or the datastore refuses
    the update or the insert. *)
Definition sync_error `{Runtime} (subscription : Stripe.Subscription.t)
    (customMetadata : gmap string Json) (w : World) : option HttpException :=
  match reconciled_payload subscription customMetadata w with
  | None => None
  | Some payload =>
      if timestamps_valid subscription
      then
        match nonempty (Subscription.id
                        <$> existing_row (Stripe.Subscription.id subscription) w) with
        | Some id =>
            refusal "update" (Payload.updates payload)
                    (update_violations id (Payload.updates payload) w)
        | None =>
            refusal "insert" (Payload.updates payload) (insert_violations payload w)
        end
      else Some (RangeError "Invalid time value")
  end.

Definition sync_outcome `{Runtime} (subscription : Stripe.Subscription.t)
    (customMetadata : gmap string Json) (w : World) : Outcome unit :=
  match sync_error subscription customMetadata w with
  | Some error => Rejected error
  | None => Fulfilled tt
  end.

(** The [subscriptions] table after one reconciliation pass: a pass
    that fails has written nothing. *)
Definition reconciled `{Runtime} (subscription : Stripe.Subscription.t)
    (customMetadata : gmap string Json) (w : World) : list Subscription.t :=
  match reconciled_payload subscription customMetadata w,
        sync_error subscription customMetadata w with
  | Some payload, None =>
      match nonempty (Subscription.id <$> existing_row (Stripe.Subscription.id subscription) w) with
      | Some id =>
          map (λ r, if String.eqb (Subscription.id r) id
                    then Updates.apply (Payload.updates payload) r else r)
              (subscriptions w)
      | None =>
          subscriptions w
          ++ [Payload.row (gen_random_uuid (generated w)) (db_now (generated w)) payload]
      end
  | _, _ => subscriptions w
  end.

(** A world whose trace has grown by some events. *)
Definition logs (evs : list Event) (w : World) : World :=
  mkWorld (subscriptions w) (stripe_customers w) (plans w)
          (trace w ++ evs) (clock_reads w) (generated w).

(** The mapping table of the specification, external status to canonical
    status; any other external status is [Expired]. *)
Definition status_table : list (string * SubscriptionStatus) :=
  [ ("active", Active); ("trialing", Trialing); ("past_due", PastDue);
    ("canceled", Canceled); ("incomplete", Incomplete);
    ("incomplete_expired", IncompleteExpired); ("unpaid", Unpaid) ].

Definition canonical_status (external : string) : SubscriptionStatus :=
  match List.find (λ entry, String.eqb external entry.1) status_table with
  | Some entry => entry.2
  | None => Expired
  end.

(** An operation was refused with [e]: nothing was written and the
    processor was not called. *)
Definition refused {A} (result : Outcome A * World) (w : World) (e : HttpException) : Prop :=
  result.1 = Rejected e
  ∧ subscriptions result.2 = subscriptions w
  ∧ stripe_customers result.2 = stripe_customers w
  ∧ stripe_calls (trace result.2) = stripe_calls (trace w).

(** A datastore read. *)
Definition is_select (ev : Event) : Prop :=
  match ev with DbSelect _ => True | _ => False end.

(** A computation relates every world to the world it leaves, whether it
    is fulfilled or rejected. *)
Definition frame (R : relation World) {A} (m : Promise A) : Prop :=
  ∀ w, R w (m w).2.

(** The [subscriptions] table is left as it was. *)
Definition same_rows : relation World :=
  λ w w', subscriptions w' = subscriptions w.

(** The processor calls made between two worlds all satisfy [P]. *)
Definition calls_only (P : Stripe.Request → Prop) : relation World :=
  λ w w', ∃ calls, stripe_calls (trace w') = stripe_calls (trace w) ++ calls
                   ∧ Forall P calls.

(** The identity and owner columns of the rows, in table order. *)
Definition owners (rows : list Subscription.t) : list (string * string) :=
  (λ r, (Subscription.id r, Subscription.user_id r)) <$> rows.

(** The rows that existed keep their identity and owner; rows may have
    been appended. *)
Definition keeps_owners : relation World :=
  λ w w', owners (subscriptions w) `prefix_of` owners (subscriptions w').

(** The same, for a well-formed table. *)
Definition keeps_owners_if_well_formed : relation World :=
  λ w w', well_formed w = true → keeps_owners w w'.

(** An [update] that writes neither the status nor a period field. *)
Definition writes_no_status_or_period (u : Updates.t) : Prop :=
  Updates.status u = None
  ∧ Updates.current_period_start u = None
  ∧ Updates.current_period_end u = None.

Definition same_status_and_period (a b : Subscription.t) : Prop :=
  Subscription.status a = Subscription.status b
  ∧ Subscription.current_period_start a = Subscription.current_period_start b
  ∧ Subscription.current_period_end a = Subscription.current_period_end b.

(** The three tables are left as they were. *)
Definition same_tables : relation World :=
  λ w w', subscriptions w' = subscriptions w
          ∧ stripe_customers w' = stripe_customers w
          ∧ plans w' = plans w.

(** Row by row, the status and the period fields are the same. *)
Definition same_status_columns : relation World :=
  λ w w', Forall2 same_status_and_period (subscriptions w) (subscriptions w').

(** The status and period fields of the table are those that the table
    had before, or those that one pass of [syncFromStripe] over the
    tables as they were before has left. *)
Definition status_by_reconciliation `{Runtime} : relation World :=
  λ w w', same_status_columns w w'
          ∨ ∃ w0 snapshot customMetadata,
              same_tables w w0
              ∧ same_status_columns (syncFromStripe snapshot customMetadata w0).2 w'.

(** The processor calls that [remove] may make. *)
Definition cancel_or_invoice (r : Stripe.Request) : Prop :=
  match r with
  | Stripe.SubscriptionsCancel _ | Stripe.InvoicesRetrieve _ => True
  | _ => False
  end.

(** The user holds a subscription whose status is active-like or paused. *)
Definition holds_slot (userId : string) (w : World) : Prop :=
  ∃ r, In r (subscriptions w)
       ∧ Subscription.user_id r = userId
       ∧ includes (ACTIVE_STATUSES ++ [Paused]) (Subscription.status r) = true.

(** The active-like subscriptions of a user. *)
Definition active_like_rows (userId : string) (w : World) : list Subscription.t :=
  List.filter (λ r, String.eqb (Subscription.user_id r) userId
                    && includes ACTIVE_STATUSES (Subscription.status r))
              (subscriptions w).

(** The derived columns of a row hold what a payload gave them. *)
Definition written_by (p : Payload.t) (r : Subscription.t) : Prop :=
  Subscription.user_id r = Payload.user_id p
  ∧ Subscription.plan r = Payload.plan p
  ∧ Subscription.plan_id r = Payload.plan_id p
  ∧ Subscription.stripe_subscription_id r = Some (Payload.stripe_subscription_id p)
  ∧ Subscription.stripe_customer_id r = Some (Payload.stripe_customer_id p)
  ∧ Subscription.status r = Payload.status p
  ∧ Subscription.started_at r = Payload.started_at p
  ∧ Subscription.current_period_start r = Payload.current_period_start p
  ∧ Subscription.current_period_end r = Payload.current_period_end p
  ∧ Subscription.ended_at r = Payload.ended_at p
  ∧ Subscription.cancel_at r = Payload.cancel_at p
  ∧ Subscription.canceled_at r = Payload.canceled_at p
  ∧ Subscription.stripe_invoice_url r = Payload.stripe_invoice_url p
  ∧ Subscription.pause_reason r = Payload.pause_reason p
  ∧ Subscription.metadata r = to_jsonb (Payload.metadata p).

(** * Sample data

    A concrete runtime and a few worlds on which the statements are
    exercised. *)

Definition alice : string := "11111111-1111-4111-8111-111111111111".
Definition row_a : string := "aaaaaaaa-aaaa-4aaa-8aaa-aaaaaaaaaaaa".
Definition row_b : string := "bbbbbbbb-bbbb-4bbb-8bbb-bbbbbbbbbbbb".

(** A snapshot with one line item, whose price has a nickname, and no
    invoice. *)
Definition snapshot (id : string) (customer : Stripe.CustomerRef) (status : string)
    (pause_collection : option Stripe.PauseCollection.t)
    (metadata : gmap string string) : Stripe.Subscription.t :=
  Stripe.Subscription.mk id customer (Some metadata)
    [Stripe.Item.mk "si_1" (Some (Stripe.Price.mk "price_gold" (Some "Gold")))]
    Stripe.NoInvoice status
    pause_collection (Some 1700000000) (Some 1700000000) (Some 1702592000)
    None None None.

Definition strings_of (metadata : gmap string Json) : gmap string string :=
  omap (λ v, match v with JStr s => Some s | _ => None end) metadata.

(** A processor that accepts every request and knows no invoice, an
    identity service that knows no email, a [users] table that holds
    [alice], and readable clocks and identifiers. *)
Definition sample_runtime : Runtime := {|
  subscriptions_create := λ p,
    inr (snapshot "sub_created"
           (Stripe.CustomerId (Stripe.SubscriptionCreateParams.customer p)) "active" None
           (strings_of (Stripe.SubscriptionCreateParams.metadata p)));
  subscriptions_update := λ id p,
    inr (snapshot id (Stripe.CustomerId "cus_alice") "active"
           match Stripe.SubscriptionUpdateParams.pause_collection p with
           | Given pc => Some pc
           | _ => None
           end ∅);
  subscriptions_retrieve := λ id,
    inr (snapshot id (Stripe.CustomerId "cus_alice") "active" None ∅);
  subscriptions_cancel := λ id,
    inr (snapshot id (Stripe.CustomerId "cus_alice") "canceled" None ∅);
  invoices_retrieve := λ _ _, inl "No such invoice";
  customers_create := λ p,
    inr (Stripe.Customer.mk "cus_created" (Stripe.CustomerCreateParams.email p) None);
  customers_update := λ id email, inr (Stripe.Customer.mk id (Some email) None);
  getUserById := λ _, None;
  toISOString := λ ms, "iso:" +:+ pretty ms;
  now := λ n, "now:" +:+ pretty n;
  gen_random_uuid := λ n, "00000000-0000-4000-8000-00000000000" +:+ pretty n;
  db_now := λ n, "db:" +:+ pretty n;
  user_exists := λ user_id, String.eqb user_id alice;
  error_message := λ _ _, "violates a constraint"
|}.

(** A local-only row of [alice]. *)
Definition local_row (status : SubscriptionStatus) : Subscription.t :=
  Subscription.mk row_a "2024-01-01T00:00:00.000Z" alice (Some "gold") None None None
    status None None None (Some "2024-02-01T00:00:00.000Z") None None None
    (Some "on holiday") None (JObj ∅) None.

(** An externally backed row of [alice] that holds a free-text pause reason. *)
Definition external_row (status : SubscriptionStatus) : Subscription.t :=
  Subscription.mk row_b "2024-01-01T00:00:00.000Z" alice (Some "gold") None
    (Some "sub_1") (Some "cus_alice")
    status (Some "2024-01-01T00:00:00.000Z") None None None None None None
    (Some "on holiday") None (JObj ∅) None.

Definition alice_customer : CustomerRecord.t :=
  CustomerRecord.mk "cccccccc-cccc-4ccc-8ccc-cccccccccccc" alice "cus_alice" None
    (JObj ∅) "2024-01-01T00:00:00.000Z" "2024-01-01T00:00:00.000Z".

Definition world_of (rows : list Subscription.t) (customers : list CustomerRecord.t) : World :=
  mkWorld rows customers [] [] 0 0.

Definition empty_world : World := world_of [] [].

(** A webhook snapshot of an unknown customer, with no [user_id] hint. *)
Definition orphan_snapshot : Stripe.Subscription.t :=
  snapshot "sub_orphan" (Stripe.CustomerId "cus_unknown") "active" None ∅.

(** A snapshot with no customer at all, but with a [user_id] hint. *)
Definition customerless_snapshot : Stripe.Subscription.t :=
  snapshot "sub_2" Stripe.NoCustomer "active" None {[ "user_id" := alice ]}.

(** A webhook snapshot of an unknown external id, with a [user_id] hint. *)
Definition hinted_snapshot : Stripe.Subscription.t :=
  snapshot "sub_3" (Stripe.CustomerId "cus_unknown") "trialing" None {[ "user_id" := alice ]}.

(** Two external subscriptions of the customer of [alice]. *)
Definition first_snapshot : Stripe.Subscription.t :=
  snapshot "sub_1" (Stripe.CustomerId "cus_alice") "active" None ∅.

Definition second_snapshot : Stripe.Subscription.t :=
  snapshot "sub_2" (Stripe.CustomerId "cus_alice") "active" None ∅.

(** The paused form of the first one. *)
Definition paused_snapshot : Stripe.Subscription.t :=
  snapshot "sub_1" (Stripe.CustomerId "cus_alice") "active"
    (Some (Stripe.PauseCollection.mk "mark_uncollectible")) ∅.

(** * Vocabulary of the further statements *)

(** The columns that [pause], [resume] and [cancel] never write on a
    local-only row. *)
Definition same_outside_lifecycle (a b : Subscription.t) : Prop :=
  Subscription.id a = Subscription.id b
  ∧ Subscription.created_at a = Subscription.created_at b
  ∧ Subscription.user_id a = Subscription.user_id b
  ∧ Subscription.plan_id a = Subscription.plan_id b
  ∧ Subscription.stripe_subscription_id a = Subscription.stripe_subscription_id b
  ∧ Subscription.stripe_customer_id a = Subscription.stripe_customer_id b
  ∧ Subscription.current_period_start a = Subscription.current_period_start b
  ∧ Subscription.current_period_end a = Subscription.current_period_end b
  ∧ Subscription.cancel_at a = Subscription.cancel_at b
  ∧ Subscription.canceled_at a = Subscription.canceled_at b
  ∧ Subscription.metadata a = Subscription.metadata b.

(** A property that the request body does not carry. *)
Definition absent {A} (o : Optional A) : bool :=
  match o with Absent => true | _ => false end.

(** A request body of [update] from which no column of a local-only row
    is set: every editable property is absent or falsy. *)
Definition sets_nothing (dto : UpdateSubscriptionDto.t) : bool :=
  bool_decide (UpdateSubscriptionDto.status dto = None)
  && negb (truthy (UpdateSubscriptionDto.plan dto))
  && negb (truthy (UpdateSubscriptionDto.plan_id dto))
  && negb (truthy (UpdateSubscriptionDto.started_at dto))
  && absent (UpdateSubscriptionDto.ended_at dto)
  && absent (UpdateSubscriptionDto.stripe_invoice_url dto)
  && absent (UpdateSubscriptionDto.pause_reason dto)
  && absent (UpdateSubscriptionDto.cancel_reason dto)
  && bool_decide (UpdateSubscriptionDto.metadata dto = None).

(** The character class that the pattern of [isValidUUID] asks for at a
    position, counted from 0: dashes after the 8th, 12th, 16th and 20th
    hexadecimal digit, a version digit and a variant digit at the head
    of the third and fourth group. *)
Definition uuid_class (i : nat) : ascii → bool :=
  if bool_decide (i ∈ [8; 13; 18; 23]%nat) then dash
  else if Nat.eqb i 14 then version_digit
  else if Nat.eqb i 19 then variant_digit
  else hex.

(** The endpoints of the payment processor that the services call. *)
Inductive Endpoint :=
  | SubscriptionsCreateEndpoint
  | SubscriptionsUpdateEndpoint
  | SubscriptionsRetrieveEndpoint
  | SubscriptionsCancelEndpoint
  | InvoicesRetrieveEndpoint
  | CustomersCreateEndpoint
  | CustomersUpdateEndpoint.

Definition endpoint (r : Stripe.Request) : Endpoint :=
  match r with
  | Stripe.SubscriptionsCreate _ => SubscriptionsCreateEndpoint
  | Stripe.SubscriptionsUpdate _ _ => SubscriptionsUpdateEndpoint
  | Stripe.SubscriptionsRetrieve _ => SubscriptionsRetrieveEndpoint
  | Stripe.SubscriptionsCancel _ => SubscriptionsCancelEndpoint
  | Stripe.InvoicesRetrieve _ => InvoicesRetrieveEndpoint
  | Stripe.CustomersCreate _ => CustomersCreateEndpoint
  | Stripe.CustomersUpdate _ _ => CustomersUpdateEndpoint
  end.

(** A request to one of the listed endpoints. *)
Definition among (endpoints : list Endpoint) (r : Stripe.Request) : Prop :=
  endpoint r ∈ endpoints.

(** A computation that never fails with an error of the processor. *)
Definition no_processor_error {A} (m : Promise A) : Prop :=
  ∀ w e w', m w = (Rejected e, w') → ∀ message, e ≠ StripeError message.

(** Whenever the computation fails with an error of the processor, the
    world it leaves is related to the one it started from. *)
Definition on_processor_error (R : relation World) {A} (m : Promise A) : Prop :=
  ∀ w message w', m w = (Rejected (StripeError message), w') → R w w'.

(** The external subscription that a checkout session refers to: the
    [subscription] property when it is an identifier, its [id] when it is
    an expanded object; an empty identifier counts as none. *)
Definition checkout_subscription_id (session : Stripe.Session.t) : option string :=
  nonempty match Stripe.Session.subscription session with
           | Stripe.SubscriptionId s => Some s
           | Stripe.SubscriptionObject id => nonempty id
           | Stripe.NoSubscription => None
           end.

(** The custom metadata that the checkout handler passes on. *)
Definition checkout_metadata (session : Stripe.Session.t) : gmap string Json :=
  JStr <$> default ∅ (Stripe.Session.metadata session).

(** ** The customer mapping *)

(** The mapping that [findByUserId] returns for a user. *)
Definition customer_of (userId : string) (w : World) : option CustomerRecord.t :=
  maybeSingle (List.filter (λ c, String.eqb (CustomerRecord.user_id c) userId)
                           (stripe_customers w)).

(** The email that [ensureCustomer] works with: the one of the options,
    or else the one that the identity service knows. *)
Definition known_email `{Runtime} (options : EnsureCustomerOptions.t) : option string :=
  match EnsureCustomerOptions.email options with
  | Some e => Some e
  | None => getUserById (EnsureCustomerOptions.userId options)
  end.

(** The request with which [ensureCustomer] creates a customer. *)
Definition customer_create_params `{Runtime} (options : EnsureCustomerOptions.t)
  : Stripe.CustomerCreateParams.t :=
  Stripe.CustomerCreateParams.mk (known_email options) (EnsureCustomerOptions.name options)
    (assign {[ "user_id" := JStr (EnsureCustomerOptions.userId options) ]}
            (default ∅ (EnsureCustomerOptions.metadata options))).

(** The columns of the mapping that identify it. *)
Definition mapping_keys (rows : list CustomerRecord.t) : list (string * string * string) :=
  (λ c, (CustomerRecord.id c, CustomerRecord.user_id c, CustomerRecord.stripe_customer_id c))
  <$> rows.

(** The mapping keeps its rows and their identifying columns; the other
    two tables are left as they were. *)
Definition same_mapping_keys : relation World :=
  λ w w', mapping_keys (stripe_customers w') = mapping_keys (stripe_customers w)
          ∧ subscriptions w' = subscriptions w
          ∧ plans w' = plans w.

(** ** Creation *)

(** The rows that the query of [ensureUserCanStartNew] matches. *)
Definition slot_rows (userId : string) (w : World) : list Subscription.t :=
  List.filter (λ r, String.eqb (Subscription.user_id r) userId
                    && includes (ACTIVE_STATUSES ++ [Paused]) (Subscription.status r))
              (subscriptions w).

(** The error with which [create] gives up when the row it has just
    reconciled cannot be read back. *)
Definition not_persisted : HttpException :=
  InternalServerErrorException "Failed to persist subscription after Stripe creation".

(** Whenever the computation is rejected with an error other than [e0],
    the world it leaves is related to the one it started from. *)
Definition unless_rejected_with (e0 : HttpException) (R : relation World) {A}
    (m : Promise A) : Prop :=
  ∀ w e w', m w = (Rejected e, w') → e ≠ e0 → R w w'.

(** * More of the services *)

(** What the remaining queries ask of the datastore beyond filtering.
    [ORDER BY created_at DESC] is the datastore's: the service relies on
    nothing but that it returns the rows it was given.  A [uuid] column
    takes a text only if the datastore reads it as a uuid, and stores it
    in its own spelling. *)
Class Datastore := {
  newest_first : list Subscription.t → list Subscription.t;
  newest_first_permutation rows : newest_first rows ≡ₚ rows;
  uuid_in : string → option string
}.

Section MoreService.
Context `{Runtime} `{Datastore}.

(** ** SubscriptionsService: the finders

    [findMine] and [findMyActive] are called with the identifier of the
    authenticated user, a uuid; [findByUserId] checks its argument
    itself.  As for the other queries, the error that the datastore
    raises when it is unavailable or cannot read a filter value is left
    out. *)

Definition findMine (userId : string) : Promise (list Subscription.t) :=
  record (DbSelect subscriptions_table);;
  rows ← gets subscriptions;
  mret (newest_first
          (List.filter (λ r, String.eqb (Subscription.user_id r) userId) rows)).

Definition findMyActive (userId : string) : Promise (option Subscription.t) :=
  record (DbSelect subscriptions_table);;
  rows ← gets subscriptions;
  mret (maybeSingle
          (take 1
             (newest_first
                (List.filter
                   (λ r, String.eqb (Subscription.user_id r) userId
                         && includes ACTIVE_STATUSES (Subscription.status r))
                   rows)))).

Definition findByUserId (userId : string) : Promise (list Subscription.t) :=
  if negb (isValidUUID userId)
  then throw (BadRequestException "Invalid user identifier")
  else
    record (DbSelect subscriptions_table);;
    rows ← gets subscriptions;
    mret (newest_first
            (List.filter (λ r, String.eqb (Subscription.user_id r) userId) rows)).

(** ** CustomersService: the customer webhook *)

(** [.insert([row])] into [stripe_customers], whose error the caller does
    not read: the row is stored only if [user_id] is a uuid and neither
    [user_id] nor [stripe_customer_id] is taken (both columns are
    [UNIQUE]). *)
Definition insert_customer (user_id stripe_customer_id : string) (email : option string)
    (metadata : Json) (updated_at : string) : Promise unit :=
  record (DbInsert stripe_customers_table);;
  rows ← gets stripe_customers;
  match uuid_in user_id with
  | Some user_id =>
      if bool_decide (user_id ∉ (CustomerRecord.user_id <$> rows))
         && bool_decide (stripe_customer_id ∉ (CustomerRecord.stripe_customer_id <$> rows))
      then
        defaults ← fresh_defaults;
        modify (λ w, set_stripe_customers
          (stripe_customers w
           ++ [CustomerRecord.mk defaults.1 user_id stripe_customer_id email
                 (to_jsonb metadata) defaults.2 updated_at]) w)
      else mret tt
  | None => mret tt
  end.

Definition CustomersService_syncFromStripe (customer : Stripe.Customer.t) : Promise unit :=
  record (DbSelect stripe_customers_table);;
  rows ← gets stripe_customers;
  let data :=
    maybeSingle
      (List.filter
         (λ c, String.eqb (CustomerRecord.stripe_customer_id c) (Stripe.Customer.id customer))
         rows) in
  updated_at ← Date_now;
  let email := Stripe.Customer.email customer in
  let metadata := JObj (JStr <$> default ∅ (Stripe.Customer.metadata customer)) in
  match nonempty (CustomerRecord.id <$> data) with
  | Some id =>
      record (DbUpdate stripe_customers_table);;
      modify (λ w, set_stripe_customers
        (map (λ c, if String.eqb (CustomerRecord.id c) id
                   then CustomerRecord.mk (CustomerRecord.id c) (CustomerRecord.user_id c)
                          (CustomerRecord.stripe_customer_id c) email (to_jsonb metadata)
                          (CustomerRecord.created_at c) updated_at
                   else c) (stripe_customers w)) w)
  | None =>
      match nonempty (Stripe.Customer.metadata customer ≫= (λ m, m !! "user_id")) with
      | None => mret tt
      | Some user_id =>
          updated_at ← Date_now;
          insert_customer user_id (Stripe.Customer.id customer) email metadata updated_at
      end
  end.

End MoreService.

(** A datastore that returns rows in the reverse of their table order
    and takes the identifiers that [isValidUUID] accepts, as they are. *)
Definition sample_datastore : Datastore := {|
  newest_first := reverse;
  newest_first_permutation := reverse_Permutation;
  uuid_in := λ s, if isValidUUID s then Some s else None
|}.


(** ** The requests of [create] *)

(** The options with which [create] asks for the customer. *)
Definition customer_options_of (requester : User.t) (dto : CreateSubscriptionDto.t)
  : EnsureCustomerOptions.t :=
  let targetUserId := default (User.id requester) (CreateSubscriptionDto.user_id dto) in
  let self := String.eqb targetUserId (User.id requester) in
  EnsureCustomerOptions.mk targetUserId
    (if self then User.email requester else None)
    (if self then User.full_name requester ?? User.email requester else None)
    (CreateSubscriptionDto.metadata dto).

(** The request with which [create] asks for the subscription, for a
    customer and a resolved price. *)
Definition subscription_create_params (requester : User.t) (dto : CreateSubscriptionDto.t)
    (customer priceId : string) (priceResolution : PriceResolution.t)
  : Stripe.SubscriptionCreateParams.t :=
  let targetUserId := default (User.id requester) (CreateSubscriptionDto.user_id dto) in
  Stripe.SubscriptionCreateParams.mk customer priceId
    (CreateSubscriptionDto.trial_period_days dto)
    (assign
       (<["plan_name" :=
            of_string_opt (PriceResolution.planName priceResolution
                           ?? CreateSubscriptionDto.plan dto)]>
          (<["plan_id" := of_string_opt (PriceResolution.planId priceResolution)]>
             {[ "user_id" := JStr targetUserId ]}))
       (default ∅ (CreateSubscriptionDto.metadata dto))).


(** A plan and a world that offers it to the customer of [alice]. *)
Definition gold_plan : Plan.t :=
  Plan.mk "dddddddd-dddd-4ddd-8ddd-dddddddddddd" "Gold" "prod_gold" "price_gold".

Definition shop_world : World := mkWorld [] [alice_customer] [gold_plan] [] 0 0.


(** A mapping row after [updateLocal] has given it an email. *)
Definition with_email (email updated_at : string) (c : CustomerRecord.t) : CustomerRecord.t :=
  CustomerRecord.mk (CustomerRecord.id c) (CustomerRecord.user_id c)
    (CustomerRecord.stripe_customer_id c) (Some email) (CustomerRecord.metadata c)
    (CustomerRecord.created_at c) updated_at.

(** Two mapping rows that differ at most in [updated_at]. *)
Definition same_but_updated_at (a b : CustomerRecord.t) : Prop :=
  CustomerRecord.id a = CustomerRecord.id b
  ∧ CustomerRecord.user_id a = CustomerRecord.user_id b
  ∧ CustomerRecord.stripe_customer_id a = CustomerRecord.stripe_customer_id b
  ∧ CustomerRecord.email a = CustomerRecord.email b
  ∧ CustomerRecord.metadata a = CustomerRecord.metadata b
  ∧ CustomerRecord.created_at a = CustomerRecord.created_at b.


(** The mapping table after one run of the customer webhook, given the
    two readings of the clock and the defaults of an inserted row. *)
Definition synced_customers `{Datastore} (customer : Stripe.Customer.t)
    (updated_at inserted_at new_id new_created_at : string)
    (rows : list CustomerRecord.t) : list CustomerRecord.t :=
  let email := Stripe.Customer.email customer in
  let metadata := to_jsonb (JObj (JStr <$> default ∅ (Stripe.Customer.metadata customer))) in
  let data :=
    maybeSingle
      (List.filter
         (λ c, String.eqb (CustomerRecord.stripe_customer_id c) (Stripe.Customer.id customer))
         rows) in
  match nonempty (CustomerRecord.id <$> data) with
  | Some id =>
      map (λ c, if String.eqb (CustomerRecord.id c) id
                then CustomerRecord.mk (CustomerRecord.id c) (CustomerRecord.user_id c)
                       (CustomerRecord.stripe_customer_id c) email metadata
                       (CustomerRecord.created_at c) updated_at
                else c) rows
  | None =>
      match nonempty (Stripe.Customer.metadata customer ≫= (λ m, m !! "user_id"))
            ≫= uuid_in with
      | Some user_id =>
          if bool_decide (user_id ∉ (CustomerRecord.user_id <$> rows))
             && bool_decide (Stripe.Customer.id customer
                             ∉ (CustomerRecord.stripe_customer_id <$> rows))
          then rows ++ [CustomerRecord.mk new_id user_id (Stripe.Customer.id customer)
                          email metadata new_created_at inserted_at]
          else rows
      | None => rows
      end
  end.


(** * Lemmas on JSON values *)

Lemma json_size_elem l v : v ∈ l → (json_size v < json_size (JArr l))%nat.
Proof. simpl. induction 1; simpl; lia. Qed.

Lemma json_size_lookup (m : gmap string Json) k v :
  m !! k = Some v → (json_size v < json_size (JObj m))%nat.
Proof.
  intros Hk. simpl.
  rewrite <- (insert_delete_id m k v Hk).
  rewrite map_fold_insert_L.
  - lia.
  - intros. lia.
  - apply lookup_delete_eq.
Qed.

Lemma Json_size_ind (P : Json → Prop) :
  P JUndefined → P JNull → (∀ b, P (JBool b)) → (∀ z, P (JNum z)) → (∀ s, P (JStr s)) →
  (∀ l, Forall P l → P (JArr l)) →
  (∀ m : gmap string Json, map_Forall (λ _, P) m → P (JObj m)) →
  ∀ j, P j.
Proof.
  intros ? ? ? ? ? Harr Hobj j.
  remember (json_size j) as n eqn:Hn.
  revert j Hn. induction n as [n IH] using lt_wf_ind. intros j ->.
  destruct j; auto.
  - apply Harr. apply Forall_forall. intros v Hv.
    eapply IH; [|reflexivity]. by apply json_size_elem.
  - apply Hobj. intros k v Hk. eapply IH; [|reflexivity]. by eapply json_size_lookup.
Qed.

Lemma to_jsonb_obj m : to_jsonb (JObj m) = JObj (omap stored m).
Proof. reflexivity. Qed.

Lemma stored_obj m : stored (JObj m) = Some (JObj (omap stored m)).
Proof. reflexivity. Qed.

Lemma stored_to_jsonb v : stored (to_jsonb v) = Some (to_jsonb (to_jsonb v)).
Proof. by destruct v. Qed.

Lemma stored_cases v : stored v = None ∨ stored v = Some (to_jsonb v).
Proof. destruct v; auto. Qed.

Lemma to_jsonb_idem j : to_jsonb (to_jsonb j) = to_jsonb j.
Proof.
  induction j as [| |b|z|s|l IH|m IH] using Json_size_ind; try reflexivity.
  - simpl. f_equal. rewrite map_map. apply map_ext_Forall.
    eapply Forall_impl; [exact IH|]. auto.
  - rewrite !to_jsonb_obj. f_equal. apply map_eq. intros k.
    rewrite !lookup_omap. destruct (m !! k) as [v|] eqn:Hk; [|done]. simpl.
    destruct (stored_cases v) as [-> | ->]; [done|]. simpl.
    rewrite stored_to_jsonb. f_equal. by apply (IH k v).
Qed.

#[local] Arguments stored : simpl never.
#[local] Arguments to_jsonb : simpl never.

Lemma stored_idem v : stored v ≫= stored = stored v.
Proof.
  destruct (stored_cases v) as [-> | ->]; [done|]. simpl.
  by rewrite stored_to_jsonb, to_jsonb_idem.
Qed.

Lemma omap_stored_idem (m : gmap string Json) : omap stored (omap stored m) = omap stored m.
Proof.
  apply map_eq. intros k. rewrite !lookup_omap.
  destruct (m !! k) as [v|]; [|done]. simpl. apply stored_idem.
Qed.

Lemma mergeMetadata_unfold existing custom stripeMetadata :
  mergeMetadata existing (Some custom) (Some stripeMetadata)
  = JObj (<["stripe" := JObj (JStr <$> stripeMetadata)]>
            (if (0 <? size custom)%nat
             then <["custom" := JObj (assign (previous_custom (object_of existing)) custom)]>
                    (object_of existing)
             else object_of existing)).
Proof.
  unfold mergeMetadata, previous_custom, object_of.
  by destruct (0 <? size custom)%nat.
Qed.

Lemma stored_strings (m : gmap string string) :
  stored (JObj (JStr <$> m)) = Some (JObj (JStr <$> m)).
Proof.
  unfold stored. rewrite to_jsonb_obj. do 2 f_equal. apply map_eq. intros k.
  rewrite lookup_omap, !lookup_fmap. by destruct (m !! k).
Qed.


Lemma assign_stored_idem (prev custom : gmap string Json) :
  omap stored (assign (omap stored (assign prev custom)) custom)
  = omap stored (assign prev custom).
Proof.
  apply map_eq. intros j. unfold assign.
  rewrite !lookup_omap, !lookup_union, lookup_omap, lookup_union.
  destruct (custom !! j) as [v|]; simpl.
  - by rewrite !union_Some_l.
  - rewrite !(left_id_L None _).
    destruct (prev !! j) as [v|]; [|done]. simpl. apply stored_idem.
Qed.

(** Storing a merged metadata object and merging the same custom and
    processor metadata into it again stores the same object. *)
Lemma mergeMetadata_stored_idem existing custom stripeMetadata :
  to_jsonb (mergeMetadata
              (Some (to_jsonb (mergeMetadata existing (Some custom) (Some stripeMetadata))))
              (Some custom) (Some stripeMetadata))
  = to_jsonb (mergeMetadata existing (Some custom) (Some stripeMetadata)).
Proof.
  rewrite (mergeMetadata_unfold existing). rewrite to_jsonb_obj.
  rewrite mergeMetadata_unfold. rewrite to_jsonb_obj.
  change (object_of (Some (JObj ?m))) with m.
  set (m0 := object_of existing). set (sm := JObj (JStr <$> stripeMetadata)).
  assert (Hsm : stored sm = Some sm) by apply stored_strings.
  f_equal. apply map_eq. intros k. rewrite !lookup_omap.
  destruct (decide (k = "stripe")) as [->|Hstripe].
  { by rewrite !lookup_insert_eq. }
  rewrite !(lookup_insert_ne _ "stripe") by done.
  destruct (0 <? size custom)%nat eqn:Hsz.
  - destruct (decide (k = "custom")) as [->|Hcustom].
    + rewrite !lookup_insert_eq. simpl. rewrite !stored_obj. do 2 f_equal.
      unfold previous_custom at 1. rewrite lookup_omap.
      rewrite lookup_insert_ne by done. rewrite lookup_insert_eq. simpl.
      apply assign_stored_idem.
    + rewrite !(lookup_insert_ne _ "custom") by done.
      rewrite lookup_omap.
      rewrite lookup_insert_ne by done. rewrite lookup_insert_ne by done.
      destruct (m0 !! k) as [v|]; [|done]. simpl. apply stored_idem.
  - rewrite lookup_omap. rewrite lookup_insert_ne by done.
    destruct (m0 !! k) as [v|]; [|done]. simpl. apply stored_idem.
Qed.

(** * Running promises *)

#[local] Arguments single : simpl never.
#[local] Arguments maybeSingle : simpl never.
#[local] Arguments isValidUUID : simpl never.
#[local] Arguments nonempty : simpl never.
#[local] Arguments truthy : simpl never.
#[local] Arguments update_by_id : simpl never.
#[local] Arguments insert_payload : simpl never.
#[local] Arguments update_violations : simpl never.
#[local] Arguments insert_violations : simpl never.

Section Properties.
Context `{Runtime}.

Lemma bind_unfold {A B} (m : Promise A) (f : A → Promise B) (w : World) :
  (m ≫= f) w = match m w with
               | (Fulfilled a, w') => f a w'
               | (Rejected e, w') => (Rejected e, w')
               end.
Proof. reflexivity. Qed.

Lemma logs_nil w : logs [] w = w.
Proof. destruct w. unfold logs. simpl. by rewrite app_nil_r. Qed.

Lemma logs_logs evs1 evs2 w : logs evs2 (logs evs1 w) = logs (evs1 ++ evs2) w.
Proof. unfold logs. simpl. by rewrite app_assoc. Qed.

Lemma log_logs ev evs w : log ev (logs evs w) = logs (evs ++ [ev]) w.
Proof. unfold log, logs. simpl. by rewrite app_assoc. Qed.

Lemma extractInvoiceUrl_run subscription w :
  ∃ evs, extractInvoiceUrl subscription w
         = (Fulfilled (latest_invoice_url subscription w), logs evs w)
         ∧ Forall sync_event evs.
Proof.
  unfold extractInvoiceUrl, latest_invoice_url.
  destruct (Stripe.Subscription.latest_invoice subscription) as [s|i|].
  - destruct (String.eqb s EmptyString).
    + exists []. by rewrite logs_nil.
    + exists [StripeCall (Stripe.InvoicesRetrieve s)].
      rewrite !bind_unfold. simpl.
      destruct (invoices_retrieve _ s); (split; [reflexivity|]); by repeat constructor.
  - exists []. by rewrite logs_nil.
  - exists []. by rewrite logs_nil.
Qed.

(** Reads of the datastore do not move the processor on. *)
Lemma stripe_calls_selects evs tr :
  Forall is_select evs → stripe_calls (tr ++ evs) = stripe_calls tr.
Proof.
  intros Hevs. unfold stripe_calls. rewrite omap_app.
  assert (Hnone : omap (λ ev, match ev with StripeCall r => Some r | _ => None end) evs
                  = []).
  { induction Hevs as [|ev evs Hev _ IH]; [done|]. by destruct ev. }
  by rewrite Hnone, app_nil_r.
Qed.

Lemma latest_invoice_url_selects subscription evs w :
  Forall is_select evs →
  latest_invoice_url subscription (logs evs w) = latest_invoice_url subscription w.
Proof.
  intros Hevs. unfold latest_invoice_url, logs. simpl.
  by rewrite (stripe_calls_selects _ _ Hevs).
Qed.

Lemma convertTimestamp_run value w :
  convertTimestamp value w
  = (if convertible value then Fulfilled (converted value)
     else Rejected (RangeError "Invalid time value"), w).
Proof.
  unfold convertTimestamp, convertible, converted.
  destruct (nonzero value) as [v|]; [|done]. simpl.
  by destruct (valid_time_value (v * 1000)).
Qed.

Lemma convertTimestamps_run subscription w :
  convertTimestamps subscription w
  = (if timestamps_valid subscription then Fulfilled (converted_timestamps subscription)
     else Rejected (RangeError "Invalid time value"), w).
Proof.
  unfold convertTimestamps, timestamps_valid, timestamps_of, converted_timestamps.
  cbn [forallb].
  repeat (rewrite bind_unfold, convertTimestamp_run;
          destruct (convertible _); cbn [andb]; [|reflexivity]).
  reflexivity.
Qed.

(** ** Writes to the [subscriptions] table *)

Lemma update_by_id_run what id updates w :
  update_by_id what id updates w
  = match refusal what updates (update_violations id updates w) with
    | Some error => (Rejected error, log (DbUpdate subscriptions_table) w)
    | None =>
        (Fulfilled tt,
         set_subscriptions
           (map (λ r, if String.eqb (Subscription.id r) id
                      then Updates.apply updates r else r) (subscriptions w))
           (log (DbUpdate subscriptions_table) w))
    end.
Proof.
  unfold update_by_id, record, gets. rewrite !bind_unfold.
  change (update_violations id updates (log (DbUpdate subscriptions_table) w))
    with (update_violations id updates w).
  by destruct (refusal what updates (update_violations id updates w)).
Qed.

Lemma insert_payload_run payload w :
  insert_payload payload w
  = match refusal "insert" (Payload.updates payload) (insert_violations payload w) with
    | Some error => (Rejected error, log (DbInsert subscriptions_table) w)
    | None =>
        (Fulfilled tt,
         set_subscriptions
           (subscriptions w
            ++ [Payload.row (gen_random_uuid (generated w)) (db_now (generated w)) payload])
           (mkWorld (subscriptions w) (stripe_customers w) (plans w)
                    (trace w ++ [DbInsert subscriptions_table]) (clock_reads w)
                    (S (generated w))))
    end.
Proof.
  unfold insert_payload, record, gets. rewrite !bind_unfold.
  change (insert_violations payload (log (DbInsert subscriptions_table) w))
    with (insert_violations payload w).
  by destruct (refusal "insert" (Payload.updates payload) (insert_violations payload w)).
Qed.

Lemma violated_nil tests : Forall (λ test, test.2 = false) tests → violated tests = [].
Proof.
  unfold violated. induction 1 as [|[v b] tests Hb _ IH]; [done|].
  simpl in *. by rewrite Hb.
Qed.

(** An update that sets none of the constrained columns, or sets [plan]
    to a text, is never refused. *)
Lemma update_violations_free id updates w :
  Updates.user_id updates = None →
  Updates.plan updates ≠ Some None →
  Updates.stripe_subscription_id updates = None →
  Updates.plan_id updates = None →
  update_violations id updates w = [].
Proof.
  intros Hu Hp Hs Hpid. unfold update_violations. rewrite Hu, Hs, Hpid.
  apply violated_nil. repeat constructor. simpl.
  rewrite (bool_decide_eq_false_2 _ Hp). by rewrite andb_false_r.
Qed.

Lemma update_violations_tables id updates w w' :
  subscriptions w' = subscriptions w → plans w' = plans w →
  update_violations id updates w' = update_violations id updates w.
Proof. intros Hs Hp. unfold update_violations. by rewrite Hs, Hp. Qed.

Lemma insert_violations_tables payload w w' :
  subscriptions w' = subscriptions w → plans w' = plans w →
  insert_violations payload w' = insert_violations payload w.
Proof. intros Hs Hp. unfold insert_violations. by rewrite Hs, Hp. Qed.

Lemma guarded_text_not_null (text : option string) (guard : bool) :
  (if truthy text && guard then Some text else None) ≠ Some None.
Proof. unfold truthy. by destruct text, guard; simpl; try destruct (String.eqb _ _). Qed.

(** The patches of [pause], [resume] and [cancel] set no constrained
    column to anything that the schema could refuse. *)
Lemma pause_updates_free subscription dto nowIso id w :
  update_violations id (pause_updates subscription dto nowIso) w = [].
Proof. by apply update_violations_free. Qed.

Lemma resume_updates_free subscription dto nowIso id w :
  update_violations id (resume_updates subscription dto nowIso) w = [].
Proof.
  apply update_violations_free; try done. simpl. apply guarded_text_not_null.
Qed.

Lemma cancel_updates_free subscription dto nowIso id w :
  update_violations id (cancel_updates subscription dto nowIso) w = [].
Proof. by apply update_violations_free. Qed.

(** A patch that the datastore accepts. *)
Lemma update_by_id_accepted what id updates w :
  update_violations id updates w = [] →
  update_by_id what id updates w
  = (Fulfilled tt,
     set_subscriptions
       (map (λ r, if String.eqb (Subscription.id r) id
                  then Updates.apply updates r else r) (subscriptions w))
       (log (DbUpdate subscriptions_table) w)).
Proof. intros Hfree. by rewrite update_by_id_run, Hfree. Qed.

Lemma violated_nil_inv tests : violated tests = [] → Forall (λ test, test.2 = false) tests.
Proof.
  unfold violated. induction tests as [|[v b] tests IH]; [constructor|].
  simpl. destruct b; [done|]. intros Hrest. constructor; [done|]. by apply IH.
Qed.

Lemma refusal_None what sent violations :
  refusal what sent violations = None → violations = [].
Proof. by destruct violations. Qed.

(** When an update is accepted: on the one row that it selects, the
    owner is the one the row has or a user that exists, the plan is not
    null, no other row carries the external id, and the plan id is the
    one the row has or that of a plan. *)
Lemma update_violations_nil id u w e :
  List.filter (λ r, String.eqb (Subscription.id r) id) (subscriptions w) = [e] →
  (∀ user_id, Updates.user_id u = Some user_id →
     Subscription.user_id e = user_id ∨ user_exists user_id = true) →
  Updates.plan u ≠ Some None →
  (∀ stripeId, Updates.stripe_subscription_id u = Some (Some stripeId) →
     ∀ r, In r (subscriptions w) →
          Subscription.stripe_subscription_id r = Some stripeId → Subscription.id r = id) →
  (∀ plan_id, Updates.plan_id u = Some (Some plan_id) →
     Subscription.plan_id e = Some plan_id ∨ plan_id ∈ Plan.id <$> plans w) →
  update_violations id u w = [].
Proof.
  intros Ht Huser Hplan Hsid Hpid. unfold update_violations. rewrite Ht.
  apply violated_nil. repeat constructor; simpl.
  - destruct (Updates.user_id u) as [user_id|]; [|done].
    destruct (Huser _ eq_refl) as [->| ->]; [|by rewrite andb_false_r].
    by rewrite String.eqb_refl.
  - by rewrite (bool_decide_eq_false_2 _ Hplan).
  - destruct (Updates.stripe_subscription_id u) as [[stripeId|]|]; try done.
    apply bool_decide_eq_false. intros Hin.
    apply list_elem_of_fmap in Hin as (r & Hr & Hin).
    apply list_elem_of_In, filter_In in Hin as [Hin Hother].
    rewrite (Hsid _ eq_refl r Hin (eq_sym Hr)), String.eqb_refl in Hother. done.
  - destruct (Updates.plan_id u) as [[plan_id|]|]; try done.
    destruct (Hpid _ eq_refl) as [->|Hin].
    + by rewrite bool_decide_eq_true_2.
    + rewrite (bool_decide_eq_false_2 (plan_id ∉ _)) by tauto. by rewrite andb_false_r.
Qed.

(** An update that is accepted has not set the plan of its row to null. *)
Lemma update_accepted_plan id u w e :
  List.filter (λ r, String.eqb (Subscription.id r) id) (subscriptions w) = [e] →
  update_violations id u w = [] → Updates.plan u ≠ Some None.
Proof.
  intros Ht Hv. unfold update_violations in Hv. rewrite Ht in Hv.
  apply violated_nil_inv in Hv.
  inversion Hv as [|? ? _ Hv1]; subst. inversion Hv1 as [|? ? Hplan _]; subst.
  simpl in Hplan. by apply bool_decide_eq_false in Hplan.
Qed.

(** When an insert is accepted. *)
Lemma insert_violations_nil payload w :
  insert_violations payload w = []
  ↔ user_exists (Payload.user_id payload) = true
    ∧ Payload.plan payload ≠ None
    ∧ List.filter (λ r, bool_decide (Subscription.stripe_subscription_id r
                                     = Some (Payload.stripe_subscription_id payload)))
                  (subscriptions w) = []
    ∧ (∀ plan_id, Payload.plan_id payload = Some plan_id → plan_id ∈ Plan.id <$> plans w).
Proof.
  unfold insert_violations. split.
  - intros Hv. apply violated_nil_inv in Hv.
    inversion Hv as [|? ? Huser Hv1]; subst. inversion Hv1 as [|? ? Hplan Hv2]; subst.
    inversion Hv2 as [|? ? Hsid Hv3]; subst. inversion Hv3 as [|? ? Hpid _]; subst.
    simpl in *. split; [by destruct (user_exists _)|].
    split; [by apply bool_decide_eq_false in Hplan|]. split.
    + apply bool_decide_eq_false in Hsid.
      destruct (List.filter _ (subscriptions w)) as [|r rows] eqn:Hf; [done|].
      assert (Hin : In r (List.filter
                            (λ r, bool_decide (Subscription.stripe_subscription_id r
                                               = Some (Payload.stripe_subscription_id payload)))
                            (subscriptions w))) by (rewrite Hf; by left).
      apply filter_In in Hin as [Hin Heq]. apply bool_decide_eq_true in Heq.
      destruct Hsid. rewrite <- Heq. apply list_elem_of_fmap. exists r.
      split; [done|]. by apply list_elem_of_In.
    + intros plan_id Heq. rewrite Heq in Hpid. apply bool_decide_eq_false in Hpid.
      by apply dec_stable.
  - intros (Huser & Hplan & Hsid & Hpid). apply violated_nil. repeat constructor; simpl.
    + by rewrite Huser.
    + by apply bool_decide_eq_false.
    + apply bool_decide_eq_false. intros Hin.
      apply list_elem_of_fmap in Hin as (r & Hr & Hin).
      assert (Hf : In r []); [|done]. rewrite <- Hsid. apply filter_In.
      split; [by apply list_elem_of_In|]. by apply bool_decide_eq_true.
    + destruct (Payload.plan_id payload) as [plan_id|]; [|done].
      apply bool_decide_eq_false. intros Hn. apply Hn. by apply Hpid.
Qed.

Lemma find_plan_run subscription w :
  ∃ evs, match first_price subscription with
         | Some price =>
             if String.eqb (Stripe.Price.id price) EmptyString then mret None
             else PlansService_findByStripePrice (Stripe.Price.id price)
         | None => mret None
         end w = (Fulfilled (priced_plan subscription w), logs evs w)
         ∧ Forall is_select evs.
Proof.
  unfold priced_plan.
  destruct (first_price subscription) as [price|].
  - destruct (String.eqb (Stripe.Price.id price) EmptyString).
    + exists []. by rewrite logs_nil.
    + exists [DbSelect plans_table]. unfold PlansService_findByStripePrice.
      rewrite !bind_unfold. simpl. split; [reflexivity|]. by repeat constructor.
  - exists []. by rewrite logs_nil.
Qed.

Lemma find_owner_run userId stripeCustomerId w :
  ∃ evs, (if truthy userId then mret userId
          else
            record (DbSelect stripe_customers_table);;
            rows ← gets stripe_customers;
            mret (CustomerRecord.user_id <$>
                  maybeSingle
                    (List.filter
                       (λ c, String.eqb (CustomerRecord.stripe_customer_id c) stripeCustomerId)
                       rows))) w
         = (Fulfilled (if truthy userId then userId else mapped_user stripeCustomerId w),
            logs evs w)
         ∧ Forall is_select evs.
Proof.
  destruct (truthy userId).
  - exists []. by rewrite logs_nil.
  - exists [DbSelect stripe_customers_table].
    rewrite !bind_unfold. simpl. split; [reflexivity|]. by repeat constructor.
Qed.

Lemma is_select_sync_event evs : Forall is_select evs → Forall sync_event evs.
Proof. intros Hs. eapply Forall_impl; [exact Hs|]. by intros []. Qed.

Lemma syncFromStripe_run subscription customMetadata w :
  ∃ w' evs, syncFromStripe subscription customMetadata w
            = (sync_outcome subscription customMetadata w, w')
        ∧ subscriptions w' = reconciled subscription customMetadata w
        ∧ stripe_customers w' = stripe_customers w
        ∧ plans w' = plans w
        ∧ trace w' = trace w ++ DbSelect subscriptions_table :: evs
        ∧ Forall sync_event evs
        ∧ (reconciled_payload subscription customMetadata w = None → Forall is_select evs).
Proof.
  unfold sync_outcome, reconciled, sync_error, reconciled_payload, resolved_user.
  unfold syncFromStripe, findByStripeSubscriptionId.
  rewrite !bind_unfold. simpl.
  fold (rows_for (Stripe.Subscription.id subscription) w).
  fold (existing_row (Stripe.Subscription.id subscription) w).
  set (existing := existing_row (Stripe.Subscription.id subscription) w).
  change (log (DbSelect subscriptions_table) w) with (logs [DbSelect subscriptions_table] w).
  destruct (nonempty (customer_id (Stripe.Subscription.customer subscription)))
    as [stripeCustomerId|].
  2:{ eexists _, []. simpl. repeat split; constructor. }
  rewrite bind_unfold.
  destruct (find_owner_run (Subscription.user_id <$> existing) stripeCustomerId
              (logs [DbSelect subscriptions_table] w)) as (evs1 & -> & Hevs1).
  rewrite logs_logs.
  change (mapped_user stripeCustomerId (logs [DbSelect subscriptions_table] w))
    with (mapped_user stripeCustomerId w).
  fold (user_hint subscription).
  set (userId := nonempty _).
  destruct userId as [userId|].
  2:{ eexists _, evs1. simpl. repeat split; try done. by apply is_select_sync_event. }
  rewrite bind_unfold. fold (first_price subscription).
  destruct (find_plan_run subscription (logs ([DbSelect subscriptions_table] ++ evs1) w))
    as (evs2 & -> & Hevs2).
  rewrite logs_logs.
  change (priced_plan subscription (logs ([DbSelect subscriptions_table] ++ evs1) w))
    with (priced_plan subscription w).
  rewrite bind_unfold.
  destruct (extractInvoiceUrl_run subscription
              (logs (([DbSelect subscriptions_table] ++ evs1) ++ evs2) w))
    as (evs3 & -> & Hevs3).
  rewrite latest_invoice_url_selects
    by (rewrite !Forall_app; repeat split; try done; by repeat constructor).
  rewrite logs_logs.
  rewrite bind_unfold, convertTimestamps_run.
  assert (Hsync : Forall sync_event (evs1 ++ evs2 ++ evs3)).
  { rewrite !Forall_app. repeat split; try done; by apply is_select_sync_event. }
  destruct (timestamps_valid subscription).
  2:{ eexists _, (evs1 ++ evs2 ++ evs3). split; [reflexivity|].
      unfold logs. simpl. repeat split; try done.
      repeat (rewrite <- app_assoc || rewrite <- app_comm_cons). reflexivity. }
  rewrite bind_unfold. simpl.
  set (payload := sync_payload _ _ _ _ _ _ _ _ _).
  destruct (nonempty (Subscription.id <$> existing)) as [id|].
  - rewrite update_by_id_run.
    rewrite (update_violations_tables _ _ w) by reflexivity.
    destruct (refusal "update" _ _);
      (eexists _, (evs1 ++ evs2 ++ evs3 ++ [DbUpdate subscriptions_table]));
      (split; [reflexivity|]);
      unfold set_subscriptions, log; simpl; repeat split; try done.
    all: try (repeat (rewrite <- app_assoc || rewrite <- app_comm_cons); reflexivity).
    all: rewrite !app_assoc; apply Forall_app; split;
      [by rewrite <- !app_assoc | by repeat constructor].
  - rewrite insert_payload_run.
    rewrite (insert_violations_tables _ w) by reflexivity.
    destruct (refusal "insert" _ _);
      (eexists _, (evs1 ++ evs2 ++ evs3 ++ [DbInsert subscriptions_table]));
      (split; [reflexivity|]);
      unfold set_subscriptions, log; simpl; repeat split; try done.
    all: try (repeat (rewrite <- app_assoc || rewrite <- app_comm_cons); reflexivity).
    all: rewrite !app_assoc; apply Forall_app; split;
      [by rewrite <- !app_assoc | by repeat constructor].
Qed.


(** * Frames *)


Lemma frame_bind (Ra Rb Rc : relation World) {A B} (m : Promise A) (f : A → Promise B) :
  (∀ y, Rb y y) →
  (∀ x y z, Ra x y → Rb y z → Rc x z) →
  frame Ra m → (∀ a, frame Rb (f a)) → frame Rc (m ≫= f).
Proof.
  intros Hrefl Hcomp Hm Hf w. rewrite bind_unfold.
  specialize (Hm w). destruct (m w) as [[a|e] w1]; simpl in *.
  - eapply Hcomp; [exact Hm|]. apply Hf.
  - eapply Hcomp; [exact Hm|]. apply Hrefl.
Qed.

Lemma frame_seq (R : relation World) `{!PreOrder R} {A B}
    (m : Promise A) (f : A → Promise B) :
  frame R m → (∀ a, frame R (f a)) → frame R (m ≫= f).
Proof.
  apply frame_bind; [apply PreOrder_Reflexive|].
  intros x y z. apply PreOrder_Transitive.
Qed.

Lemma frame_sub (R R' : relation World) {A} (m : Promise A) :
  (∀ x y, R x y → R' x y) → frame R m → frame R' m.
Proof. intros Hsub Hm w. apply Hsub, Hm. Qed.

Lemma frame_ret (R : relation World) `{!Reflexive R} {A} (a : A) : frame R (mret a).
Proof. intros w. simpl. reflexivity. Qed.

Lemma frame_throw (R : relation World) `{!Reflexive R} {A} e : frame R (@throw A e).
Proof. intros w. simpl. reflexivity. Qed.

Lemma same_rows_preorder : PreOrder same_rows.
Proof.
  split; [by intros w|]. intros x y z Hxy Hyz. unfold same_rows in *. congruence.
Qed.
#[local] Existing Instance same_rows_preorder.

Lemma calls_only_preorder P : PreOrder (calls_only P).
Proof.
  split.
  - intros w. exists []. by rewrite app_nil_r.
  - intros x y z (c1 & H1 & Hc1) (c2 & H2 & Hc2). exists (c1 ++ c2).
    rewrite H2, H1, app_assoc. split; [done|]. by apply Forall_app.
Qed.
#[local] Existing Instance calls_only_preorder.

Lemma keeps_owners_preorder : PreOrder keeps_owners.
Proof.
  split.
  - intros w. unfold keeps_owners. reflexivity.
  - intros x y z. unfold keeps_owners. intros Hxy Hyz. by etrans.
Qed.
#[local] Existing Instance keeps_owners_preorder.

Lemma keeps_owners_if_well_formed_refl : Reflexive keeps_owners_if_well_formed.
Proof. by intros w _. Qed.
#[local] Existing Instance keeps_owners_if_well_formed_refl.

(** Computations that only read, log or call out leave the rows alone. *)
Lemma same_rows_record ev : frame same_rows (record ev).
Proof. by intros w. Qed.

Lemma same_rows_gets {A} (f : World → A) : frame same_rows (gets f).
Proof. by intros w. Qed.

Lemma same_rows_Date_now : frame same_rows Date_now.
Proof. by intros w. Qed.

Lemma same_rows_fresh_defaults : frame same_rows fresh_defaults.
Proof. by intros w. Qed.

Lemma same_rows_set_stripe_customers (f : World → list CustomerRecord.t) :
  frame same_rows (modify (λ w, set_stripe_customers (f w) w)).
Proof. by intros w. Qed.

Create HintDb frames.
#[local] Hint Resolve same_rows_record same_rows_gets same_rows_Date_now
  same_rows_fresh_defaults same_rows_set_stripe_customers : frames.

Ltac frame_step :=
  lazymatch goal with
  | |- frame _ (_ ≫= _) => apply frame_seq; [apply _| |intros ?]
  | |- frame _ (mret _) => apply frame_ret; apply _
  | |- frame _ (throw _) => apply frame_throw; apply _
  | |- frame _ (if ?b then _ else _) => destruct b
  | |- frame _ (match ?x with _ => _ end) => destruct x
  | |- frame _ (let _ := _ in _) => cbv zeta
  end.

Ltac frames := repeat frame_step; eauto with frames typeclass_instances.

Lemma same_rows_getById id : frame same_rows (getById id).
Proof. unfold getById. frames. Qed.

Lemma same_rows_ensureAccess r requesterId isAdmin :
  frame same_rows (ensureAccess r requesterId isAdmin).
Proof. unfold ensureAccess. frames. Qed.

Lemma same_rows_stripe {A} r (response : string + A) : frame same_rows (stripe r response).
Proof. unfold stripe. frames. Qed.

Lemma same_rows_findByStripeSubscriptionId stripeId :
  frame same_rows (findByStripeSubscriptionId stripeId).
Proof. unfold findByStripeSubscriptionId. frames. Qed.

Lemma same_rows_ensureUserCanStartNew userId : frame same_rows (ensureUserCanStartNew userId).
Proof. unfold ensureUserCanStartNew. frames. Qed.

Lemma same_rows_resolvePrice plan_id stripe_price_id plan :
  frame same_rows (resolvePrice plan_id stripe_price_id plan).
Proof.
  unfold resolvePrice, PlansService_findOne, PlansService_findByStripePrice. frames.
Qed.

#[local] Hint Resolve same_rows_getById same_rows_ensureAccess same_rows_stripe
  same_rows_findByStripeSubscriptionId same_rows_ensureUserCanStartNew
  same_rows_resolvePrice : frames.

Lemma same_rows_ensureCustomer options : frame same_rows (ensureCustomer options).
Proof.
  unfold ensureCustomer, CustomersService_findByUserId, fetchUserEmail, updateLocal.
  frames.
Qed.

#[local] Hint Resolve same_rows_ensureCustomer : frames.


(** Processor calls. *)
Lemma calls_only_trace P w w' evs :
  trace w' = trace w ++ evs →
  Forall (λ ev, ∀ r, ev = StripeCall r → P r) evs →
  calls_only P w w'.
Proof.
  intros Ht Hevs. exists (stripe_calls evs). unfold stripe_calls.
  rewrite Ht, omap_app. split; [done|]. clear Ht.
  induction Hevs as [|ev evs Hev _ IH]; simpl; [constructor|].
  destruct ev; simpl; try exact IH. constructor; [by apply Hev|exact IH].
Qed.

Lemma calls_only_record P ev :
  (∀ r, ev = StripeCall r → P r) → frame (calls_only P) (record ev).
Proof.
  intros Hev w. apply (calls_only_trace _ _ _ [ev]); [done|]. by constructor.
Qed.

Lemma calls_only_quiet P {A} (m : Promise A) :
  (∀ w, trace (m w).2 = trace w) → frame (calls_only P) m.
Proof.
  intros Hm w. apply (calls_only_trace _ _ _ []); [|done].
  by rewrite Hm, app_nil_r.
Qed.

Lemma calls_only_gets P {A} (f : World → A) : frame (calls_only P) (gets f).
Proof. by apply calls_only_quiet. Qed.

Lemma calls_only_Date_now P : frame (calls_only P) Date_now.
Proof. by apply calls_only_quiet. Qed.

Lemma calls_only_set_subscriptions P (f : World → list Subscription.t) :
  frame (calls_only P) (modify (λ w, set_subscriptions (f w) w)).
Proof. by apply calls_only_quiet. Qed.

Lemma calls_only_db_select P t : frame (calls_only P) (record (DbSelect t)).
Proof. by apply calls_only_record. Qed.

Lemma calls_only_db_update P t : frame (calls_only P) (record (DbUpdate t)).
Proof. by apply calls_only_record. Qed.

Lemma calls_only_db_delete P t : frame (calls_only P) (record (DbDelete t)).
Proof. by apply calls_only_record. Qed.

Lemma calls_only_stripe (P : Stripe.Request → Prop) {A} r (response : string + A) :
  P r → frame (calls_only P) (stripe r response).
Proof.
  intros Hr. unfold stripe.
  apply frame_seq; [apply _| |intros _].
  - apply calls_only_record. by intros ? [= <-].
  - destruct response; [apply frame_throw|apply frame_ret]; apply _.
Qed.

Lemma calls_only_syncFromStripe subscription customMetadata :
  frame (calls_only cancel_or_invoice) (syncFromStripe subscription customMetadata).
Proof.
  intros w.
  destruct (syncFromStripe_run subscription customMetadata w)
    as (w' & evs & -> & _ & _ & _ & Htrace & Hevs & _). simpl.
  apply (calls_only_trace _ _ _ _ Htrace).
  constructor; [done|].
  eapply Forall_impl; [exact Hevs|].
  intros ev Hev r ->. simpl in Hev. by destruct r.
Qed.

#[local] Hint Resolve calls_only_gets calls_only_Date_now calls_only_set_subscriptions
  calls_only_db_select calls_only_db_update calls_only_db_delete
  calls_only_syncFromStripe : frames.

Lemma calls_only_getById P id : frame (calls_only P) (getById id).
Proof. unfold getById. frames. Qed.

Lemma calls_only_ensureAccess P r requesterId isAdmin :
  frame (calls_only P) (ensureAccess r requesterId isAdmin).
Proof. unfold ensureAccess. frames. Qed.

Lemma calls_only_update_by_id P what id u :
  frame (calls_only P) (update_by_id what id u).
Proof. unfold update_by_id. frames. Qed.

Lemma calls_only_delete_by_id P id : frame (calls_only P) (delete_by_id id).
Proof. unfold delete_by_id. frames. Qed.

#[local] Hint Resolve calls_only_getById calls_only_ensureAccess calls_only_update_by_id
  calls_only_delete_by_id : frames.

Lemma calls_only_cancel id requesterId dto isAdmin :
  frame (calls_only cancel_or_invoice) (cancel id requesterId dto isAdmin).
Proof.
  unfold cancel. frames. by apply calls_only_stripe.
Qed.

Lemma calls_only_remove id requesterId isAdmin :
  frame (calls_only cancel_or_invoice) (remove id requesterId isAdmin).
Proof.
  unfold remove. pose proof calls_only_cancel. frames.
Qed.

(** * Truthiness *)

Lemma nonempty_Some o s : nonempty o = Some s → o = Some s ∧ s ≠ EmptyString.
Proof.
  unfold nonempty. destruct o as [s'|]; [|done].
  destruct (String.eqb_spec s' EmptyString); [done|]. by intros [= ->].
Qed.

Lemma nonempty_truthy o : truthy o = bool_decide (is_Some (nonempty o)).
Proof.
  unfold truthy, nonempty. destruct o as [s|]; [|done].
  by destruct (String.eqb s EmptyString).
Qed.

Lemma truthy_Some s : s ≠ EmptyString → truthy (Some s) = true.
Proof. unfold truthy. by destruct (String.eqb_spec s EmptyString). Qed.

Lemma nonempty_of_truthy s : s ≠ EmptyString → nonempty (Some s) = Some s.
Proof. unfold nonempty. by destruct (String.eqb_spec s EmptyString). Qed.

Lemma truthy_false_nonempty o : truthy o = false → nonempty o = None.
Proof.
  unfold truthy, nonempty. destruct o as [s|]; [|done].
  by destruct (String.eqb s EmptyString).
Qed.

(** * The lifecycle operations *)


Lemma getById_found w id r :
  lookup_subscription w id = Some r →
  getById id w = (Fulfilled r, log (DbSelect subscriptions_table) w).
Proof.
  unfold lookup_subscription, getById. intros Hl.
  destruct (isValidUUID id); [|discriminate]. simpl.
  repeat (rewrite bind_unfold; simpl). by rewrite Hl.
Qed.

Lemma ensureAccess_granted r requesterId isAdmin w :
  may_access r requesterId isAdmin = true →
  ensureAccess r requesterId isAdmin w = (Fulfilled tt, w).
Proof.
  unfold may_access, ensureAccess. destruct isAdmin; simpl; [done|].
  by intros ->.
Qed.

Lemma stripe_calls_log_db w ev :
  (∀ r, ev ≠ StripeCall r) →
  stripe_calls (trace (log ev w)) = stripe_calls (trace w).
Proof.
  intros Hev. unfold stripe_calls, log. simpl.
  rewrite omap_app. simpl. destruct ev; try by rewrite app_nil_r.
  by destruct (Hev r).
Qed.

Lemma ensureAccess_denied r requesterId isAdmin w :
  may_access r requesterId isAdmin = false →
  ensureAccess r requesterId isAdmin w
  = (Rejected (ForbiddenException "You are not allowed to access this subscription"), w).
Proof.
  unfold may_access, ensureAccess. destruct isAdmin; simpl; [done|].
  by intros ->.
Qed.

(** An operation stopped by the access check. *)
Ltac denied Hl Ha :=
  rewrite bind_unfold, (getById_found _ _ _ Hl); cbv beta iota;
  rewrite bind_unfold, (ensureAccess_denied _ _ _ _ Ha); cbv beta iota.

(** Entering an operation: the row is fetched and access is granted. *)
Ltac enter Hl Ha :=
  rewrite bind_unfold, (getById_found _ _ _ Hl); cbv beta iota;
  rewrite bind_unfold, (ensureAccess_granted _ _ _ _ Ha); cbv beta iota.

Lemma filter_id_map (f : Subscription.t → Subscription.t) id rows :
  (∀ r, Subscription.id (f r) = Subscription.id r) →
  List.filter (λ r, String.eqb (Subscription.id r) id) (map f rows)
  = map f (List.filter (λ r, String.eqb (Subscription.id r) id) rows).
Proof.
  intros Hf. induction rows as [|r rows IH]; [done|]. simpl.
  rewrite Hf. destruct (String.eqb _ _); simpl; by rewrite IH.
Qed.

Lemma lookup_after_update w w' id u r :
  subscriptions w'
  = map (λ r, if String.eqb (Subscription.id r) id then Updates.apply u r else r)
        (subscriptions w) →
  lookup_subscription w id = Some r →
  lookup_subscription w' id = Some (Updates.apply u r).
Proof.
  unfold lookup_subscription. intros -> Hl.
  destruct (isValidUUID id); [|done].
  rewrite filter_id_map by (intros r0; by destruct (String.eqb _ _)).
  destruct (List.filter _ (subscriptions w)) as [|r0 [|]] eqn:Hf; try done.
  injection Hl as ->. simpl.
  assert (Hin : In r (List.filter (λ r, String.eqb (Subscription.id r) id) (subscriptions w))).
  { rewrite Hf. by left. }
  apply filter_In in Hin as [_ ->]. done.
Qed.

(** C2. For every external subscription snapshot the status derived by
    reconciliation is [Paused] whenever the snapshot carries a
    pause-collection setting, whatever its raw status; otherwise it is the
    entry of the fixed mapping table for the raw status, and [Expired] for
    a raw status outside the table.  This is the status of every payload
    that [syncFromStripe] builds. *)
Theorem mapStripeStatus_follows_table (subscription : Stripe.Subscription.t) :
  (is_Some (Stripe.Subscription.pause_collection subscription) →
   mapStripeStatus subscription = Paused)
  ∧ (Stripe.Subscription.pause_collection subscription = None →
     mapStripeStatus subscription
     = canonical_status (Stripe.Subscription.status subscription))
  ∧ (Stripe.Subscription.pause_collection subscription = None →
     Stripe.Subscription.status subscription ∉ status_table.*1 →
     mapStripeStatus subscription = Expired)
  ∧ (∀ existing plan invoiceUrl userId stripeCustomerId customMetadata timestamps
       last_event_at,
       Payload.status (sync_payload existing plan invoiceUrl userId stripeCustomerId
                         subscription customMetadata timestamps last_event_at)
       = mapStripeStatus subscription).
Proof.
  repeat split.
  - intros [pc Hpc]. unfold mapStripeStatus. by rewrite Hpc.
  - intros Hpc. unfold mapStripeStatus, canonical_status. rewrite Hpc. simpl.
    repeat (destruct (String.eqb _ _); [reflexivity|]). reflexivity.
  - intros Hpc Hout. unfold mapStripeStatus. rewrite Hpc.
    repeat match goal with
    | |- context [String.eqb ?a ?b] =>
        destruct (String.eqb_spec a b) as [Heq|_];
        [exfalso; apply Hout; rewrite Heq; set_solver|]
    end.
    reflexivity.
  - intros. unfold sync_payload. by destruct (_ && _).
Qed.

(** C4. For every stored subscription: [pause] is refused unless the
    status is active-like, [resume] is refused unless the status is
    [Paused], and [cancel] is refused when the status is [Canceled].  For
    a caller that passes the access check the refusal is the business
    rule error of the operation ("Only active subscriptions can be
    paused", "Only paused subscriptions can be resumed", "Subscription is
    already canceled"); any other caller is stopped before by the access
    check.  A refused operation leaves the tables unchanged and makes no
    processor call. *)
Theorem transitions_are_guarded w id requesterId isAdmin subscription :
  lookup_subscription w id = Some subscription →
  let refusal message :=
    if may_access subscription requesterId isAdmin
    then BadRequestException message
    else ForbiddenException "You are not allowed to access this subscription" in
  (∀ dto, includes ACTIVE_STATUSES (Subscription.status subscription) = false →
     refused (pause id requesterId dto isAdmin w) w
       (refusal "Only active subscriptions can be paused"))
  ∧ (∀ dto, Subscription.status subscription ≠ Paused →
     refused (resume id requesterId dto isAdmin w) w
       (refusal "Only paused subscriptions can be resumed"))
  ∧ (∀ dto, Subscription.status subscription = Canceled →
     refused (cancel id requesterId dto isAdmin w) w
       (refusal "Subscription is already canceled")).
Proof.
  intros Hl refusal. unfold refusal.
  destruct (may_access subscription requesterId isAdmin) eqn:Ha.
  - split; [|split]; intros dto Hs; unfold refused.
    + unfold pause. enter Hl Ha. rewrite Hs. simpl.
      repeat split. by apply stripe_calls_log_db.
    + unfold resume. enter Hl Ha. rewrite (bool_decide_eq_false_2 _ Hs). simpl.
      repeat split. by apply stripe_calls_log_db.
    + unfold cancel. enter Hl Ha. rewrite (bool_decide_eq_true_2 _ Hs). simpl.
      repeat split. by apply stripe_calls_log_db.
  - split; [|split]; intros dto Hs; unfold refused.
    + unfold pause. denied Hl Ha. simpl. repeat split. by apply stripe_calls_log_db.
    + unfold resume. denied Hl Ha. simpl. repeat split. by apply stripe_calls_log_db.
    + unfold cancel. denied Hl Ha. simpl. repeat split. by apply stripe_calls_log_db.
Qed.

(** C8. For every local-only subscription (null external subscription
    id) whose status is [Paused], [resume] by a caller that passes the
    access check succeeds without any processor call, and the stored row
    it returns has status [Active], [ended_at] null, [pause_reason] null,
    and [started_at] set to the current time if it was null and left
    unchanged otherwise.  (A timestamp column never holds the empty
    string.) *)
Theorem resume_local_only w id requesterId isAdmin dto subscription :
  lookup_subscription w id = Some subscription →
  may_access subscription requesterId isAdmin = true →
  Subscription.stripe_subscription_id subscription = None →
  Subscription.status subscription = Paused →
  Subscription.started_at subscription ≠ Some EmptyString →
  ∃ resumed w',
    resume id requesterId dto isAdmin w = (Fulfilled resumed, w')
    ∧ lookup_subscription w' id = Some resumed
    ∧ Subscription.status resumed = Active
    ∧ Subscription.ended_at resumed = None
    ∧ Subscription.pause_reason resumed = None
    ∧ Subscription.started_at resumed
      = match Subscription.started_at subscription with
        | None => Some (now (clock_reads w))
        | Some started_at => Some started_at
        end
    ∧ stripe_calls (trace w') = stripe_calls (trace w).
Proof.
  intros Hl Ha Hsid Hst Hstarted.
  unfold resume, sanitizePayload. enter Hl Ha.
  rewrite (bool_decide_eq_true_2 _ Hst). simpl.
  rewrite Hsid. change (nonempty None) with (@None string). cbv beta iota.
  repeat (rewrite bind_unfold; simpl).
  rewrite update_by_id_accepted by apply resume_updates_free.
  set (u := resume_updates subscription dto (now (clock_reads w))).
  set (w3 := set_subscriptions _ _).
  assert (Hl3 : lookup_subscription w3 id = Some (Updates.apply u subscription)).
  { eapply lookup_after_update; [|exact Hl]. reflexivity. }
  rewrite (getById_found _ _ _ Hl3).
  eexists _, _. split; [reflexivity|].
  split.
  { unfold lookup_subscription in *. exact Hl3. }
  unfold u, resume_updates. rewrite Hsid. simpl.
  repeat split.
  - destruct (Subscription.started_at subscription) as [t|] eqn:Hs; [|done].
    rewrite truthy_Some by congruence. done.
  - unfold w3, set_subscriptions, log, stripe_calls. simpl.
    rewrite !omap_app. simpl. by rewrite !app_nil_r.
Qed.


(** * The reconciliation routine *)


Lemma sync_payload_owner existing plan invoiceUrl userId stripeCustomerId
    subscription customMetadata ts t :
  Payload.user_id (sync_payload existing plan invoiceUrl userId stripeCustomerId
                     subscription customMetadata ts t) = userId
  ∧ Payload.stripe_subscription_id
      (sync_payload existing plan invoiceUrl userId stripeCustomerId
         subscription customMetadata ts t) = Stripe.Subscription.id subscription
  ∧ Payload.pause_reason
      (sync_payload existing plan invoiceUrl userId stripeCustomerId
         subscription customMetadata ts t)
    = Stripe.PauseCollection.behavior <$> Stripe.Subscription.pause_collection subscription.
Proof. unfold sync_payload. by destruct (_ && _). Qed.

Lemma sync_payload_plan existing plan invoiceUrl userId stripeCustomerId
    subscription customMetadata ts t :
  let payload := sync_payload existing plan invoiceUrl userId stripeCustomerId
                   subscription customMetadata ts t in
  Payload.plan payload
  = (Plan.name <$> plan) ?? (existing ≫= Subscription.plan)
      ?? (first_price subscription ≫= Stripe.Price.nickname)
  ∧ Payload.plan_id payload = (Plan.id <$> plan) ?? (existing ≫= Subscription.plan_id).
Proof. unfold sync_payload, first_price. by destruct (_ && _). Qed.

Lemma priced_plan_In subscription w plan :
  priced_plan subscription w = Some plan → Plan.id plan ∈ Plan.id <$> plans w.
Proof.
  unfold priced_plan, maybeSingle.
  destruct (first_price subscription) as [price|]; [|done].
  destruct (String.eqb _ _); [done|].
  destruct (List.filter _ (plans w)) as [|p [|]] eqn:Hf; try done.
  intros [= ->].
  assert (Hin : In plan (List.filter
                           (λ p, String.eqb (Plan.stripe_price_id p) (Stripe.Price.id price))
                           (plans w))) by (rewrite Hf; by left).
  apply filter_In in Hin as [Hin _].
  apply list_elem_of_fmap. exists plan. split; [done|]. by apply list_elem_of_In.
Qed.

(** When the insert of a pass is accepted: no row carries the external
    id yet, the timestamps are in range, the owner is a user that exists,
    and the first price has a local plan or a nickname to name the
    plan. *)
Lemma sync_error_insert subscription customMetadata w cid userId :
  nonempty (customer_id (Stripe.Subscription.customer subscription)) = Some cid →
  resolved_user subscription cid w = Some userId →
  rows_for (Stripe.Subscription.id subscription) w = [] →
  timestamps_valid subscription = true →
  user_exists userId = true →
  is_Some (priced_plan subscription w)
  ∨ is_Some (first_price subscription ≫= Stripe.Price.nickname) →
  sync_error subscription customMetadata w = None.
Proof.
  intros Hc Hr Hrows Htimes Huser Hname.
  unfold sync_error, reconciled_payload, existing_row. rewrite Hc, Hr, Hrows, Htimes.
  change (maybeSingle []) with (@None Subscription.t). simpl.
  change (nonempty None) with (@None string). cbv iota.
  set (payload := sync_payload _ _ _ _ _ _ _ _ _).
  assert (Hv : insert_violations payload w = []); [|by rewrite Hv].
  destruct (sync_payload_owner None (priced_plan subscription w)
              (latest_invoice_url subscription w) userId cid subscription customMetadata
              (converted_timestamps subscription) (now (clock_reads w)))
    as (Hpu & Hps & _).
  destruct (sync_payload_plan None (priced_plan subscription w)
              (latest_invoice_url subscription w) userId cid subscription customMetadata
              (converted_timestamps subscription) (now (clock_reads w)))
    as (Hpp & Hpid).
  fold payload in Hpu, Hps, Hpp, Hpid.
  apply insert_violations_nil. rewrite Hpu, Hps, Hpp, Hpid.
  split; [done|]. split; [|split; [exact Hrows|]].
  - destruct Hname as [[plan ->]|[nickname ->]]; [done|].
    by destruct (priced_plan subscription w).
  - intros plan_id. destruct (priced_plan subscription w) as [plan|] eqn:Hplan; [|done].
    intros [= <-]. by eapply priced_plan_In.
Qed.

Lemma sync_outcome_fulfilled subscription customMetadata w :
  sync_error subscription customMetadata w = None →
  sync_outcome subscription customMetadata w = Fulfilled tt.
Proof. unfold sync_outcome. by intros ->. Qed.

Lemma sync_outcome_rejected subscription customMetadata w error :
  sync_error subscription customMetadata w = Some error →
  sync_outcome subscription customMetadata w = Rejected error.
Proof. unfold sync_outcome. by intros ->. Qed.

Lemma refusal_Some what sent violations error :
  refusal what sent violations = Some error →
  ∃ message,
    error = InternalServerErrorException ("Failed to " +:+ what +:+ " subscription: " +:+ message).
Proof. destruct violations; [done|]. intros [= <-]. by eexists. Qed.

(** The errors of a pass. *)
Lemma sync_error_kind subscription customMetadata w error :
  sync_error subscription customMetadata w = Some error →
  error = RangeError "Invalid time value"
  ∨ (∃ message,
       error = InternalServerErrorException ("Failed to update subscription: " +:+ message))
  ∨ (∃ message,
       error = InternalServerErrorException ("Failed to insert subscription: " +:+ message)).
Proof.
  unfold sync_error.
  destruct (reconciled_payload subscription customMetadata w) as [payload|]; [|done].
  destruct (timestamps_valid subscription); [|intros [= <-]; by left].
  destruct (nonempty _) as [id|]; intros Hrefused%refusal_Some; auto.
Qed.

Lemma sync_rejected subscription customMetadata w error w' :
  syncFromStripe subscription customMetadata w = (Rejected error, w') →
  sync_error subscription customMetadata w = Some error
  ∧ subscriptions w' = subscriptions w
  ∧ stripe_customers w' = stripe_customers w
  ∧ plans w' = plans w.
Proof.
  destruct (syncFromStripe_run subscription customMetadata w)
    as (w1 & evs & -> & Hsubs & Hcust & Hplans & _).
  unfold sync_outcome. unfold reconciled in Hsubs.
  destruct (sync_error subscription customMetadata w) as [e|]; [|done].
  intros [= <- <-]. split; [done|]. split; [|done].
  rewrite Hsubs. by destruct (reconciled_payload _ _ _).
Qed.

Lemma sync_fulfilled_no_error subscription customMetadata w w' :
  syncFromStripe subscription customMetadata w = (Fulfilled tt, w') →
  sync_error subscription customMetadata w = None.
Proof.
  destruct (syncFromStripe_run subscription customMetadata w) as (w1 & evs & -> & _).
  unfold sync_outcome. by destruct (sync_error _ _ _).
Qed.

Lemma apply_id u r : Subscription.id (Updates.apply u r) = Subscription.id r.
Proof. reflexivity. Qed.

(** What a pass does when it attributes the snapshot to [userId]: it
    fails and writes nothing, or it writes its payload. *)
Lemma syncFromStripe_writes subscription customMetadata w stripeCustomerId userId :
  nonempty (customer_id (Stripe.Subscription.customer subscription)) = Some stripeCustomerId →
  resolved_user subscription stripeCustomerId w = Some userId →
  ∃ w' payload,
    payload = sync_payload (existing_row (Stripe.Subscription.id subscription) w)
                (priced_plan subscription w) (latest_invoice_url subscription w)
                userId stripeCustomerId subscription customMetadata
                (converted_timestamps subscription) (now (clock_reads w))
    ∧ stripe_customers w' = stripe_customers w
    ∧ plans w' = plans w
    ∧ match sync_error subscription customMetadata w with
      | Some error =>
          syncFromStripe subscription customMetadata w = (Rejected error, w')
          ∧ subscriptions w' = subscriptions w
      | None =>
          syncFromStripe subscription customMetadata w = (Fulfilled tt, w')
          ∧ subscriptions w'
            = match nonempty (Subscription.id
                              <$> existing_row (Stripe.Subscription.id subscription) w) with
              | Some id =>
                  map (λ r, if String.eqb (Subscription.id r) id
                            then Updates.apply (Payload.updates payload) r else r)
                      (subscriptions w)
              | None =>
                  subscriptions w
                  ++ [Payload.row (gen_random_uuid (generated w)) (db_now (generated w))
                                  payload]
              end
      end.
Proof.
  intros Hc Hu.
  destruct (syncFromStripe_run subscription customMetadata w)
    as (w' & evs & Hrun & Hsubs & Hcust & Hplans & _).
  exists w', (sync_payload (existing_row (Stripe.Subscription.id subscription) w)
                (priced_plan subscription w) (latest_invoice_url subscription w)
                userId stripeCustomerId subscription customMetadata
                (converted_timestamps subscription) (now (clock_reads w))).
  split; [done|]. split; [done|]. split; [done|].
  unfold reconciled in Hsubs. unfold sync_outcome in Hrun.
  assert (Hp : reconciled_payload subscription customMetadata w
               = Some (sync_payload (existing_row (Stripe.Subscription.id subscription) w)
                         (priced_plan subscription w) (latest_invoice_url subscription w)
                         userId stripeCustomerId subscription customMetadata
                         (converted_timestamps subscription) (now (clock_reads w)))).
  { unfold reconciled_payload. by rewrite Hc, Hu. }
  rewrite Hp in Hsubs.
  by destruct (sync_error subscription customMetadata w).
Qed.

(** What a pass does when it cannot attribute the snapshot. *)
Lemma syncFromStripe_drops subscription customMetadata w :
  (∀ stripeCustomerId,
     nonempty (customer_id (Stripe.Subscription.customer subscription)) = Some stripeCustomerId →
     resolved_user subscription stripeCustomerId w = None) →
  ∃ w' evs,
    syncFromStripe subscription customMetadata w = (Fulfilled tt, w')
    ∧ subscriptions w' = subscriptions w
    ∧ stripe_customers w' = stripe_customers w
    ∧ plans w' = plans w
    ∧ trace w' = trace w ++ evs
    ∧ Forall is_select evs.
Proof.
  intros Hnone.
  assert (Hp : reconciled_payload subscription customMetadata w = None).
  { unfold reconciled_payload.
    destruct (nonempty (customer_id (Stripe.Subscription.customer subscription)))
      as [stripeCustomerId|]; [|done].
    by rewrite (Hnone _ eq_refl). }
  destruct (syncFromStripe_run subscription customMetadata w)
    as (w' & evs & Hrun & Hsubs & Hcust & Hplans & Htrace & _ & Hsel).
  exists w', (DbSelect subscriptions_table :: evs).
  unfold sync_outcome, sync_error in Hrun. rewrite Hp in Hrun.
  repeat split; try done.
  - rewrite Hsubs. unfold reconciled. by rewrite Hp.
  - constructor; [done|]. by apply Hsel.
Qed.

Lemma resolved_user_existing subscription cid w existing :
  existing_row (Stripe.Subscription.id subscription) w = Some existing →
  Subscription.user_id existing ≠ EmptyString →
  resolved_user subscription cid w = Some (Subscription.user_id existing).
Proof.
  intros He Hu. unfold resolved_user. rewrite He. simpl.
  repeat (progress (rewrite ?(truthy_Some _ Hu); simpl)).
  by apply nonempty_of_truthy.
Qed.

Lemma existing_row_In stripeId w existing :
  existing_row stripeId w = Some existing →
  In existing (subscriptions w)
  ∧ Subscription.stripe_subscription_id existing = Some stripeId
  ∧ rows_for stripeId w = [existing].
Proof.
  unfold existing_row, maybeSingle. intros He.
  destruct (rows_for stripeId w) as [|r [|]] eqn:Hrows; try done.
  injection He as ->.
  assert (Hin : In existing (rows_for stripeId w)) by (rewrite Hrows; by left).
  unfold rows_for in Hin. apply filter_In in Hin as [Hin Hsid].
  apply bool_decide_eq_true in Hsid. done.
Qed.

Lemma well_formed_spec w :
  well_formed w = true →
  NoDup (Subscription.id <$> subscriptions w)
  ∧ ∀ r, In r (subscriptions w) →
         Subscription.id r ≠ EmptyString ∧ Subscription.user_id r ≠ EmptyString.
Proof.
  unfold well_formed. intros [Hnd Hall]%andb_true_iff.
  apply bool_decide_eq_true in Hnd. split; [done|].
  intros r Hin. rewrite forallb_forall in Hall.
  specialize (Hall r Hin). apply andb_true_iff in Hall as [Hi Hu].
  split.
  - by destruct (String.eqb_spec (Subscription.id r) EmptyString).
  - by destruct (String.eqb_spec (Subscription.user_id r) EmptyString).
Qed.

Lemma NoDup_id_eq (rows : list Subscription.t) a b :
  NoDup (Subscription.id <$> rows) → In a rows → In b rows →
  Subscription.id a = Subscription.id b → a = b.
Proof.
  induction rows as [|r rows IH]; [done|].
  rewrite fmap_cons, NoDup_cons. intros [Hnotin Hnd] [->|Ha] [->|Hb] Hid; try done.
  - destruct Hnotin. rewrite Hid. apply list_elem_of_fmap. exists b.
    split; [done|]. by apply list_elem_of_In.
  - destruct Hnotin. rewrite <- Hid. apply list_elem_of_fmap. exists a.
    split; [done|]. by apply list_elem_of_In.
  - by apply IH.
Qed.

Lemma owners_map (f : Subscription.t → Subscription.t) rows :
  (∀ r, In r rows →
        Subscription.id (f r) = Subscription.id r
        ∧ Subscription.user_id (f r) = Subscription.user_id r) →
  owners (map f rows) = owners rows.
Proof.
  unfold owners. induction rows as [|r rows IH]; [done|]. intros Hf. simpl.
  destruct (Hf r (or_introl eq_refl)) as [-> ->]. f_equal.
  apply IH. intros r0 Hr0. apply Hf. by right.
Qed.

(** A pass never changes the owner of a row of a well-formed table. *)
Lemma syncFromStripe_keeps_owners subscription customMetadata :
  frame keeps_owners_if_well_formed (syncFromStripe subscription customMetadata).
Proof.
  intros w Hwf.
  destruct (syncFromStripe_run subscription customMetadata w)
    as (w' & evs & -> & Hsubs & _). simpl.
  unfold keeps_owners. rewrite Hsubs. clear Hsubs.
  unfold reconciled.
  destruct (reconciled_payload subscription customMetadata w) as [payload|] eqn:Hp; [|done].
  destruct (sync_error subscription customMetadata w); [done|].
  unfold reconciled_payload in Hp.
  destruct (nonempty (customer_id _)) as [cid|]; [|done].
  destruct (resolved_user subscription cid w) as [userId|] eqn:Hr; [|done].
  injection Hp as <-.
  destruct (existing_row (Stripe.Subscription.id subscription) w) as [existing|] eqn:He.
  2:{ simpl. unfold owners. rewrite fmap_app. by apply prefix_app_r. }
  destruct (existing_row_In _ _ _ He) as (Hin & _ & _).
  destruct (well_formed_spec _ Hwf) as [Hnd Hne].
  destruct (Hne _ Hin) as [Hid Hu].
  rewrite (resolved_user_existing _ cid _ _ He Hu) in Hr. injection Hr as <-.
  simpl. rewrite (nonempty_of_truthy _ Hid).
  rewrite owners_map; [done|].
  intros r Hrin. destruct (String.eqb_spec (Subscription.id r) (Subscription.id existing))
    as [Heq|_]; [|done].
  split; [done|]. simpl.
  rewrite (NoDup_id_eq _ _ _ Hnd Hrin Hin Heq).
  apply sync_payload_owner.
Qed.

Lemma update_by_id_keeps_owners what id u :
  Updates.user_id u = None → frame keeps_owners (update_by_id what id u).
Proof.
  intros Hu w. unfold keeps_owners. rewrite update_by_id_run.
  destruct (refusal _ _ _); simpl; [done|].
  rewrite owners_map; [done|].
  intros r _. destruct (String.eqb _ _); [|done]. simpl. by rewrite Hu.
Qed.

Lemma same_rows_keeps_owners w w' : same_rows w w' → keeps_owners w w'.
Proof. unfold same_rows, keeps_owners. by intros ->. Qed.

Lemma same_rows_then_if_well_formed x y z :
  same_rows x y → keeps_owners_if_well_formed y z → keeps_owners_if_well_formed x z.
Proof.
  unfold same_rows, keeps_owners_if_well_formed, keeps_owners, well_formed.
  intros Hxy Hyz. rewrite <- Hxy. exact Hyz.
Qed.

Lemma if_well_formed_then_keeps x y z :
  keeps_owners_if_well_formed x y → keeps_owners y z → keeps_owners_if_well_formed x z.
Proof.
  unfold keeps_owners_if_well_formed, keeps_owners. intros Hxy Hyz Hwf.
  etrans; [by apply Hxy|done].
Qed.

(** [update] never changes the owner of a row. *)
Lemma update_keeps_owners id requesterId dto isAdmin :
  frame keeps_owners_if_well_formed (update id requesterId dto isAdmin).
Proof.
  unfold update.
  eapply (frame_bind same_rows keeps_owners_if_well_formed keeps_owners_if_well_formed);
    [intros ?; reflexivity|apply same_rows_then_if_well_formed|eauto with frames|].
  intros subscription.
  eapply (frame_bind same_rows keeps_owners_if_well_formed keeps_owners_if_well_formed);
    [intros ?; reflexivity|apply same_rows_then_if_well_formed|eauto with frames|].
  intros _.
  eapply (frame_bind keeps_owners_if_well_formed keeps_owners keeps_owners_if_well_formed);
    [intros ?; reflexivity|apply if_well_formed_then_keeps| |].
  - destruct (nonempty (Subscription.stripe_subscription_id subscription));
      [|apply frame_ret; apply _].
    eapply (frame_bind same_rows keeps_owners_if_well_formed keeps_owners_if_well_formed);
    [intros ?; reflexivity|apply same_rows_then_if_well_formed|eauto with frames|].
    intros currentStripe.
    eapply (frame_bind same_rows keeps_owners_if_well_formed keeps_owners_if_well_formed);
    [intros ?; reflexivity|apply same_rows_then_if_well_formed|eauto with frames|].
    intros priceResolution. cbv zeta.
    eapply (frame_bind keeps_owners_if_well_formed keeps_owners keeps_owners_if_well_formed);
      [intros ?; reflexivity|apply if_well_formed_then_keeps| |intros; apply frame_ret; apply _].
    destruct (bool_decide _).
    + eapply (frame_bind same_rows keeps_owners_if_well_formed keeps_owners_if_well_formed);
        [intros ?; reflexivity|apply same_rows_then_if_well_formed|eauto with frames|].
      intros updatedStripe. apply syncFromStripe_keeps_owners.
    + apply syncFromStripe_keeps_owners.
  - intros metadataMerged.
    apply frame_seq; [apply _| |intros nowIso].
    { eapply frame_sub; [apply same_rows_keeps_owners|eauto with frames]. }
    cbv zeta. apply frame_seq; [apply _| |intros _].
    + destruct (1 <? _)%nat; [|apply frame_ret; apply _].
      by apply update_by_id_keeps_owners.
    + eapply frame_sub; [apply same_rows_keeps_owners|eauto with frames].
Qed.

Lemma update_by_id_same_status_and_period what id u w :
  writes_no_status_or_period u →
  Forall2 same_status_and_period
    (subscriptions w) (subscriptions (update_by_id what id u w).2).
Proof.
  intros (Hs & Hcps & Hcpe). rewrite update_by_id_run.
  destruct (refusal _ _ _); simpl.
  { induction (subscriptions w); constructor; [by repeat split|done]. }
  induction (subscriptions w) as [|r rows IH]; simpl; constructor; [|done].
  destruct (String.eqb _ _); [|done].
  unfold same_status_and_period. simpl. by rewrite Hs, Hcps, Hcpe.
Qed.

(** ** Who writes the status and the period fields *)

Lemma same_tables_preorder : PreOrder same_tables.
Proof.
  split; [by intros w|]. intros x y z (? & ? & ?) (? & ? & ?).
  unfold same_tables. repeat split; congruence.
Qed.
#[local] Existing Instance same_tables_preorder.

Lemma same_status_and_period_refl r : same_status_and_period r r.
Proof. by repeat split. Qed.

Lemma same_status_columns_preorder : PreOrder same_status_columns.
Proof.
  split.
  - intros w. unfold same_status_columns.
    induction (subscriptions w); constructor; [apply same_status_and_period_refl|done].
  - intros x y z. unfold same_status_columns.
    generalize (subscriptions x) (subscriptions y) (subscriptions z).
    intros l1 l2 l3 H12. revert l3.
    induction H12 as [|a b l1 l2 (? & ? & ?) _ IH]; intros l3 H23;
      inversion H23 as [|? c ? l3' (? & ? & ?) H23']; subst; constructor.
    + unfold same_status_and_period. repeat split; congruence.
    + by apply IH.
Qed.
#[local] Existing Instance same_status_columns_preorder.

Lemma same_tables_record ev : frame same_tables (record ev).
Proof. by intros w. Qed.

Lemma same_tables_gets {A} (f : World → A) : frame same_tables (gets f).
Proof. by intros w. Qed.

Lemma same_tables_Date_now : frame same_tables Date_now.
Proof. by intros w. Qed.

#[local] Hint Resolve same_tables_record same_tables_gets same_tables_Date_now : frames.

Lemma same_tables_getById id : frame same_tables (getById id).
Proof. unfold getById. frames. Qed.

Lemma same_tables_stripe {A} r (response : string + A) : frame same_tables (stripe r response).
Proof. unfold stripe. frames. Qed.

Lemma same_tables_resolvePrice plan_id stripe_price_id plan :
  frame same_tables (resolvePrice plan_id stripe_price_id plan).
Proof.
  unfold resolvePrice, PlansService_findOne, PlansService_findByStripePrice. frames.
Qed.

Lemma same_tables_same_status w w' : same_tables w w' → same_status_columns w w'.
Proof.
  intros (Hs & _). unfold same_status_columns. rewrite Hs.
  apply (@PreOrder_Reflexive _ _ same_status_columns_preorder w).
Qed.

Lemma status_by_reconciliation_refl w : status_by_reconciliation w w.
Proof. left. reflexivity. Qed.

Lemma same_tables_then_reconciliation x y z :
  same_tables x y → status_by_reconciliation y z → status_by_reconciliation x z.
Proof.
  intros Hxy [Hyz|(w0 & snap & cm & Hw0 & Hyz)].
  - left. etrans; [by apply same_tables_same_status|done].
  - right. exists w0, snap, cm. split; [by etrans|done].
Qed.

Lemma reconciliation_then_same_status x y z :
  status_by_reconciliation x y → same_status_columns y z → status_by_reconciliation x z.
Proof.
  intros [Hxy|(w0 & snap & cm & Hw0 & Hxy)] Hyz.
  - left. by etrans.
  - right. exists w0, snap, cm. split; [done|by etrans].
Qed.

Lemma syncFromStripe_by_reconciliation snapshot customMetadata :
  frame status_by_reconciliation (syncFromStripe snapshot customMetadata).
Proof. intros w. right. exists w, snapshot, customMetadata. split; reflexivity. Qed.

Lemma update_by_id_same_status_columns what id u :
  writes_no_status_or_period u → frame same_status_columns (update_by_id what id u).
Proof. intros Hu w. by apply update_by_id_same_status_and_period. Qed.

Ltac before_sync :=
  eapply (frame_bind same_tables status_by_reconciliation status_by_reconciliation);
  [intros ?; apply status_by_reconciliation_refl
  |apply same_tables_then_reconciliation
  |eauto using same_tables_getById, same_tables_stripe, same_tables_resolvePrice with frames
  |].

Ltac after_sync :=
  eapply (frame_bind status_by_reconciliation same_status_columns status_by_reconciliation);
  [intros ?; reflexivity | apply reconciliation_then_same_status | | ].

Ltac quiet_step :=
  apply frame_seq;
  [apply _
  |eapply frame_sub; [apply same_tables_same_status|];
   eauto using same_tables_getById with frames
  |].

(** What follows the access check in [pause], [cancel] and [update] when
    the record is externally backed. *)
Lemma external_write_tail what id (sync : Promise unit) (patch : string → Updates.t) :
  frame status_by_reconciliation sync →
  (∀ nowIso, writes_no_status_or_period (patch nowIso)) →
  frame status_by_reconciliation
    (sync;; nowIso ← Date_now; update_by_id what id (patch nowIso);; getById id).
Proof.
  intros Hsync Hpatch. after_sync; [exact Hsync|]. intros _.
  quiet_step. intros nowIso.
  apply frame_seq; [apply _|by apply update_by_id_same_status_columns|intros _].
  eapply frame_sub; [apply same_tables_same_status|apply same_tables_getById].
Qed.

Lemma same_tables_ensureAccess r requesterId isAdmin :
  frame same_tables (ensureAccess r requesterId isAdmin).
Proof. unfold ensureAccess. frames. Qed.

Lemma external_patches subscription stripeId :
  Subscription.stripe_subscription_id subscription = Some stripeId →
  stripeId ≠ EmptyString →
  (∀ dto metadataMerged nowIso,
     writes_no_status_or_period (update_updates subscription dto metadataMerged nowIso))
  ∧ (∀ dto nowIso, writes_no_status_or_period (pause_updates subscription dto nowIso))
  ∧ (∀ dto nowIso, writes_no_status_or_period (cancel_updates subscription dto nowIso)).
Proof.
  intros Hsid Hne.
  unfold update_updates, pause_updates, cancel_updates, writes_no_status_or_period.
  rewrite Hsid, (truthy_Some _ Hne). simpl. done.
Qed.

(** After the row is fetched: the access check, then the rest. *)
Lemma after_fetch {A} w id r requesterId isAdmin (k : Subscription.t → Promise A) :
  lookup_subscription w id = Some r →
  frame status_by_reconciliation (k r) →
  status_by_reconciliation w
    ((subscription ← getById id;
      ensureAccess subscription requesterId isAdmin;; k subscription) w).2.
Proof.
  intros Hl Hk. rewrite bind_unfold, (getById_found _ _ _ Hl). cbv beta iota.
  eapply (same_tables_then_reconciliation _ (log (DbSelect subscriptions_table) w));
    [done|].
  revert Hk. generalize (log (DbSelect subscriptions_table) w). intros w1 Hk.
  assert (Hf : frame status_by_reconciliation
                 (ensureAccess r requesterId isAdmin;; k r)).
  { before_sync; [apply same_tables_ensureAccess|]. by intros _. }
  apply Hf.
Qed.

(** An externally backed record: whatever [pause], [cancel] and [update]
    leave in the status and period fields was put there by
    [syncFromStripe]. *)
Lemma external_status_by_reconciliation w id requesterId isAdmin subscription stripeId :
  lookup_subscription w id = Some subscription →
  Subscription.stripe_subscription_id subscription = Some stripeId →
  stripeId ≠ EmptyString →
  (∀ dto, status_by_reconciliation w (update id requesterId dto isAdmin w).2)
  ∧ (∀ dto, status_by_reconciliation w (pause id requesterId dto isAdmin w).2)
  ∧ (∀ dto, status_by_reconciliation w (cancel id requesterId dto isAdmin w).2).
Proof.
  intros Hl Hsid Hne.
  destruct (external_patches _ _ Hsid Hne) as (Hupdate & Hpause & Hcancel).
  assert (Hext : nonempty (Subscription.stripe_subscription_id subscription) = Some stripeId).
  { rewrite Hsid. by apply nonempty_of_truthy. }
  split; [|split]; intros dto.
  - unfold update. apply (after_fetch w id subscription); [done|]. rewrite Hext.
    after_sync.
    + before_sync. intros currentStripe. before_sync. intros priceResolution. cbv zeta.
      after_sync; [|intros; apply frame_ret; apply _].
      destruct (bool_decide _).
      * before_sync. intros updatedStripe. apply syncFromStripe_by_reconciliation.
      * apply syncFromStripe_by_reconciliation.
    + intros metadataMerged. quiet_step. intros nowIso. cbv zeta.
      apply frame_seq; [apply _| |intros _].
      * destruct (1 <? _)%nat; [|apply frame_ret; apply _].
        apply update_by_id_same_status_columns. apply Hupdate.
      * eapply frame_sub; [apply same_tables_same_status|apply same_tables_getById].
  - unfold pause. apply (after_fetch w id subscription); [done|]. rewrite Hext.
    destruct (negb _); [apply frame_throw; intros ?; apply status_by_reconciliation_refl|].
    apply (external_write_tail "pause" id _
             (λ nowIso, sanitizePayload (pause_updates subscription dto nowIso)));
      [|intros; apply Hpause].
    before_sync. intros updatedStripe. apply syncFromStripe_by_reconciliation.
  - unfold cancel. apply (after_fetch w id subscription); [done|]. rewrite Hext.
    destruct (bool_decide _); [apply frame_throw; intros ?; apply status_by_reconciliation_refl|].
    apply (external_write_tail "cancel" id _
             (λ nowIso, sanitizePayload (cancel_updates subscription dto nowIso)));
      [|intros; apply Hcancel].
    before_sync. intros canceledStripe. apply syncFromStripe_by_reconciliation.
Qed.

Lemma lookup_subscription_targets w id r :
  lookup_subscription w id = Some r →
  List.filter (λ r, String.eqb (Subscription.id r) id) (subscriptions w) = [r]
  ∧ Subscription.id r = id.
Proof.
  unfold lookup_subscription, single. destruct (isValidUUID id); [|done].
  destruct (List.filter _ (subscriptions w)) as [|r0 [|]] eqn:Hf; try done.
  intros [= ->]. split; [done|].
  assert (Hin : In r (List.filter (λ r, String.eqb (Subscription.id r) id) (subscriptions w)))
    by (rewrite Hf; by left).
  apply filter_In in Hin as [_ Heq]. by apply String.eqb_eq.
Qed.

(** The constraints that a patch can violate when it sets neither the
    owner nor the external id, and no null plan, on the one row that it
    selects: the foreign key of [plan_id]. *)
Lemma update_violations_plan_id id u w e :
  List.filter (λ r, String.eqb (Subscription.id r) id) (subscriptions w) = [e] →
  Updates.user_id u = None →
  Updates.plan u ≠ Some None →
  Updates.stripe_subscription_id u = None →
  update_violations id u w
  = match Updates.plan_id u with
    | Some (Some plan_id) =>
        if bool_decide (Subscription.plan_id e ≠ Some plan_id)
           && bool_decide (plan_id ∉ Plan.id <$> plans w)
        then [subscriptions_plan_id_fkey] else []
    | _ => []
    end.
Proof.
  intros Ht Hu Hp Hs. unfold update_violations, violated.
  rewrite Ht, Hu, Hs. rewrite (bool_decide_eq_false_2 _ Hp).
  destruct (Updates.plan_id u) as [[plan_id|]|]; try done.
  cbn [existsb some_row andb orb]. rewrite orb_false_r.
  repeat case_bool_decide; try done; tauto.
Qed.


Lemma bind_fulfilled {A B} (m : Promise A) (f : A → Promise B) w b w' :
  (m ≫= f) w = (Fulfilled b, w') →
  ∃ a w1, m w = (Fulfilled a, w1) ∧ f a w1 = (Fulfilled b, w').
Proof.
  rewrite bind_unfold. destruct (m w) as [[a|e] w1]; [|done]. by exists a, w1.
Qed.

Lemma same_rows_run {A} (m : Promise A) w a w' :
  frame same_rows m → m w = (a, w') → subscriptions w' = subscriptions w.
Proof. intros Hm Hrun. specialize (Hm w). by rewrite Hrun in Hm. Qed.

Lemma filter_nil_weaken {A} (P Q : A → bool) (l : list A) :
  (∀ x, Q x = true → P x = true) → List.filter P l = [] → List.filter Q l = [].
Proof.
  intros HQP. induction l as [|x l IH]; [done|]. simpl.
  destruct (P x) eqn:HP; [done|]. intros Hl.
  destruct (Q x) eqn:HQ; [|by apply IH]. apply HQP in HQ. congruence.
Qed.

Lemma filter_update_one (Q : Subscription.t → bool) (g : Subscription.t → Subscription.t)
    id rows :
  NoDup (Subscription.id <$> rows) →
  (List.length (List.filter Q (map (λ r, if String.eqb (Subscription.id r) id
                                          then g r else r) rows))
   ≤ S (List.length (List.filter Q rows)))%nat.
Proof.
  induction rows as [|r rows IH]; [simpl; lia|].
  rewrite fmap_cons, NoDup_cons. intros [Hnotin Hnd]. simpl.
  destruct (String.eqb_spec (Subscription.id r) id) as [Heq|Hne].
  - rewrite (map_ext_in _ (λ r, r)).
    + rewrite map_id. destruct (Q (g r)), (Q r); simpl; lia.
    + intros r0 Hr0. destruct (String.eqb_spec (Subscription.id r0) id) as [Heq0|]; [|done].
      destruct Hnotin. rewrite Heq, <- Heq0. apply list_elem_of_fmap.
      exists r0. split; [done|]. by apply list_elem_of_In.
  - specialize (IH Hnd). destruct (Q r); simpl; lia.
Qed.

(** C3 (amended).  [create] refuses a user who already holds a
    subscription whose status is active-like or paused: the call is
    rejected, no row is inserted and no processor call is made; when the
    target user id is valid and the caller may act for it, the error is
    "An active subscription already exists for this user".  So after
    every successful [create] the target user holds at most one
    active-like subscription.  The bound is enforced by [create] only. *)
Theorem create_enforces_single_subscription requester dto isAdmin w :
  let targetUserId := default (User.id requester) (CreateSubscriptionDto.user_id dto) in
  (holds_slot targetUserId w →
   ∃ e w', create requester dto isAdmin w = (Rejected e, w')
           ∧ subscriptions w' = subscriptions w
           ∧ stripe_customers w' = stripe_customers w
           ∧ stripe_calls (trace w') = stripe_calls (trace w)
           ∧ (isValidUUID targetUserId = true →
              isAdmin = true ∨ targetUserId = User.id requester →
              e = BadRequestException "An active subscription already exists for this user"))
  ∧ (∀ created w',
       create requester dto isAdmin w = (Fulfilled created, w') →
       NoDup (Subscription.id <$> subscriptions w) →
       ¬ holds_slot targetUserId w
       ∧ (List.length (active_like_rows targetUserId w') ≤ 1)%nat).
Proof.
  intros targetUserId. split.
  - intros (r & Hin & Hu & Hst). unfold create. fold targetUserId.
    destruct (isValidUUID targetUserId) eqn:Hvalid; simpl.
    2:{ eexists _, w. by repeat split. }
    destruct (negb isAdmin && negb (String.eqb targetUserId (User.id requester))) eqn:Hforbid.
    { eexists _, w. repeat split; try done. intros _ [->| ->]; [done|].
      by rewrite String.eqb_refl, andb_false_r in Hforbid. }
    unfold ensureUserCanStartNew. repeat (rewrite bind_unfold; simpl).
    set (P := λ r : Subscription.t, _).
    assert (HP : P r = true).
    { unfold P. rewrite Hu, String.eqb_refl. exact Hst. }
    assert (Hlen : (0 <? List.length (take 1 (List.filter P (subscriptions w))))%nat = true).
    { assert (Hf : In r (List.filter P (subscriptions w))) by (by apply filter_In).
      destruct (List.filter P (subscriptions w)); [done|]. done. }
    rewrite Hlen. eexists _, _. split; [reflexivity|]. repeat split.
    by apply stripe_calls_log_db.
  - intros created w' Hrun Hnd. unfold create in Hrun. fold targetUserId in Hrun.
    destruct (negb (isValidUUID targetUserId)); [done|].
    destruct (negb isAdmin && negb (String.eqb targetUserId (User.id requester))); [done|].
    apply bind_fulfilled in Hrun as ([] & w1 & Hcheck & Hrun).
    assert (Hfree : List.filter
                      (λ r, String.eqb (Subscription.user_id r) targetUserId
                            && includes (ACTIVE_STATUSES ++ [Paused]) (Subscription.status r))
                      (subscriptions w) = []).
    { unfold ensureUserCanStartNew in Hcheck.
      repeat (rewrite bind_unfold in Hcheck; simpl in Hcheck).
      destruct (List.filter _ (subscriptions w)); [done|]. done. }
    pose proof (same_rows_run _ _ _ _ (same_rows_ensureUserCanStartNew _) Hcheck) as Hs1.
    split.
    { intros (r & Hin & Hu & Hst).
      assert (Hf : In r []); [|done]. rewrite <- Hfree. apply filter_In.
      split; [done|]. rewrite Hu, String.eqb_refl. exact Hst. }
    apply bind_fulfilled in Hrun as (priceResolution & w2 & Hprice & Hrun).
    pose proof (same_rows_run _ _ _ _ (same_rows_resolvePrice _ _ _) Hprice) as Hs2.
    destruct (nonempty (PriceResolution.priceId priceResolution)) as [priceId|]; [|done].
    cbv zeta in Hrun.
    apply bind_fulfilled in Hrun as (customerRecord & w3 & Hcustomer & Hrun).
    pose proof (same_rows_run _ _ _ _ (same_rows_ensureCustomer _) Hcustomer) as Hs3.
    apply bind_fulfilled in Hrun as (subscription & w4 & Hstripe & Hrun).
    pose proof (same_rows_run _ _ _ _ (same_rows_stripe _ _) Hstripe) as Hs4.
    apply bind_fulfilled in Hrun as ([] & w5 & Hsync & Hrun).
    apply bind_fulfilled in Hrun as (found & w6 & Hfind & Hrun).
    pose proof (same_rows_run _ _ _ _ (same_rows_findByStripeSubscriptionId _) Hfind) as Hs6.
    assert (Hs7 : subscriptions w' = subscriptions w6).
    { destruct found; [|done]. by injection Hrun as _ <-. }
    destruct (syncFromStripe_run subscription
                (default ∅ (CreateSubscriptionDto.metadata dto)) w4)
      as (w5' & evs & Hsync' & Hsubs & _).
    rewrite Hsync in Hsync'. injection Hsync' as _ <-.
    unfold active_like_rows. rewrite Hs7, Hs6, Hsubs.
    assert (Hrows : subscriptions w4 = subscriptions w) by congruence.
    assert (Hnone : List.filter
                      (λ r, String.eqb (Subscription.user_id r) targetUserId
                            && includes ACTIVE_STATUSES (Subscription.status r))
                      (subscriptions w4) = []).
    { rewrite Hrows. eapply filter_nil_weaken; [|exact Hfree].
      intros r [-> Hst]%andb_true_iff.
      unfold includes in *. apply bool_decide_eq_true in Hst.
      rewrite andb_true_l. apply bool_decide_eq_true. apply elem_of_app. by left. }
    unfold reconciled. destruct (reconciled_payload _ _ _) as [payload|].
    2:{ rewrite Hnone. simpl. lia. }
    destruct (sync_error _ _ _).
    { rewrite Hnone. simpl. lia. }
    destruct (nonempty _) as [existing_id|].
    + etrans; [apply filter_update_one; by rewrite Hrows|]. rewrite Hnone. simpl. lia.
    + rewrite List.filter_app, length_app, Hnone. simpl.
      destruct (_ && _); simpl; lia.
Qed.

(** ** Idempotence of a pass *)

Lemma written_by_apply p r : written_by p (Updates.apply (Payload.updates p) r).
Proof. unfold written_by. simpl. repeat split; reflexivity. Qed.

Lemma written_by_row p id created_at : written_by p (Payload.row id created_at p).
Proof. unfold written_by. simpl. repeat split; reflexivity. Qed.

Lemma nullish_or_again {A} (a b c : option A) : a ?? (a ?? b ?? c) ?? c = a ?? b ?? c.
Proof. by destruct a, b, c. Qed.

Lemma nullish_or_again2 {A} (a b : option A) : a ?? (a ?? b) = a ?? b.
Proof. by destruct a. Qed.

(** A row written by a pass is rewritten with the same derived fields by
    the next pass on the same snapshot, if the processor gives the same
    invoice. *)
Lemma sync_payload_again existing plan invoiceUrl userId cid subscription customMetadata
    ts t1 t2 r :
  written_by (sync_payload existing plan invoiceUrl userId cid subscription
                customMetadata ts t1) r →
  same_derived_fields r
    (Updates.apply
       (Payload.updates
          (sync_payload (Some r) plan invoiceUrl userId cid subscription
             customMetadata ts t2)) r).
Proof.
  unfold sync_payload. simpl.
  set (adjust := _ && _ && _).
  intros Hw.
  assert (Hfields :
    Subscription.plan r
    = (Plan.name <$> plan) ?? (existing ≫= Subscription.plan)
        ?? ((head (Stripe.Subscription.items subscription) ≫= Stripe.Item.price)
            ≫= Stripe.Price.nickname)
    ∧ Subscription.plan_id r = (Plan.id <$> plan) ?? (existing ≫= Subscription.plan_id)
    ∧ Subscription.stripe_invoice_url r
      = invoiceUrl ?? (existing ≫= Subscription.stripe_invoice_url)
    ∧ Subscription.metadata r
      = to_jsonb (mergeMetadata (Subscription.metadata <$> existing)
                    (Some customMetadata)
                    (Some (default ∅ (Stripe.Subscription.metadata subscription))))).
  { destruct adjust; unfold written_by, Payload.with_canceled_at in Hw; simpl in Hw;
      repeat split; apply Hw. }
  destruct Hfields as (Hplan & Hplan_id & Hurl & Hmeta).
  unfold same_derived_fields.
  destruct adjust; unfold written_by, Payload.with_canceled_at in *; simpl in *;
    destruct Hw as (? & ? & ? & ? & ? & ? & ? & ? & ? & ? & ? & ? & ? & ? & ?);
    repeat split; try done.
  all: try (rewrite Hplan; by rewrite nullish_or_again).
  all: try (rewrite Hplan_id; by rewrite nullish_or_again2).
  all: try (rewrite Hurl; by rewrite nullish_or_again2).
  all: rewrite Hmeta; by rewrite mergeMetadata_stored_idem.
Qed.

Lemma filter_after_update (P : Subscription.t → bool) rows e u :
  NoDup (Subscription.id <$> rows) →
  List.filter P rows = [e] →
  P (Updates.apply u e) = true →
  List.filter P (map (λ r, if String.eqb (Subscription.id r) (Subscription.id e)
                           then Updates.apply u r else r) rows)
  = [Updates.apply u e].
Proof.
  induction rows as [|r rows IH]; [done|].
  rewrite fmap_cons, NoDup_cons. intros [Hnotin Hnd] Hf HP.
  assert (Hin : In e (r :: rows)).
  { assert (Hin : In e (List.filter P (r :: rows))) by (rewrite Hf; by left).
    by apply filter_In in Hin as [Hin _]. }
  simpl in Hf |- *.
  destruct (String.eqb_spec (Subscription.id r) (Subscription.id e)) as [Heq|Hne].
  - assert (r = e) as ->.
    { destruct Hin as [Hin|Hin]; [done|]. destruct Hnotin. rewrite Heq.
      apply list_elem_of_fmap. exists e. split; [done|]. by apply list_elem_of_In. }
    rewrite HP. f_equal.
    rewrite (map_ext_in _ (λ r, r)).
    + rewrite map_id. destruct (P e); [by injection Hf|].
      assert (Hin' : In e (List.filter P rows)) by (rewrite Hf; by left).
      apply filter_In in Hin' as [Hin' _]. destruct Hnotin.
      apply list_elem_of_fmap. exists e. split; [done|]. by apply list_elem_of_In.
    + intros r0 Hr0.
      destruct (String.eqb_spec (Subscription.id r0) (Subscription.id e)) as [Heq0|]; [|done].
      destruct Hnotin. rewrite <- Heq0. apply list_elem_of_fmap.
      exists r0. split; [done|]. by apply list_elem_of_In.
  - destruct (P r) eqn:HPr.
    + injection Hf as -> _. done.
    + by apply IH.
Qed.

Lemma Forall2_map_same {A} (R : A → A → Prop) (f : A → A) (l : list A) :
  (∀ x, In x l → R x (f x)) → Forall2 R l (map f l).
Proof.
  induction l as [|x l IH]; simpl; [constructor|]. intros Hf.
  constructor; [apply Hf; by left|]. apply IH. intros y Hy. apply Hf. by right.
Qed.

Lemma same_derived_fields_refl r : same_derived_fields r r.
Proof. by repeat split. Qed.

Lemma Forall2_same_derived_refl rows : Forall2 same_derived_fields rows rows.
Proof. induction rows; constructor; [apply same_derived_fields_refl|done]. Qed.

Lemma resolved_user_tables subscription cid w w' :
  subscriptions w' = subscriptions w →
  stripe_customers w' = stripe_customers w →
  resolved_user subscription cid w' = resolved_user subscription cid w.
Proof.
  intros Hs Hc.
  unfold resolved_user, existing_row, rows_for, mapped_user, mappings_for.
  by rewrite Hs, Hc.
Qed.

Lemma reconciled_payload_tables subscription customMetadata w w' :
  subscriptions w' = subscriptions w →
  stripe_customers w' = stripe_customers w →
  reconciled_payload subscription customMetadata w = None →
  reconciled_payload subscription customMetadata w' = None.
Proof.
  intros Hs Hc. unfold reconciled_payload.
  destruct (nonempty (customer_id _)) as [cid|]; [|done].
  rewrite (resolved_user_tables _ _ _ _ Hs Hc).
  by destruct (resolved_user subscription cid w).
Qed.

(** The rows selected by the identifier of a row of a table with a
    primary key. *)
Lemma filter_id_NoDup (rows : list Subscription.t) e :
  NoDup (Subscription.id <$> rows) → In e rows →
  List.filter (λ r, String.eqb (Subscription.id r) (Subscription.id e)) rows = [e].
Proof.
  induction rows as [|r rows IH]; [done|].
  rewrite fmap_cons, NoDup_cons. intros [Hnotin Hnd] Hin. simpl.
  destruct (String.eqb_spec (Subscription.id r) (Subscription.id e)) as [Heq|Hne].
  - assert (r = e) as ->.
    { destruct Hin as [Hin|Hin]; [done|]. destruct Hnotin. rewrite Heq.
      apply list_elem_of_fmap. exists e. split; [done|]. by apply list_elem_of_In. }
    f_equal. clear IH Hin Hnd.
    induction rows as [|r rows IH]; [done|]. simpl.
    rewrite fmap_cons, not_elem_of_cons in Hnotin. destruct Hnotin as [Hne Hnotin].
    destruct (String.eqb_spec (Subscription.id r) (Subscription.id e)); [congruence|].
    by apply IH.
  - destruct Hin as [->|Hin]; [done|]. by apply IH.
Qed.

(** The second of two passes on the same snapshot. *)
Lemma second_pass subscription customMetadata w1 plan invoiceUrl cid userId existing t1 e1 :
  nonempty (customer_id (Stripe.Subscription.customer subscription)) = Some cid →
  userId ≠ EmptyString →
  priced_plan subscription w1 = plan →
  latest_invoice_url subscription w1 = invoiceUrl →
  timestamps_valid subscription = true →
  NoDup (Subscription.id <$> subscriptions w1) →
  rows_for (Stripe.Subscription.id subscription) w1 = [e1] →
  Subscription.id e1 ≠ EmptyString →
  Subscription.plan e1 ≠ None →
  written_by (sync_payload existing plan invoiceUrl userId cid subscription
                customMetadata (converted_timestamps subscription) t1) e1 →
  sync_error subscription customMetadata w1 = None
  ∧ Forall2 same_derived_fields
      (subscriptions w1) (reconciled subscription customMetadata w1)
  ∧ Subscription.id <$> reconciled subscription customMetadata w1
    = Subscription.id <$> subscriptions w1
  ∧ List.length
      (List.filter
         (λ r, bool_decide (Subscription.stripe_subscription_id r
                            = Some (Stripe.Subscription.id subscription)))
         (reconciled subscription customMetadata w1)) = 1%nat.
Proof.
  intros Hc Hu Hplan Hinv Htimes Hnd Hrows Hid Hplan1 Hw.
  assert (He1 : existing_row (Stripe.Subscription.id subscription) w1 = Some e1).
  { unfold existing_row. by rewrite Hrows. }
  assert (Huser : Subscription.user_id e1 = userId).
  { destruct Hw as (Hw & _). rewrite Hw. apply sync_payload_owner. }
  assert (Hr : resolved_user subscription cid w1 = Some userId).
  { rewrite <- Huser. apply resolved_user_existing; [done|]. by rewrite Huser. }
  set (p2 := sync_payload (Some e1) plan invoiceUrl userId cid subscription
               customMetadata (converted_timestamps subscription) (now (clock_reads w1))).
  assert (Hp : reconciled_payload subscription customMetadata w1 = Some p2).
  { unfold reconciled_payload. by rewrite Hc, Hr, He1, Hplan, Hinv. }
  destruct (existing_row_In _ _ _ He1) as (Hin1 & Hsid1 & _).
  pose proof (sync_payload_again _ _ _ _ _ _ _ _ _ (now (clock_reads w1)) _ Hw) as Hagain.
  fold p2 in Hagain.
  assert (Herr : sync_error subscription customMetadata w1 = None).
  { unfold sync_error. rewrite Hp, Htimes, He1. simpl.
    rewrite (nonempty_of_truthy _ Hid).
    rewrite (update_violations_nil _ _ _ e1); [done|by apply filter_id_NoDup|..].
    - intros user_id [= <-]. left. rewrite Huser. symmetry. unfold p2.
      apply sync_payload_owner.
    - simpl. intros [= Hnull]. apply Hplan1.
      destruct Hagain as (_ & -> & _). exact Hnull.
    - intros stripeId [= <-] r Hin Hsid.
      assert (Hr1 : In r (rows_for (Stripe.Subscription.id subscription) w1)).
      { apply filter_In. split; [done|]. apply bool_decide_eq_true.
        rewrite Hsid. f_equal. unfold p2. apply sync_payload_owner. }
      rewrite Hrows in Hr1. by destruct Hr1 as [->|[]].
    - simpl. intros plan_id [= Hpid]. left.
      destruct Hagain as (_ & _ & -> & _). exact Hpid. }
  split; [exact Herr|].
  unfold reconciled. rewrite Hp, Herr, He1. simpl.
  rewrite (nonempty_of_truthy _ Hid).
  split; [|split].
  - apply Forall2_map_same. intros r Hin.
    destruct (String.eqb_spec (Subscription.id r) (Subscription.id e1)) as [Heq|_];
      [|apply same_derived_fields_refl].
    rewrite (NoDup_id_eq _ _ _ Hnd Hin Hin1 Heq). exact Hagain.
  - rewrite <- list_fmap_compose. apply list_fmap_ext.
    intros i r _. simpl. by destruct (String.eqb _ _).
  - unfold rows_for in Hrows. erewrite filter_after_update; [done|done|exact Hrows|].
    simpl. apply bool_decide_eq_true. f_equal. apply sync_payload_owner.
Qed.

(** C1 (amended). On a well-formed table for which the datastore
    generates a new, non-empty row identifier: when an application of
    [syncFromStripe] to a snapshot succeeds and the processor answers the
    invoice lookup of a second application as it answered that of the
    first, the second application succeeds as well, inserts no row and
    leaves every derived field of every row as the first one left it
    ([last_event_at] apart).  When the first application attributes the
    snapshot to a user (customer id and owner resolve), exactly one row
    carries the external subscription id after both; when it cannot,
    neither application writes anything. *)
Theorem syncFromStripe_idempotent subscription customMetadata w w1 :
  well_formed w = true →
  next_id_fresh w = true →
  syncFromStripe subscription customMetadata w = (Fulfilled tt, w1) →
  latest_invoice_url subscription w1 = latest_invoice_url subscription w →
  ∃ w2,
    syncFromStripe subscription customMetadata w1 = (Fulfilled tt, w2)
    ∧ Forall2 same_derived_fields (subscriptions w1) (subscriptions w2)
    ∧ Subscription.id <$> subscriptions w2 = Subscription.id <$> subscriptions w1
    ∧ (∀ cid userId,
         nonempty (customer_id (Stripe.Subscription.customer subscription)) = Some cid →
         resolved_user subscription cid w = Some userId →
         List.length (rows_for (Stripe.Subscription.id subscription) w1) = 1%nat
         ∧ List.length (rows_for (Stripe.Subscription.id subscription) w2) = 1%nat)
    ∧ ((∀ cid,
          nonempty (customer_id (Stripe.Subscription.customer subscription)) = Some cid →
          resolved_user subscription cid w = None) →
       subscriptions w1 = subscriptions w ∧ subscriptions w2 = subscriptions w).
Proof.
  intros Hwf Hfresh Hrun1 Hinvoice.
  pose proof (sync_fulfilled_no_error _ _ _ _ Hrun1) as Herr1.
  destruct (syncFromStripe_run subscription customMetadata w)
    as (w1' & evs1 & Hrun1' & Hsubs1 & Hcust1 & Hplans1 & _).
  rewrite Hrun1 in Hrun1'. injection Hrun1' as _ <-.
  destruct (syncFromStripe_run subscription customMetadata w1)
    as (w2 & evs2 & Hrun2 & Hsubs2 & _).
  exists w2.
  destruct (well_formed_spec _ Hwf) as [Hnd Hne].
  destruct (reconciled_payload subscription customMetadata w) as [p1|] eqn:Hp1.
  2:{ assert (H1 : subscriptions w1 = subscriptions w).
      { rewrite Hsubs1. unfold reconciled. by rewrite Hp1. }
      pose proof (reconciled_payload_tables _ _ _ _ H1 Hcust1 Hp1) as Hp2.
      assert (H2 : subscriptions w2 = subscriptions w1).
      { rewrite Hsubs2. unfold reconciled. by rewrite Hp2. }
      unfold sync_outcome, sync_error in Hrun2. rewrite Hp2 in Hrun2.
      rewrite H2. split; [done|]. split; [apply Forall2_same_derived_refl|].
      split; [done|]. split; [|by rewrite H1].
      intros cid userId Hc Hr. unfold reconciled_payload in Hp1. by rewrite Hc, Hr in Hp1. }
  assert (Hattr : ∃ cid userId,
            nonempty (customer_id (Stripe.Subscription.customer subscription)) = Some cid
            ∧ resolved_user subscription cid w = Some userId
            ∧ p1 = sync_payload (existing_row (Stripe.Subscription.id subscription) w)
                     (priced_plan subscription w) (latest_invoice_url subscription w)
                     userId cid subscription customMetadata
                     (converted_timestamps subscription) (now (clock_reads w))).
  { unfold reconciled_payload in Hp1.
    destruct (nonempty (customer_id _)) as [cid|]; [|done].
    destruct (resolved_user subscription cid w) as [userId|] eqn:Hr; [|done].
    injection Hp1 as <-. by exists cid, userId. }
  destruct Hattr as (cid & userId & Hc & Hr & Hp1eq).
  assert (Hu : userId ≠ EmptyString).
  { unfold resolved_user in Hr. by apply nonempty_Some in Hr as [_ Hu]. }
  assert (Hplan : priced_plan subscription w1 = priced_plan subscription w).
  { unfold priced_plan. by rewrite Hplans1. }
  assert (Htimes : timestamps_valid subscription = true).
  { unfold sync_error in Herr1. rewrite Hp1 in Herr1.
    by destruct (timestamps_valid subscription). }
  assert (Hstate : ∃ e1, NoDup (Subscription.id <$> subscriptions w1)
                         ∧ rows_for (Stripe.Subscription.id subscription) w1 = [e1]
                         ∧ Subscription.id e1 ≠ EmptyString
                         ∧ Subscription.plan e1 ≠ None
                         ∧ written_by p1 e1).
  { unfold rows_for. rewrite Hsubs1. unfold reconciled. rewrite Hp1, Herr1.
    unfold sync_error in Herr1. rewrite Hp1, Htimes in Herr1.
    destruct (existing_row (Stripe.Subscription.id subscription) w) as [e|] eqn:He.
    - destruct (existing_row_In _ _ _ He) as (Hin & Hsid & Hrows).
      destruct (Hne _ Hin) as [Hid _]. simpl in Herr1 |- *.
      rewrite (nonempty_of_truthy _ Hid) in Herr1 |- *.
      apply refusal_None in Herr1.
      pose proof (update_accepted_plan _ _ _ _ (filter_id_NoDup _ _ Hnd Hin) Herr1)
        as Hnotnull.
      exists (Updates.apply (Payload.updates p1) e). split; [|split; [|split; [|split]]].
      + rewrite <- list_fmap_compose.
        erewrite list_fmap_ext; [exact Hnd|]. intros i r _. simpl.
        by destruct (String.eqb _ _).
      + unfold rows_for in Hrows. erewrite filter_after_update; [done|done|exact Hrows|].
        simpl. apply bool_decide_eq_true. f_equal. rewrite Hp1eq. apply sync_payload_owner.
      + done.
      + simpl. simpl in Hnotnull. congruence.
      + apply written_by_apply.
    - simpl in Herr1 |- *. apply refusal_None in Herr1.
      apply insert_violations_nil in Herr1 as (_ & Hnotnull & Hrows & _).
      assert (Hsid : Payload.stripe_subscription_id p1 = Stripe.Subscription.id subscription).
      { rewrite Hp1eq. apply sync_payload_owner. }
      rewrite Hsid in Hrows.
      unfold next_id_fresh in Hfresh. apply andb_true_iff in Hfresh as [Hnew Hnotin].
      apply bool_decide_eq_true in Hnotin.
      exists (Payload.row (gen_random_uuid (generated w)) (db_now (generated w)) p1).
      split; [|split; [|split; [|split]]].
      + rewrite fmap_app. apply NoDup_app. split; [done|]. split.
        * intros i Hi Hi2. simpl in Hi2. apply list_elem_of_singleton in Hi2.
          subst i. done.
        * apply NoDup_singleton.
      + rewrite List.filter_app, Hrows. simpl.
        rewrite bool_decide_eq_true_2; [done|]. by f_equal.
      + simpl. by destruct (String.eqb_spec (gen_random_uuid (generated w)) EmptyString).
      + done.
      + apply written_by_row. }
  destruct Hstate as (e1 & Hnd1 & Hrows1 & Hid1 & Hplan1 & Hw1).
  rewrite Hp1eq in Hw1.
  destruct (second_pass subscription customMetadata w1 _ _ cid userId _ _ e1
              Hc Hu Hplan Hinvoice Htimes Hnd1 Hrows1 Hid1 Hplan1 Hw1)
    as (Herr2 & Hsame & Hids & Hlen).
  rewrite <- Hsubs2 in Hsame, Hids, Hlen.
  rewrite (sync_outcome_fulfilled _ _ _ Herr2) in Hrun2.
  split; [exact Hrun2|]. split; [exact Hsame|]. split; [exact Hids|]. split.
  - intros cid' userId' _ _. rewrite Hrows1. split; [done|]. exact Hlen.
  - intros Hnone. by rewrite (Hnone cid Hc) in Hr.
Qed.

(** C6. In the reconciliation routine the owner is resolved by strict
    priority.  For a snapshot whose customer id resolves: (a) when a local
    row with the snapshot's external id exists, the owner is that row's
    own [user_id], whatever the customer mapping and the metadata hint
    say, and the row keeps it; (b) when there is none, the owner is the
    [user_id] of the customer-mapping row for the customer id, whatever
    the hint says, and the inserted row takes it; (c) when the mapping
    gives nothing either, the owner is the [user_id] hint of the
    snapshot's metadata.  In (a) to (c) the pass writes the row unless a
    timestamp of the snapshot is out of range or the datastore refuses
    the row; it then fails and leaves the table as it was.  (d) When none
    of the three resolves, [syncFromStripe] is fulfilled, the tables are
    unchanged and the pass has only read the datastore. *)
Theorem owner_resolution_priority subscription customMetadata w :
  (∀ cid existing,
     nonempty (customer_id (Stripe.Subscription.customer subscription)) = Some cid →
     existing_row (Stripe.Subscription.id subscription) w = Some existing →
     Subscription.user_id existing ≠ EmptyString →
     Subscription.id existing ≠ EmptyString →
     resolved_user subscription cid w = Some (Subscription.user_id existing)
     ∧ ∃ w',
         match sync_error subscription customMetadata w with
         | Some error =>
             syncFromStripe subscription customMetadata w = (Rejected error, w')
             ∧ subscriptions w' = subscriptions w
         | None =>
             syncFromStripe subscription customMetadata w = (Fulfilled tt, w')
             ∧ List.length (subscriptions w') = List.length (subscriptions w)
             ∧ ∀ r, r ∈ subscriptions w' →
                    Subscription.id r = Subscription.id existing →
                    Subscription.user_id r = Subscription.user_id existing
         end)
  ∧ (∀ cid userId,
       nonempty (customer_id (Stripe.Subscription.customer subscription)) = Some cid →
       existing_row (Stripe.Subscription.id subscription) w = None →
       mapped_user cid w = Some userId →
       userId ≠ EmptyString →
       resolved_user subscription cid w = Some userId
       ∧ ∃ w',
           match sync_error subscription customMetadata w with
           | Some error =>
               syncFromStripe subscription customMetadata w = (Rejected error, w')
               ∧ subscriptions w' = subscriptions w
           | None =>
               ∃ row, syncFromStripe subscription customMetadata w = (Fulfilled tt, w')
                      ∧ subscriptions w' = subscriptions w ++ [row]
                      ∧ Subscription.user_id row = userId
                      ∧ Subscription.stripe_subscription_id row
                        = Some (Stripe.Subscription.id subscription)
           end)
  ∧ (∀ cid hint,
       nonempty (customer_id (Stripe.Subscription.customer subscription)) = Some cid →
       existing_row (Stripe.Subscription.id subscription) w = None →
       truthy (mapped_user cid w) = false →
       user_hint subscription = Some hint →
       hint ≠ EmptyString →
       resolved_user subscription cid w = Some hint
       ∧ ∃ w',
           match sync_error subscription customMetadata w with
           | Some error =>
               syncFromStripe subscription customMetadata w = (Rejected error, w')
               ∧ subscriptions w' = subscriptions w
           | None =>
               ∃ row, syncFromStripe subscription customMetadata w = (Fulfilled tt, w')
                      ∧ subscriptions w' = subscriptions w ++ [row]
                      ∧ Subscription.user_id row = hint
                      ∧ Subscription.stripe_subscription_id row
                        = Some (Stripe.Subscription.id subscription)
           end)
  ∧ ((∀ cid,
        nonempty (customer_id (Stripe.Subscription.customer subscription)) = Some cid →
        truthy (Subscription.user_id
                  <$> existing_row (Stripe.Subscription.id subscription) w) = false
        ∧ truthy (mapped_user cid w) = false
        ∧ truthy (user_hint subscription) = false) →
     ∃ w' evs, syncFromStripe subscription customMetadata w = (Fulfilled tt, w')
               ∧ subscriptions w' = subscriptions w
               ∧ trace w' = trace w ++ evs
               ∧ Forall is_select evs).
Proof.
  split; [|split; [|split]].
  - intros cid existing Hc He Hu Hid.
    assert (Hr : resolved_user subscription cid w = Some (Subscription.user_id existing)).
    { unfold resolved_user. rewrite He. simpl.
      repeat (progress (rewrite ?(truthy_Some _ Hu); simpl)).
      by apply nonempty_of_truthy. }
    split; [exact Hr|].
    destruct (syncFromStripe_writes _ customMetadata _ _ _ Hc Hr)
      as (w' & payload & Hp & _ & _ & Hrun).
    exists w'. destruct (sync_error subscription customMetadata w); [exact Hrun|].
    destruct Hrun as [Hrun Hsubs]. split; [done|].
    rewrite He in Hsubs. simpl in Hsubs. rewrite (nonempty_of_truthy _ Hid) in Hsubs.
    rewrite Hsubs. split; [by rewrite length_map|].
    intros r Hin Hrid. apply list_elem_of_fmap in Hin as (r0 & -> & _).
    destruct (String.eqb_spec (Subscription.id r0) (Subscription.id existing)) as [_|Hne].
    + simpl. rewrite Hp. apply sync_payload_owner.
    + by destruct Hne.
  - intros cid userId Hc He Hm Hu.
    assert (Hr : resolved_user subscription cid w = Some userId).
    { unfold resolved_user. rewrite He, Hm. simpl.
      repeat (progress (rewrite ?(truthy_Some _ Hu); simpl)).
      by apply nonempty_of_truthy. }
    split; [exact Hr|].
    destruct (syncFromStripe_writes _ customMetadata _ _ _ Hc Hr)
      as (w' & payload & Hp & _ & _ & Hrun).
    exists w'. destruct (sync_error subscription customMetadata w); [exact Hrun|].
    destruct Hrun as [Hrun Hsubs].
    rewrite He in Hsubs. simpl in Hsubs.
    eexists. repeat split; [done|exact Hsubs| |]; simpl; rewrite Hp;
      apply sync_payload_owner || (f_equal; apply sync_payload_owner).
  - intros cid hint Hc He Hm Hh Hu.
    assert (Hr : resolved_user subscription cid w = Some hint).
    { unfold resolved_user. rewrite He, Hh. simpl.
      repeat (progress (rewrite ?Hm, ?(truthy_Some _ Hu); simpl)).
      by apply nonempty_of_truthy. }
    split; [exact Hr|].
    destruct (syncFromStripe_writes _ customMetadata _ _ _ Hc Hr)
      as (w' & payload & Hp & _ & _ & Hrun).
    exists w'. destruct (sync_error subscription customMetadata w); [exact Hrun|].
    destruct Hrun as [Hrun Hsubs].
    rewrite He in Hsubs. simpl in Hsubs.
    eexists. repeat split; [done|exact Hsubs| |]; simpl; rewrite Hp;
      apply sync_payload_owner || (f_equal; apply sync_payload_owner).
  - intros Hnone.
    destruct (syncFromStripe_drops subscription customMetadata w)
      as (w' & evs & Hrun & Hsubs & _ & _ & Htrace & Hevs).
    { intros cid Hc. destruct (Hnone cid Hc) as (He & Hm & Hh).
      unfold resolved_user.
      repeat (progress (rewrite ?He, ?Hm, ?Hh; simpl)).
      by apply truthy_false_nonempty. }
    by exists w', evs.
Qed.

(** C9. Every reconciliation pass that writes a row sets its
    [pause_reason] to the behavior string of the snapshot's
    pause-collection setting when there is one and to null otherwise,
    whatever reason the row held before: the row found for the snapshot's
    external id is overwritten, or the inserted row carries it.  A pass
    that attributes the snapshot to a user either writes in this way or
    fails, because a timestamp is out of range or the datastore refuses
    the row, and then leaves the table as it was.  The statement is about
    [syncFromStripe] in any world and with any custom metadata, hence
    about every pass, whoever triggers it. *)
Theorem sync_overwrites_pause_reason subscription customMetadata w cid userId :
  nonempty (customer_id (Stripe.Subscription.customer subscription)) = Some cid →
  resolved_user subscription cid w = Some userId →
  let reason :=
    match Stripe.Subscription.pause_collection subscription with
    | Some pause_collection => Some (Stripe.PauseCollection.behavior pause_collection)
    | None => None
    end in
  ∃ w',
    match sync_error subscription customMetadata w with
    | Some error =>
        syncFromStripe subscription customMetadata w = (Rejected error, w')
        ∧ subscriptions w' = subscriptions w
    | None =>
        syncFromStripe subscription customMetadata w = (Fulfilled tt, w')
        ∧ match existing_row (Stripe.Subscription.id subscription) w with
          | Some existing =>
              Subscription.id existing ≠ EmptyString →
              List.length (subscriptions w') = List.length (subscriptions w)
              ∧ ∀ r, r ∈ subscriptions w' →
                     Subscription.id r = Subscription.id existing →
                     Subscription.pause_reason r = reason
          | None =>
              ∃ row, subscriptions w' = subscriptions w ++ [row]
                     ∧ Subscription.pause_reason row = reason
          end
    end.
Proof.
  intros Hc Hr reason.
  destruct (syncFromStripe_writes _ customMetadata _ _ _ Hc Hr)
    as (w' & payload & Hp & _ & _ & Hrun).
  assert (Hreason : Payload.pause_reason payload = reason).
  { rewrite Hp. unfold reason.
    destruct (sync_payload_owner
                (existing_row (Stripe.Subscription.id subscription) w)
                (priced_plan subscription w) (latest_invoice_url subscription w)
                userId cid subscription customMetadata
                (converted_timestamps subscription) (now (clock_reads w)))
      as (_ & _ & ->).
    by destruct (Stripe.Subscription.pause_collection subscription). }
  exists w'. destruct (sync_error subscription customMetadata w); [exact Hrun|].
  destruct Hrun as [Hrun Hsubs]. split; [done|].
  destruct (existing_row (Stripe.Subscription.id subscription) w) as [existing|].
  - intros Hid. simpl in Hsubs. rewrite (nonempty_of_truthy _ Hid) in Hsubs.
    rewrite Hsubs. split; [by rewrite length_map|].
    intros r Hin Hrid. apply list_elem_of_fmap in Hin as (r0 & -> & _).
    destruct (String.eqb_spec (Subscription.id r0) (Subscription.id existing)) as [_|Hne].
    + exact Hreason.
    + by destruct Hne.
  - simpl in Hsubs. eexists. split; [exact Hsubs|]. exact Hreason.
Qed.

(** C10 (amended). For a snapshot whose customer field gives no customer
    identifier, [syncFromStripe] is fulfilled without writing anything,
    even when the snapshot carries a [user_id] hint: its only effect is
    the one lookup of the [subscriptions] table by external id that the
    routine starts with. *)
Theorem sync_without_customer_only_looks_up subscription customMetadata w :
  nonempty (customer_id (Stripe.Subscription.customer subscription)) = None →
  syncFromStripe subscription customMetadata w
  = (Fulfilled tt, log (DbSelect subscriptions_table) w).
Proof.
  intros Hc. unfold syncFromStripe, findByStripeSubscriptionId.
  repeat (rewrite bind_unfold; simpl). by rewrite Hc.
Qed.


(** * Further properties of the service *)

(** ** Identifiers *)

Lemma getById_invalid id w :
  isValidUUID id = false →
  getById id w = (Rejected (BadRequestException "Invalid subscription identifier"), w).
Proof. unfold getById. by intros ->. Qed.

Lemma filter_id_absent id (rows : list Subscription.t) :
  id ∉ (Subscription.id <$> rows) →
  List.filter (λ r, String.eqb (Subscription.id r) id) rows = [].
Proof.
  induction rows as [|r rows IH]; [done|].
  rewrite fmap_cons, not_elem_of_cons. intros [Hne Hrows]. simpl.
  destruct (String.eqb_spec (Subscription.id r) id); [congruence|]. by apply IH.
Qed.

Lemma getById_absent id w :
  isValidUUID id = true →
  id ∉ (Subscription.id <$> subscriptions w) →
  getById id w
  = (Rejected (NotFoundException
                 ("Subscription with id " +:+ dquote +:+ id +:+ dquote +:+ " not found")),
     log (DbSelect subscriptions_table) w).
Proof.
  intros Hv Habs. unfold getById. rewrite Hv. simpl.
  repeat (rewrite bind_unfold; simpl). by rewrite filter_id_absent.
Qed.

(** What a fulfilled [getById] tells: one read, and the row is the one
    stored under the identifier. *)
Lemma getById_fulfilled id w r w' :
  getById id w = (Fulfilled r, w') →
  w' = log (DbSelect subscriptions_table) w ∧ lookup_subscription w id = Some r.
Proof.
  unfold getById, lookup_subscription. destruct (isValidUUID id); [|done]. simpl.
  repeat (rewrite bind_unfold; simpl).
  destruct (single _) as [r0|]; [|done]. by intros [= -> <-].
Qed.

(** X1. An identifier that is not a UUID is rejected by every operation
    that takes one, with "Invalid subscription identifier", before the
    datastore or the processor is reached: the world, its trace included,
    is left exactly as it was. *)
Theorem invalid_identifier_rejected_before_any_io id requesterId isAdmin w :
  isValidUUID id = false →
  let e := BadRequestException "Invalid subscription identifier" in
  findOne id requesterId isAdmin w = (Rejected e, w)
  ∧ (∀ dto, update id requesterId dto isAdmin w = (Rejected e, w))
  ∧ (∀ dto, pause id requesterId dto isAdmin w = (Rejected e, w))
  ∧ (∀ dto, resume id requesterId dto isAdmin w = (Rejected e, w))
  ∧ (∀ dto, cancel id requesterId dto isAdmin w = (Rejected e, w))
  ∧ remove id requesterId isAdmin w = (Rejected e, w).
Proof.
  intros Hv e.
  repeat split; intros;
    unfold findOne, update, pause, resume, cancel, remove;
    by rewrite bind_unfold, (getById_invalid _ _ Hv).
Qed.

(** X2. A well-formed identifier under which no row is stored is answered
    by every operation with the not-found error that quotes the
    identifier, after one read of the subscriptions table and nothing
    else: no write, no processor call. *)
Theorem unknown_identifier_is_not_found id requesterId isAdmin w :
  isValidUUID id = true →
  id ∉ (Subscription.id <$> subscriptions w) →
  let e := NotFoundException
             ("Subscription with id " +:+ dquote +:+ id +:+ dquote +:+ " not found") in
  let w' := log (DbSelect subscriptions_table) w in
  findOne id requesterId isAdmin w = (Rejected e, w')
  ∧ (∀ dto, update id requesterId dto isAdmin w = (Rejected e, w'))
  ∧ (∀ dto, pause id requesterId dto isAdmin w = (Rejected e, w'))
  ∧ (∀ dto, resume id requesterId dto isAdmin w = (Rejected e, w'))
  ∧ (∀ dto, cancel id requesterId dto isAdmin w = (Rejected e, w'))
  ∧ remove id requesterId isAdmin w = (Rejected e, w').
Proof.
  intros Hv Habs e w'.
  repeat split; intros;
    unfold findOne, update, pause, resume, cancel, remove;
    by rewrite bind_unfold, (getById_absent _ _ Hv Habs).
Qed.

Lemma lookup_subscription_log ev w id :
  lookup_subscription (log ev w) id = lookup_subscription w id.
Proof. reflexivity. Qed.

(** An operation that ends with [getById id] and is fulfilled returns the
    row stored under [id] in the world it leaves. *)
Lemma ends_with_getById {A} (m : Promise A) id w r w' :
  (m ≫= λ _, getById id) w = (Fulfilled r, w') →
  lookup_subscription w' id = Some r.
Proof.
  intros Hrun. apply bind_fulfilled in Hrun as (a & w1 & _ & Hget).
  apply getById_fulfilled in Hget as [-> Hl]. by rewrite lookup_subscription_log.
Qed.

Lemma findOne_found w id requesterId isAdmin r :
  lookup_subscription w id = Some r →
  may_access r requesterId isAdmin = true →
  findOne id requesterId isAdmin w = (Fulfilled r, log (DbSelect subscriptions_table) w).
Proof.
  intros Hl Ha. unfold findOne. enter Hl Ha. reflexivity.
Qed.

(** Walks a fulfilled run down to its last step. *)
Ltac last_step H :=
  repeat first
    [ apply bind_fulfilled in H as (? & ? & _ & H)
    | match type of H with
      | (if ?b then _ else _) _ = _ => destruct b; [try discriminate H|try discriminate H]
      end ].

(** X3. Each of [update], [pause], [resume] and [cancel], when it
    succeeds, returns the row as it is stored under the identifier once
    all its writes are done: a [findOne] that follows, by an
    administrator or by the owner of that row, returns the same row. *)
Theorem operations_return_the_stored_row id requesterId isAdmin w :
  let reads_back (result : Outcome Subscription.t * World) :=
    ∀ r w', result = (Fulfilled r, w') →
      lookup_subscription w' id = Some r
      ∧ (may_access r requesterId isAdmin = true →
         findOne id requesterId isAdmin w'
         = (Fulfilled r, log (DbSelect subscriptions_table) w')) in
  (∀ dto, reads_back (update id requesterId dto isAdmin w))
  ∧ (∀ dto, reads_back (pause id requesterId dto isAdmin w))
  ∧ (∀ dto, reads_back (resume id requesterId dto isAdmin w))
  ∧ (∀ dto, reads_back (cancel id requesterId dto isAdmin w)).
Proof.
  intros reads_back.
  assert (Hlast : ∀ w0 r w', getById id w0 = (Fulfilled r, w') →
            lookup_subscription w' id = Some r
            ∧ (may_access r requesterId isAdmin = true →
               findOne id requesterId isAdmin w'
               = (Fulfilled r, log (DbSelect subscriptions_table) w'))).
  { intros w0 r w' Hget. apply getById_fulfilled in Hget as [-> Hl].
    split; [done|]. intros Ha. by apply findOne_found. }
  split; [|split; [|split]]; intros dto r w' Hrun.
  all: unfold update, pause, resume, cancel in Hrun; last_step Hrun.
  all: by eapply Hlast.
Qed.

(** X25. Ownership is checked before anything else is done with a stored
    subscription.  A caller who is not privileged and is not the owner of
    the row is answered by every operation with "You are not allowed to
    access this subscription", whatever the request asks and whatever
    the status of the row: the subscription has been read once, nothing
    has been written and the processor has not been called. *)
Theorem foreign_subscription_is_forbidden w id requesterId subscription :
  lookup_subscription w id = Some subscription →
  Subscription.user_id subscription ≠ requesterId →
  let e := ForbiddenException "You are not allowed to access this subscription" in
  let w' := log (DbSelect subscriptions_table) w in
  findOne id requesterId false w = (Rejected e, w')
  ∧ (∀ dto, update id requesterId dto false w = (Rejected e, w'))
  ∧ (∀ dto, pause id requesterId dto false w = (Rejected e, w'))
  ∧ (∀ dto, resume id requesterId dto false w = (Rejected e, w'))
  ∧ (∀ dto, cancel id requesterId dto false w = (Rejected e, w'))
  ∧ remove id requesterId false w = (Rejected e, w').
Proof.
  intros Hl Hother e w'.
  assert (Ha : may_access subscription requesterId false = false).
  { unfold may_access. simpl.
    by destruct (String.eqb_spec (Subscription.user_id subscription) requesterId). }
  repeat split; intros;
    unfold findOne, update, pause, resume, cancel, remove; by denied Hl Ha.
Qed.

(** ** Lifecycle of a local-only subscription *)

Lemma stripe_calls_logs_db w :
  stripe_calls (trace w ++ [DbUpdate subscriptions_table] ++ [DbSelect subscriptions_table])
  = stripe_calls (trace w).
Proof. unfold stripe_calls. rewrite omap_app. simpl. by rewrite app_nil_r. Qed.

(** The tail shared by the operations: read the clock, patch the row,
    read it back. *)
Lemma patch_run what id (patch : string → Updates.t) w subscription :
  lookup_subscription w id = Some subscription →
  (∀ nowIso w0, update_violations id (patch nowIso) w0 = []) →
  let u := patch (now (clock_reads w)) in
  ∃ w', (nowIso ← Date_now; update_by_id what id (patch nowIso);; getById id) w
        = (Fulfilled (Updates.apply u subscription), w')
      ∧ lookup_subscription w' id = Some (Updates.apply u subscription)
      ∧ subscriptions w'
        = map (λ r, if String.eqb (Subscription.id r) id then Updates.apply u r else r)
              (subscriptions w)
      ∧ stripe_customers w' = stripe_customers w
      ∧ plans w' = plans w
      ∧ stripe_calls (trace w') = stripe_calls (trace w)
      ∧ clock_reads w' = S (clock_reads w).
Proof.
  intros Hl Hfree u.
  repeat (rewrite bind_unfold; simpl). fold u.
  rewrite update_by_id_accepted by apply Hfree. simpl.
  set (w3 := set_subscriptions _ _).
  assert (Hl3 : lookup_subscription w3 id = Some (Updates.apply u subscription)).
  { eapply lookup_after_update; [|exact Hl]. reflexivity. }
  rewrite (getById_found _ _ _ Hl3).
  eexists. split; [reflexivity|]. split; [exact Hl3|].
  split; [reflexivity|]. split; [reflexivity|]. split; [reflexivity|].
  split; [|reflexivity].
  unfold w3, set_subscriptions, log, stripe_calls. simpl.
  rewrite !omap_app. simpl. by rewrite !app_nil_r.
Qed.

Lemma may_access_apply u r requesterId isAdmin :
  Updates.user_id u = None →
  may_access (Updates.apply u r) requesterId isAdmin = may_access r requesterId isAdmin.
Proof. unfold may_access. simpl. by intros ->. Qed.

(** X4. On a local-only subscription in an active-like status, [pause]
    followed by [resume] (by a caller that passes the access check) both
    succeed without any processor call.  The pause stores status
    [Paused], the reason of the request and the current time as
    [ended_at]; the resume stores status [Active] whatever active-like
    status the row had before the pause, clears [pause_reason] and
    [ended_at], gives [started_at] the current time only if it was
    missing, takes [plan] and [stripe_invoice_url] from the request when
    they are given, and leaves every other column as it was before the
    pause. *)
Theorem pause_then_resume_local w id requesterId isAdmin pauseDto resumeDto subscription :
  lookup_subscription w id = Some subscription →
  may_access subscription requesterId isAdmin = true →
  truthy (Subscription.stripe_subscription_id subscription) = false →
  includes ACTIVE_STATUSES (Subscription.status subscription) = true →
  ∃ paused w1 resumed w2,
    pause id requesterId pauseDto isAdmin w = (Fulfilled paused, w1)
    ∧ Subscription.status paused = Paused
    ∧ Subscription.pause_reason paused = PauseSubscriptionDto.reason pauseDto
    ∧ Subscription.ended_at paused = Some (now (clock_reads w))
    ∧ resume id requesterId resumeDto isAdmin w1 = (Fulfilled resumed, w2)
    ∧ Subscription.status resumed = Active
    ∧ Subscription.pause_reason resumed = None
    ∧ Subscription.ended_at resumed = None
    ∧ Subscription.started_at resumed
      = (if truthy (Subscription.started_at subscription)
         then Subscription.started_at subscription
         else Some (now (S (clock_reads w))))
    ∧ Subscription.plan resumed
      = (if truthy (ResumeSubscriptionDto.plan resumeDto)
         then ResumeSubscriptionDto.plan resumeDto
         else Subscription.plan subscription)
    ∧ Subscription.stripe_invoice_url resumed
      = (if truthy (ResumeSubscriptionDto.stripe_invoice_url resumeDto)
         then ResumeSubscriptionDto.stripe_invoice_url resumeDto
         else Subscription.stripe_invoice_url subscription)
    ∧ Subscription.cancel_reason resumed = Subscription.cancel_reason subscription
    ∧ same_outside_lifecycle subscription resumed
    ∧ stripe_calls (trace w2) = stripe_calls (trace w).
Proof.
  intros Hl Ha Hloc Hst.
  pose proof (truthy_false_nonempty _ Hloc) as Hne.
  destruct (patch_run "pause" id
              (λ t, sanitizePayload (pause_updates subscription pauseDto t))
              (log (DbSelect subscriptions_table) w) subscription Hl
              (λ t w0, pause_updates_free subscription pauseDto t id w0))
    as (w1 & Hrun1 & Hl1 & _ & _ & _ & Hcalls1 & Hclock1).
  cbv zeta in Hrun1, Hl1.
  change (clock_reads (log (DbSelect subscriptions_table) w)) with (clock_reads w)
    in Hrun1, Hl1, Hclock1.
  set (paused := Updates.apply _ subscription) in Hrun1, Hl1.
  assert (Hpaused : paused
            = Updates.apply (Updates.mk None None None None None (Some Paused) None None None
                               (Some (Some (now (clock_reads w)))) None None None
                               (Some (PauseSubscriptionDto.reason pauseDto)) None None
                               (Some (Some (now (clock_reads w))))) subscription).
  { unfold paused, sanitizePayload, pause_updates. by rewrite Hloc. }
  assert (Ha1 : may_access paused requesterId isAdmin = true).
  { rewrite Hpaused. by rewrite may_access_apply. }
  assert (Hloc1 : truthy (Subscription.stripe_subscription_id paused) = false).
  { rewrite Hpaused. exact Hloc. }
  assert (Hst1 : Subscription.status paused = Paused) by (by rewrite Hpaused).
  destruct (patch_run "resume" id
              (λ t, sanitizePayload (resume_updates paused resumeDto t))
              (log (DbSelect subscriptions_table) w1) paused Hl1
              (λ t w0, resume_updates_free paused resumeDto t id w0))
    as (w2 & Hrun2 & _ & _ & _ & _ & Hcalls2 & _).
  cbv zeta in Hrun2.
  change (clock_reads (log (DbSelect subscriptions_table) w1)) with (clock_reads w1) in Hrun2.
  rewrite Hclock1 in Hrun2.
  set (resumed := Updates.apply _ paused) in Hrun2.
  exists paused, w1, resumed, w2.
  split.
  { unfold pause. enter Hl Ha. rewrite Hst. cbv beta iota. cbn [negb]. cbv iota.
    rewrite Hne. rewrite bind_unfold. exact Hrun1. }
  split; [done|]. split; [by rewrite Hpaused|]. split; [by rewrite Hpaused|].
  split.
  { unfold resume. enter Hl1 Ha1. rewrite (bool_decide_eq_true_2 _ Hst1). cbn [negb]. cbv iota.
    rewrite (truthy_false_nonempty _ Hloc1). rewrite bind_unfold. exact Hrun2. }
  assert (Hresumed : resumed
            = Updates.apply (resume_updates paused resumeDto (now (S (clock_reads w)))) paused)
    by reflexivity.
  rewrite Hresumed. unfold resume_updates. rewrite Hloc1. rewrite Hpaused. simpl.
  rewrite andb_true_r.
  split; [done|]. split; [done|]. split; [done|].
  split. { by destruct (truthy (Subscription.started_at subscription)). }
  split. { by destruct (truthy (ResumeSubscriptionDto.plan resumeDto)). }
  split. { by destruct (truthy (ResumeSubscriptionDto.stripe_invoice_url resumeDto)). }
  split; [done|]. split; [by repeat split|].
  rewrite Hcalls2.
  change (stripe_calls (trace (log (DbSelect subscriptions_table) w1)))
    with (stripe_calls (trace w1 ++ [DbSelect subscriptions_table])).
  unfold stripe_calls at 1. rewrite omap_app. simpl. rewrite app_nil_r.
  fold (stripe_calls (trace w1)). rewrite Hcalls1.
  unfold stripe_calls, log. simpl. rewrite omap_app. simpl. by rewrite app_nil_r.
Qed.

Lemma single_patched id u (rows : list Subscription.t) r :
  single (List.filter (λ r, String.eqb (Subscription.id r) id)
            (map (λ r, if String.eqb (Subscription.id r) id then Updates.apply u r else r)
                 rows)) = Some r →
  ∃ r0, In r0 rows ∧ r = Updates.apply u r0.
Proof.
  rewrite filter_id_map by (intros r0; by destruct (String.eqb _ _)).
  destruct (List.filter _ rows) as [|r0 [|]] eqn:Hf; try done.
  simpl. intros [= <-].
  assert (Hin : In r0 (List.filter (λ r, String.eqb (Subscription.id r) id) rows)).
  { rewrite Hf. by left. }
  apply filter_In in Hin as [Hin ->]. by exists r0.
Qed.

(** A fulfilled operation returns a row on which its patch was applied. *)
Lemma patch_tail {A} (mid : Promise A) what id (patch : string → Updates.t) w r w' :
  (mid;; nowIso ← Date_now; update_by_id what id (patch nowIso);; getById id) w
  = (Fulfilled r, w') →
  ∃ nowIso r0, r = Updates.apply (patch nowIso) r0.
Proof.
  intros Hrun.
  apply bind_fulfilled in Hrun as (a & w1 & _ & Hrun).
  apply bind_fulfilled in Hrun as (nowIso & w2 & _ & Hrun).
  apply bind_fulfilled in Hrun as ([] & w3 & Hupd & Hget).
  apply getById_fulfilled in Hget as [-> Hl].
  rewrite update_by_id_run in Hupd.
  destruct (refusal _ _ _); [discriminate Hupd|]. injection Hupd as <-.
  unfold lookup_subscription in Hl. destruct (isValidUUID id); [|done].
  apply single_patched in Hl as (r0 & _ & ->). by exists nowIso, r0.
Qed.

(** Entering an operation inside a hypothesis. *)
Ltac entered Hl Hrun :=
  rewrite bind_unfold, (getById_found _ _ _ Hl) in Hrun; cbv beta iota in Hrun;
  rewrite bind_unfold in Hrun;
  match type of Hrun with
  | context [ensureAccess ?r ?q ?a _] =>
      let Ha := fresh "Ha" in
      destruct (may_access r q a) eqn:Ha;
      [ rewrite (ensureAccess_granted _ _ _ _ Ha) in Hrun; cbv beta iota in Hrun
      | rewrite (ensureAccess_denied _ _ _ _ Ha) in Hrun; discriminate Hrun ]
  end.

(** X5. What [pause], [resume] and [cancel] write last.  Whenever one of
    them succeeds on a stored subscription, local-only or externally
    backed, the row it returns carries the values of the operation's own
    patch: after [pause] the [pause_reason] is the reason of the request
    (null when none was given); after [resume] the [pause_reason] is null
    and a non-empty [stripe_invoice_url] of the request is stored; after
    [cancel] the [cancel_reason] is the reason of the request and the
    [stripe_invoice_url] is the one of the request or else the one the
    row had before the call.  For an externally backed row these values
    replace what the reconciliation of the processor's answer has written
    a moment before. *)
Theorem lifecycle_patch_is_written_last w id requesterId isAdmin subscription :
  lookup_subscription w id = Some subscription →
  (∀ dto r w', pause id requesterId dto isAdmin w = (Fulfilled r, w') →
     Subscription.pause_reason r = PauseSubscriptionDto.reason dto)
  ∧ (∀ dto r w', resume id requesterId dto isAdmin w = (Fulfilled r, w') →
     Subscription.pause_reason r = None
     ∧ (truthy (ResumeSubscriptionDto.stripe_invoice_url dto) = true →
        Subscription.stripe_invoice_url r = ResumeSubscriptionDto.stripe_invoice_url dto))
  ∧ (∀ dto r w', cancel id requesterId dto isAdmin w = (Fulfilled r, w') →
     Subscription.cancel_reason r = CancelSubscriptionDto.reason dto
     ∧ Subscription.stripe_invoice_url r
       = CancelSubscriptionDto.stripe_invoice_url dto
         ?? Subscription.stripe_invoice_url subscription).
Proof.
  intros Hl. split; [|split]; intros dto r w' Hrun.
  - unfold pause in Hrun. entered Hl Hrun.
    destruct (negb _); [discriminate Hrun|].
    apply patch_tail in Hrun as (nowIso & r0 & ->). reflexivity.
  - unfold resume in Hrun. entered Hl Hrun.
    destruct (negb _); [discriminate Hrun|].
    apply patch_tail in Hrun as (nowIso & r0 & ->).
    split; [reflexivity|]. intros Hurl.
    unfold sanitizePayload, resume_updates. simpl. by rewrite Hurl.
  - unfold cancel in Hrun. entered Hl Hrun.
    destruct (bool_decide _); [discriminate Hrun|].
    apply patch_tail in Hrun as (nowIso & r0 & ->). by split.
Qed.

Lemma filter_others_patched id (g : Subscription.t → Subscription.t)
    (rows : list Subscription.t) :
  (∀ r, Subscription.id (g r) = Subscription.id r) →
  List.filter (λ r, negb (String.eqb (Subscription.id r) id))
    (map (λ r, if String.eqb (Subscription.id r) id then g r else r) rows)
  = List.filter (λ r, negb (String.eqb (Subscription.id r) id)) rows.
Proof.
  intros Hg. induction rows as [|r rows IH]; [done|]. simpl.
  destruct (String.eqb (Subscription.id r) id) eqn:Heq; simpl.
  - by rewrite Hg, Heq.
  - by rewrite Heq, IH.
Qed.

Lemma filter_others_absent id (rows : list Subscription.t) :
  id ∉ (Subscription.id <$>
          List.filter (λ r, negb (String.eqb (Subscription.id r) id)) rows).
Proof.
  intros (r & -> & Hin%list_elem_of_In)%list_elem_of_fmap.
  apply filter_In in Hin as [_ Hne]. by rewrite String.eqb_refl in Hne.
Qed.

(** X6. The end of a local-only subscription.  [cancel] on a local-only
    subscription that is not yet canceled (by a caller that passes the
    access check) stores status [Canceled], the current time as
    [ended_at] and the reason of the request.  From then on a second
    [cancel] is refused with "Subscription is already canceled", and
    [remove] by the same caller, privileged or not, succeeds: it deletes
    exactly the rows stored under the identifier, and the whole sequence
    makes no processor call. *)
Theorem cancel_then_remove_local w id requesterId isAdmin dto subscription :
  lookup_subscription w id = Some subscription →
  may_access subscription requesterId isAdmin = true →
  truthy (Subscription.stripe_subscription_id subscription) = false →
  Subscription.status subscription ≠ Canceled →
  ∃ canceled w1 w2,
    cancel id requesterId dto isAdmin w = (Fulfilled canceled, w1)
    ∧ Subscription.status canceled = Canceled
    ∧ Subscription.ended_at canceled = Some (now (clock_reads w))
    ∧ Subscription.cancel_reason canceled = CancelSubscriptionDto.reason dto
    ∧ (∀ dto', refused (cancel id requesterId dto' isAdmin w1) w1
                 (BadRequestException "Subscription is already canceled"))
    ∧ remove id requesterId isAdmin w1 = (Fulfilled tt, w2)
    ∧ subscriptions w2
      = List.filter (λ r, negb (String.eqb (Subscription.id r) id)) (subscriptions w)
    ∧ stripe_calls (trace w2) = stripe_calls (trace w).
Proof.
  intros Hl Ha Hloc Hst.
  pose proof (truthy_false_nonempty _ Hloc) as Hne.
  destruct (patch_run "cancel" id
              (λ t, sanitizePayload (cancel_updates subscription dto t))
              (log (DbSelect subscriptions_table) w) subscription Hl
              (λ t w0, cancel_updates_free subscription dto t id w0))
    as (w1 & Hrun1 & Hl1 & Hrows1 & _ & _ & Hcalls1 & _).
  cbv zeta in Hrun1, Hl1, Hrows1.
  change (clock_reads (log (DbSelect subscriptions_table) w)) with (clock_reads w)
    in Hrun1, Hl1, Hrows1.
  change (subscriptions (log (DbSelect subscriptions_table) w)) with (subscriptions w)
    in Hrows1.
  set (u := sanitizePayload (cancel_updates subscription dto (now (clock_reads w))))
    in Hrun1, Hl1, Hrows1.
  set (canceled := Updates.apply u subscription) in Hrun1, Hl1.
  assert (Hcanceled : canceled
            = Updates.apply (Updates.mk None None None None None (Some Canceled) None None None
                               (Some (Some (now (clock_reads w)))) None None
                               (Some (CancelSubscriptionDto.stripe_invoice_url dto
                                      ?? Subscription.stripe_invoice_url subscription))
                               None (Some (CancelSubscriptionDto.reason dto)) None
                               (Some (Some (now (clock_reads w))))) subscription).
  { unfold canceled, u, sanitizePayload, cancel_updates. by rewrite Hloc. }
  assert (Ha1 : may_access canceled requesterId isAdmin = true).
  { rewrite Hcanceled. by rewrite may_access_apply. }
  assert (Hloc1 : truthy (Subscription.stripe_subscription_id canceled) = false).
  { rewrite Hcanceled. exact Hloc. }
  assert (Hst1 : Subscription.status canceled = Canceled) by (by rewrite Hcanceled).
  eexists canceled, w1, _.
  split.
  { unfold cancel. enter Hl Ha. rewrite (bool_decide_eq_false_2 _ Hst). cbv iota.
    rewrite Hne. rewrite bind_unfold. exact Hrun1. }
  split; [done|]. split; [by rewrite Hcanceled|]. split; [by rewrite Hcanceled|].
  split.
  { intros dto'. unfold refused, cancel. enter Hl1 Ha1.
    rewrite (bool_decide_eq_true_2 _ Hst1). simpl.
    repeat split. by apply stripe_calls_log_db. }
  assert (Hremove : remove id requesterId isAdmin w1
            = (Fulfilled tt,
               set_subscriptions
                 (List.filter (λ r, negb (String.eqb (Subscription.id r) id)) (subscriptions w1))
                 (log (DbDelete subscriptions_table) (log (DbSelect subscriptions_table) w1)))).
  { unfold remove. enter Hl1 Ha1. rewrite Hst1, Hloc1.
    replace (includes [Canceled; Expired] Canceled) with true by reflexivity.
    rewrite andb_false_r. cbv iota. cbn [andb].
    unfold delete_by_id. repeat (rewrite bind_unfold; simpl). reflexivity. }
  split; [exact Hremove|].
  split.
  { simpl. rewrite Hrows1. apply filter_others_patched. intros r. apply apply_id. }
  simpl. unfold stripe_calls. rewrite !omap_app. simpl. rewrite !app_nil_r.
  fold (stripe_calls (trace w1)). rewrite Hcalls1.
  by apply stripe_calls_log_db.
Qed.

(** X7. Whenever [remove] succeeds, by whichever path, no row is left
    under the identifier: the identifier is well formed, and from then on
    [findOne] answers every caller with the not-found error. *)
Theorem removed_row_is_gone id requesterId isAdmin w w' :
  remove id requesterId isAdmin w = (Fulfilled tt, w') →
  isValidUUID id = true
  ∧ (id ∉ (Subscription.id <$> subscriptions w'))
  ∧ ∀ requesterId' isAdmin',
      findOne id requesterId' isAdmin' w'
      = (Rejected (NotFoundException
                     ("Subscription with id " +:+ dquote +:+ id +:+ dquote +:+ " not found")),
         log (DbSelect subscriptions_table) w').
Proof.
  intros Hrun.
  assert (Hv : isValidUUID id = true).
  { destruct (isValidUUID id) eqn:Hv; [done|].
    unfold remove in Hrun. rewrite bind_unfold, (getById_invalid _ _ Hv) in Hrun.
    discriminate Hrun. }
  assert (Habs : id ∉ (Subscription.id <$> subscriptions w')).
  { unfold remove in Hrun.
    apply bind_fulfilled in Hrun as (r & w1 & _ & Hrun).
    apply bind_fulfilled in Hrun as ([] & w2 & _ & Hrun).
    destruct (_ && _); [discriminate Hrun|].
    apply bind_fulfilled in Hrun as ([] & w3 & _ & Hdel).
    unfold delete_by_id in Hdel. repeat (rewrite bind_unfold in Hdel; simpl in Hdel).
    injection Hdel as <-. simpl. apply filter_others_absent. }
  split; [done|]. split; [done|].
  intros requesterId' isAdmin'. unfold findOne.
  by rewrite bind_unfold, (getById_absent _ _ Hv Habs).
Qed.

Lemma sets_nothing_keys subscription dto nowIso :
  truthy (Subscription.stripe_subscription_id subscription) = false →
  sets_nothing dto = true →
  Updates.keys (update_updates subscription dto false nowIso) = 1%nat.
Proof.
  unfold sets_nothing, update_updates, absent. intros ->.
  rewrite !andb_true_iff, !negb_true_iff, !bool_decide_eq_true.
  intros ((((((((-> & ->) & ->) & ->) & H1) & H2) & H3) & H4) & ->).
  destruct (UpdateSubscriptionDto.ended_at dto); try discriminate H1.
  destruct (UpdateSubscriptionDto.stripe_invoice_url dto); try discriminate H2.
  destruct (UpdateSubscriptionDto.pause_reason dto); try discriminate H3.
  destruct (UpdateSubscriptionDto.cancel_reason dto); try discriminate H4.
  reflexivity.
Qed.

(** X8. [update] of a local-only subscription with a request body from
    which no column is set (it may still name a [user_id] or a
    [stripe_price_id], which are ignored for a local-only row, or carry
    empty strings) succeeds and writes nothing: the stored row is
    returned as it was, [last_event_at] included, the three tables are
    unchanged and no processor call is made. *)
Theorem update_without_changes_writes_nothing w id requesterId isAdmin dto subscription :
  lookup_subscription w id = Some subscription →
  may_access subscription requesterId isAdmin = true →
  truthy (Subscription.stripe_subscription_id subscription) = false →
  sets_nothing dto = true →
  ∃ w', update id requesterId dto isAdmin w = (Fulfilled subscription, w')
        ∧ same_tables w w'
        ∧ stripe_calls (trace w') = stripe_calls (trace w).
Proof.
  intros Hl Ha Hloc Hdto.
  pose proof (truthy_false_nonempty _ Hloc) as Hne.
  unfold update, sanitizePayload. enter Hl Ha. rewrite Hne.
  repeat (rewrite bind_unfold; simpl).
  rewrite (sets_nothing_keys _ _ _ Hloc Hdto). simpl.
  set (w2 := mkWorld _ _ _ _ _ _).
  assert (Hl2 : lookup_subscription w2 id = Some subscription) by exact Hl.
  rewrite (getById_found _ _ _ Hl2).
  eexists. split; [reflexivity|]. split; [done|].
  unfold w2, log, stripe_calls. simpl. rewrite !omap_app. simpl. by rewrite !app_nil_r.
Qed.

(** ** Pure helpers *)

Lemma matches_spec classes s :
  matches classes s = true
  ↔ String.length s = List.length classes
    ∧ ∀ i c p, String.get i s = Some c → classes !! i = Some p → p c = true.
Proof.
  revert s. induction classes as [|p classes IH]; intros s.
  - destruct s as [|c s]; simpl.
    + split; [|done]. intros _. split; [done|]. by intros [|i].
    + split; [done|]. by intros [? _].
  - destruct s as [|c s]; simpl.
    + split; [done|]. by intros [? _].
    + rewrite andb_true_iff, IH. split.
      * intros [Hp [Hlen Hall]]. split; [by rewrite Hlen|].
        intros [|i] c' p'; simpl.
        -- by intros [= <-] [= <-].
        -- apply Hall.
      * intros [Hlen Hall]. split; [by apply (Hall 0%nat)|].
        split; [by injection Hlen|].
        intros i c' p' Hc Hp'. by apply (Hall (S i)).
Qed.

Lemma uuid_regex_lookup i p : uuid_regex !! i = Some p → p = uuid_class i.
Proof.
  do 36 (destruct i as [|i]; [by intros [= <-]|]). done.
Qed.

Lemma uuid_regex_lookup_lt i : (i < 36)%nat → uuid_regex !! i = Some (uuid_class i).
Proof.
  intros Hi. do 36 (destruct i as [|i]; [reflexivity|]). lia.
Qed.

Lemma get_Some_lt i s c : String.get i s = Some c → (i < String.length s)%nat.
Proof.
  revert i. induction s as [|c' s IH]; intros [|i]; simpl; try done; [lia|].
  intros Hc. apply IH in Hc. lia.
Qed.

(** X9. [isValidUUID] accepts exactly the strings of 36 characters that
    have a dash at positions 8, 13, 18 and 23, one of [1-5] at position
    14, one of [89ab] (either case) at position 19 and a hexadecimal
    digit (either case) everywhere else.  The pattern is anchored at both
    ends: a longer or shorter string is rejected, and so is an identifier
    of another version, such as the nil UUID. *)
Theorem isValidUUID_shape s :
  isValidUUID s = true
  ↔ String.length s = 36%nat
    ∧ ∀ i c, String.get i s = Some c → uuid_class i c = true.
Proof.
  unfold isValidUUID. rewrite matches_spec. split.
  - intros [Hlen Hall]. split; [exact Hlen|].
    intros i c Hc. apply (Hall i c); [done|].
    apply uuid_regex_lookup_lt. apply get_Some_lt in Hc.
    rewrite Hlen in Hc. exact Hc.
  - intros [Hlen Hall]. split; [exact Hlen|].
    intros i c p Hc Hp. apply uuid_regex_lookup in Hp as ->. by apply Hall.
Qed.

(** X10. [mergeMetadata] always returns an object, whatever the stored
    value was (a value that is not an object counts as empty).  Keys of
    the stored object other than [custom] and [stripe] are kept as they
    were.  The [stripe] key is always present and holds the processor's
    metadata when it is given.  A non-empty custom object is merged into
    the stored [custom] key by key, the new value winning; an absent or
    empty one leaves the [custom] key untouched. *)
Theorem mergeMetadata_merges_by_key existing custom stripeMetadata :
  ∃ m, mergeMetadata existing custom stripeMetadata = JObj m
    ∧ (∀ k, k ≠ "custom" → k ≠ "stripe" → m !! k = object_of existing !! k)
    ∧ (∃ v, m !! "stripe" = Some v
            ∧ ∀ sm, stripeMetadata = Some sm → v = JObj (JStr <$> sm))
    ∧ (∀ c, custom = Some c → c ≠ ∅ →
         ∃ merged, m !! "custom" = Some (JObj merged)
           ∧ (∀ k v, c !! k = Some v → merged !! k = Some v)
           ∧ (∀ k, c !! k = None →
                merged !! k = previous_custom (object_of existing) !! k))
    ∧ (custom = None ∨ custom = Some ∅ → m !! "custom" = object_of existing !! "custom").
Proof.
  unfold mergeMetadata. fold (object_of existing).
  set (m0 := object_of existing).
  set (m1 := match custom with
             | Some c => if (0 <? size c)%nat then _ else m0
             | None => m0
             end).
  eexists. split; [reflexivity|].
  assert (Hother : ∀ k, k ≠ "custom" → m1 !! k = m0 !! k).
  { intros k Hk. unfold m1. destruct custom as [c|]; [|done].
    destruct (0 <? size c)%nat; [|done]. by rewrite lookup_insert_ne. }
  split.
  { intros k Hc Hs. rewrite lookup_insert_ne by done. by apply Hother. }
  split.
  { eexists. split; [apply lookup_insert_eq|]. by intros sm ->. }
  split.
  - intros c -> Hne. rewrite lookup_insert_ne by done. unfold m1.
    assert (Hsz : (0 <? size c)%nat = true).
    { apply Nat.ltb_lt. destruct (decide (size c = 0%nat)) as [Hz|]; [|lia].
      by apply map_size_empty_iff in Hz. }
    rewrite Hsz. rewrite lookup_insert_eq. eexists. split; [reflexivity|].
    fold (previous_custom m0). unfold assign. split.
    + intros k v Hk. by rewrite lookup_union, Hk, union_Some_l.
    + intros k Hk. by rewrite lookup_union, Hk, (left_id_L None _).
  - intros Hc. rewrite lookup_insert_ne by done. unfold m1.
    destruct Hc as [-> | ->]; [done|]. by rewrite map_size_empty.
Qed.

(** ** The processor calls of each operation *)

Ltac solve_among := intros; unfold among; cbn; repeat constructor.

Lemma calls_only_sync P subscription customMetadata :
  (∀ id, P (Stripe.InvoicesRetrieve id)) →
  frame (calls_only P) (syncFromStripe subscription customMetadata).
Proof.
  intros HP w.
  destruct (syncFromStripe_run subscription customMetadata w)
    as (w' & evs & -> & _ & _ & _ & Htrace & Hevs & _). simpl.
  apply (calls_only_trace _ _ _ _ Htrace).
  constructor; [done|].
  eapply Forall_impl; [exact Hevs|].
  intros ev Hev r ->. simpl in Hev. by destruct r.
Qed.

Lemma calls_only_fresh_defaults P : frame (calls_only P) fresh_defaults.
Proof. by apply calls_only_quiet. Qed.

Lemma calls_only_modify_customers P (f : World → list CustomerRecord.t) :
  frame (calls_only P) (modify (λ w, set_stripe_customers (f w) w)).
Proof. by apply calls_only_quiet. Qed.

Lemma calls_only_db_insert P t : frame (calls_only P) (record (DbInsert t)).
Proof. by apply calls_only_record. Qed.

Lemma calls_only_auth P uid : frame (calls_only P) (record (AuthGetUserById uid)).
Proof. by apply calls_only_record. Qed.

#[local] Hint Resolve calls_only_fresh_defaults calls_only_modify_customers
  calls_only_db_insert calls_only_auth : frames.

Lemma calls_only_findByStripeSubscriptionId P stripeId :
  frame (calls_only P) (findByStripeSubscriptionId stripeId).
Proof. unfold findByStripeSubscriptionId. frames. Qed.

Lemma calls_only_ensureUserCanStartNew P userId :
  frame (calls_only P) (ensureUserCanStartNew userId).
Proof. unfold ensureUserCanStartNew. frames. Qed.

Lemma calls_only_resolvePrice P plan_id stripe_price_id plan :
  frame (calls_only P) (resolvePrice plan_id stripe_price_id plan).
Proof.
  unfold resolvePrice, PlansService_findOne, PlansService_findByStripePrice. frames.
Qed.

#[local] Hint Resolve calls_only_findByStripeSubscriptionId
  calls_only_ensureUserCanStartNew calls_only_resolvePrice : frames.

Lemma calls_only_ensureCustomer P options :
  (∀ p, P (Stripe.CustomersCreate p)) →
  (∀ id email, P (Stripe.CustomersUpdate id email)) →
  frame (calls_only P) (ensureCustomer options).
Proof.
  intros Hcreate Hupdate.
  unfold ensureCustomer, CustomersService_findByUserId, fetchUserEmail, updateLocal.
  frames; by apply calls_only_stripe.
Qed.

(** X11. The processor endpoints that each operation can reach, whatever
    the tables hold and whatever the processor answers.  [findOne] calls
    none.  The reconciliation routine only looks up an invoice, and the
    checkout handler only retrieves the subscription before it
    reconciles: the webhook paths never call an endpoint that changes
    something at the processor.  [pause] and [resume] only update the
    subscription, [cancel] only cancels it, [update] retrieves and
    updates it, and only [create] creates a customer or a subscription. *)
Theorem processor_footprint :
  (∀ id requesterId isAdmin,
     frame (calls_only (among [])) (findOne id requesterId isAdmin))
  ∧ (∀ snapshot customMetadata,
       frame (calls_only (among [InvoicesRetrieveEndpoint]))
             (syncFromStripe snapshot customMetadata))
  ∧ (∀ session,
       frame (calls_only (among [SubscriptionsRetrieveEndpoint; InvoicesRetrieveEndpoint]))
             (handleCheckoutSession session))
  ∧ (∀ id requesterId dto isAdmin,
       frame (calls_only (among [SubscriptionsUpdateEndpoint; InvoicesRetrieveEndpoint]))
             (pause id requesterId dto isAdmin))
  ∧ (∀ id requesterId dto isAdmin,
       frame (calls_only (among [SubscriptionsUpdateEndpoint; InvoicesRetrieveEndpoint]))
             (resume id requesterId dto isAdmin))
  ∧ (∀ id requesterId dto isAdmin,
       frame (calls_only (among [SubscriptionsCancelEndpoint; InvoicesRetrieveEndpoint]))
             (cancel id requesterId dto isAdmin))
  ∧ (∀ id requesterId dto isAdmin,
       frame (calls_only (among [SubscriptionsRetrieveEndpoint; SubscriptionsUpdateEndpoint;
                                 InvoicesRetrieveEndpoint]))
             (update id requesterId dto isAdmin))
  ∧ (∀ requester dto isAdmin,
       frame (calls_only (among [CustomersCreateEndpoint; CustomersUpdateEndpoint;
                                 SubscriptionsCreateEndpoint; InvoicesRetrieveEndpoint]))
             (create requester dto isAdmin)).
Proof.
  repeat split; intros.
  - unfold findOne. frames.
  - apply calls_only_sync. solve_among.
  - unfold handleCheckoutSession. frames;
      try (apply calls_only_stripe; solve_among);
      apply calls_only_sync; solve_among.
  - unfold pause. frames;
      try (apply calls_only_stripe; solve_among);
      apply calls_only_sync; solve_among.
  - unfold resume. frames;
      try (apply calls_only_stripe; solve_among);
      apply calls_only_sync; solve_among.
  - unfold cancel. frames;
      try (apply calls_only_stripe; solve_among);
      apply calls_only_sync; solve_among.
  - unfold update. frames;
      try (apply calls_only_stripe; solve_among);
      apply calls_only_sync; solve_among.
  - unfold create. frames;
      try (apply calls_only_stripe; solve_among);
      try (apply calls_only_sync; solve_among);
      apply calls_only_ensureCustomer; solve_among.
Qed.

(** ** Failures of the processor *)

Lemma bind_rejected {A B} (m : Promise A) (f : A → Promise B) w e w' :
  (m ≫= f) w = (Rejected e, w') →
  m w = (Rejected e, w') ∨ ∃ a w1, m w = (Fulfilled a, w1) ∧ f a w1 = (Rejected e, w').
Proof.
  rewrite bind_unfold. destruct (m w) as [[a|e0] w1].
  - intros Hf. right. by exists a, w1.
  - intros [= -> ->]. by left.
Qed.

Lemma quiet_bind {A B} (m : Promise A) (f : A → Promise B) :
  no_processor_error m → (∀ a, no_processor_error (f a)) → no_processor_error (m ≫= f).
Proof.
  intros Hm Hf w e w' [Hrun|(a & w1 & _ & Hrun)]%bind_rejected.
  - by eapply Hm.
  - by eapply Hf.
Qed.

Lemma quiet_ret {A} (a : A) : no_processor_error (mret a).
Proof. by intros w e w'. Qed.

Lemma quiet_throw {A} e : (∀ message, e ≠ StripeError message) → no_processor_error (@throw A e).
Proof. intros He w e' w' [= <- _]. exact He. Qed.

Lemma quiet_record ev : no_processor_error (record ev).
Proof. by intros w e w'. Qed.

Lemma quiet_gets {A} (f : World → A) : no_processor_error (gets f).
Proof. by intros w e w'. Qed.

Lemma quiet_modify f : no_processor_error (modify f).
Proof. by intros w e w'. Qed.

Lemma quiet_Date_now : no_processor_error Date_now.
Proof. by intros w e w'. Qed.

Lemma quiet_syncFromStripe snapshot customMetadata :
  no_processor_error (syncFromStripe snapshot customMetadata).
Proof.
  intros w e w' Hrun message ->.
  apply sync_rejected in Hrun as [Herr _].
  by destruct (sync_error_kind _ _ _ _ Herr) as [?|[[? ?]|[? ?]]].
Qed.

Lemma quiet_update_by_id what id u : no_processor_error (update_by_id what id u).
Proof.
  intros w e w' Hrun message ->. rewrite update_by_id_run in Hrun.
  destruct (refusal _ _ _) eqn:Hrefused; [|done]. injection Hrun as -> _.
  by apply refusal_Some in Hrefused as [? ?].
Qed.

Ltac quiet :=
  repeat lazymatch goal with
    | |- no_processor_error (_ ≫= _) => apply quiet_bind; [|intros ?]
    | |- no_processor_error (mret _) => apply quiet_ret
    | |- no_processor_error (throw _) => apply quiet_throw; done
    | |- no_processor_error (record _) => apply quiet_record
    | |- no_processor_error (gets _) => apply quiet_gets
    | |- no_processor_error (modify _) => apply quiet_modify
    | |- no_processor_error Date_now => apply quiet_Date_now
    | |- no_processor_error (syncFromStripe _ _) => apply quiet_syncFromStripe
    | |- no_processor_error (if ?b then _ else _) => destruct b
    | |- no_processor_error (match ?x with _ => _ end) => destruct x
    | |- no_processor_error (getById _) => unfold getById
    | |- no_processor_error (update_by_id _ _ _) => apply quiet_update_by_id
    | |- no_processor_error (delete_by_id _) => unfold delete_by_id
    | |- no_processor_error (findByStripeSubscriptionId _) =>
        unfold findByStripeSubscriptionId
    end.

(** A prefix that keeps the relation, then a rest that is clean. *)
Lemma clean_after (R : relation World) `{!PreOrder R} {A B}
    (m : Promise A) (f : A → Promise B) :
  frame R m → (∀ a, on_processor_error R (f a)) → on_processor_error R (m ≫= f).
Proof.
  intros Hm Hf w message w' [Hrun|(a & w1 & Hrun & Hrest)]%bind_rejected.
  - specialize (Hm w). by rewrite Hrun in Hm.
  - transitivity w1.
    + specialize (Hm w). by rewrite Hrun in Hm.
    + by eapply Hf.
Qed.

(** A clean computation, then a rest that raises no processor error. *)
Lemma clean_then_quiet (R : relation World) {A B} (m : Promise A) (f : A → Promise B) :
  on_processor_error R m → (∀ a, no_processor_error (f a)) →
  on_processor_error R (m ≫= f).
Proof.
  intros Hm Hf w message w' [Hrun|(a & w1 & _ & Hrest)]%bind_rejected.
  - by eapply Hm.
  - by destruct (Hf a w1 _ _ Hrest message).
Qed.

Lemma quiet_is_clean (R : relation World) {A} (m : Promise A) :
  no_processor_error m → on_processor_error R m.
Proof. intros Hm w message w' Hrun. by destruct (Hm w _ _ Hrun message). Qed.

#[local] Hint Resolve same_tables_getById same_tables_stripe same_tables_resolvePrice
  same_tables_ensureAccess : frames.

Ltac clean :=
  repeat lazymatch goal with
    | |- on_processor_error _ (if ?b then _ else _) => destruct b
    | |- on_processor_error _ (match ?x with _ => _ end) => destruct x
    | |- on_processor_error _ (?m ≫= _) =>
        first [ apply clean_after; [apply _|solve [frames]|intros ?]
              | apply clean_then_quiet; [|intros ?; solve [quiet]] ]
    | |- on_processor_error _ _ => apply quiet_is_clean; solve [quiet]
    end.

Lemma clean_cancel id requesterId dto isAdmin :
  on_processor_error same_tables (cancel id requesterId dto isAdmin).
Proof. unfold cancel. clean. Qed.

(** X12. The processor is asked before anything is written.  Whenever
    [update], [pause], [resume], [cancel] or [remove] fails with an error
    of the processor, the three tables are exactly as they were before
    the call; whenever [create] fails with an error of the processor, no
    subscription row has been written (a customer mapping created on the
    way stays). *)
Theorem processor_error_leaves_tables :
  (∀ id requesterId dto isAdmin,
     on_processor_error same_tables (update id requesterId dto isAdmin))
  ∧ (∀ id requesterId dto isAdmin,
       on_processor_error same_tables (pause id requesterId dto isAdmin))
  ∧ (∀ id requesterId dto isAdmin,
       on_processor_error same_tables (resume id requesterId dto isAdmin))
  ∧ (∀ id requesterId dto isAdmin,
       on_processor_error same_tables (cancel id requesterId dto isAdmin))
  ∧ (∀ id requesterId isAdmin,
       on_processor_error same_tables (remove id requesterId isAdmin))
  ∧ (∀ requester dto isAdmin,
       on_processor_error same_rows (create requester dto isAdmin)).
Proof.
  split; [|split; [|split; [|split; [|split]]]]; intros.
  - unfold update. clean.
  - unfold pause. clean.
  - unfold resume. clean.
  - apply clean_cancel.
  - unfold remove. clean. apply clean_cancel.
  - unfold create. clean.
Qed.

(** ** What the reconciliation routine leaves alone *)

(** X13. One pass of [syncFromStripe], whatever its outcome, never writes
    the customer mapping or the plans, never removes a subscription row
    and appends at most one.  Every row that existed keeps its position,
    its [id], its [created_at] and its [cancel_reason]; on a well-formed
    table, a row that does not carry the external id of the snapshot is
    left exactly as it was.  The pass is fulfilled, or it fails with one
    of three errors: the [RangeError] of a timestamp out of range,
    "Failed to update subscription: ..." or "Failed to insert
    subscription: ..." when the datastore refuses the row; a pass that
    fails has written nothing. *)
Theorem syncFromStripe_touches_one_row snapshot customMetadata w :
  ∃ w', syncFromStripe snapshot customMetadata w
        = (sync_outcome snapshot customMetadata w, w')
    ∧ stripe_customers w' = stripe_customers w
    ∧ plans w' = plans w
    ∧ (List.length (subscriptions w) ≤ List.length (subscriptions w')
       ≤ S (List.length (subscriptions w)))%nat
    ∧ (∀ i r, subscriptions w !! i = Some r →
        ∃ r', subscriptions w' !! i = Some r'
              ∧ Subscription.id r' = Subscription.id r
              ∧ Subscription.created_at r' = Subscription.created_at r
              ∧ Subscription.cancel_reason r' = Subscription.cancel_reason r
              ∧ (well_formed w = true →
                 Subscription.stripe_subscription_id r
                 ≠ Some (Stripe.Subscription.id snapshot) →
                 r' = r))
    ∧ match sync_outcome snapshot customMetadata w with
      | Fulfilled _ => True
      | Rejected error =>
          subscriptions w' = subscriptions w
          ∧ (error = RangeError "Invalid time value"
             ∨ (∃ message,
                  error = InternalServerErrorException
                            ("Failed to update subscription: " +:+ message))
             ∨ (∃ message,
                  error = InternalServerErrorException
                            ("Failed to insert subscription: " +:+ message)))
      end.
Proof.
  destruct (syncFromStripe_run snapshot customMetadata w)
    as (w' & evs & Hrun & Hrows & Hcustomers & Hplans & _).
  exists w'. split; [exact Hrun|]. split; [exact Hcustomers|]. split; [exact Hplans|].
  assert (Hlast : match sync_outcome snapshot customMetadata w with
                  | Fulfilled _ => True
                  | Rejected error =>
                      subscriptions w' = subscriptions w
                      ∧ (error = RangeError "Invalid time value"
                         ∨ (∃ message,
                              error = InternalServerErrorException
                                        ("Failed to update subscription: " +:+ message))
                         ∨ (∃ message,
                              error = InternalServerErrorException
                                        ("Failed to insert subscription: " +:+ message)))
                  end).
  { destruct (sync_outcome snapshot customMetadata w) as [|error] eqn:Hout; [done|].
    apply sync_rejected in Hrun as (Herr & Hsame & _).
    split; [exact Hsame|]. by eapply sync_error_kind. }
  split; [|split; [|exact Hlast]]; clear Hlast.
  all: rewrite Hrows; unfold reconciled;
    destruct (reconciled_payload snapshot customMetadata w) as [payload|];
    [destruct (sync_error snapshot customMetadata w)|].
  all: try (lia || (intros i r Hi; exists r; by repeat split)).
  all: destruct (nonempty
                   (Subscription.id <$> existing_row (Stripe.Subscription.id snapshot) w))
         as [id0|] eqn:Hid0.
  - rewrite length_map; lia.
  - rewrite length_app; simpl; lia.
  - intros i r Hi. rewrite list_lookup_fmap, Hi. simpl.
    eexists. split; [reflexivity|].
    destruct (String.eqb_spec (Subscription.id r) id0) as [Heq|Hne]; [|by repeat split].
    repeat split.
    intros Hwf Hsid. exfalso. apply Hsid.
    apply nonempty_Some in Hid0 as [Hid0 _].
    destruct (existing_row (Stripe.Subscription.id snapshot) w) as [existing|] eqn:He;
      [|done].
    injection Hid0 as Hid0.
    apply existing_row_In in He as (Hin & Hstripe & _).
    apply well_formed_spec in Hwf as [Hnd _].
    assert (r = existing) as ->; [|done].
    eapply NoDup_id_eq; [exact Hnd| |exact Hin|congruence].
    apply list_elem_of_In. by eapply list_elem_of_lookup_2.
  - intros i r Hi. exists r. split; [|by repeat split].
    by apply lookup_app_l_Some.
Qed.

(** ** The checkout handler *)

Lemma handleCheckoutSession_run s sid w :
  Stripe.Session.mode s = Some "subscription" →
  checkout_subscription_id s = Some sid →
  handleCheckoutSession (Some s) w
  = match subscriptions_retrieve sid with
    | inr snapshot =>
        syncFromStripe snapshot (checkout_metadata s)
          (log (StripeCall (Stripe.SubscriptionsRetrieve sid)) w)
    | inl message =>
        (Rejected (StripeError message),
         log (StripeCall (Stripe.SubscriptionsRetrieve sid)) w)
    end.
Proof.
  intros Hmode Hsid. unfold handleCheckoutSession, checkout_subscription_id in *.
  rewrite (bool_decide_eq_true_2 _ Hmode). cbn [negb]. cbv iota.
  rewrite Hsid. unfold stripe. rewrite !bind_unfold. simpl.
  by destruct (subscriptions_retrieve sid).
Qed.

(** X14. The checkout handler acts on subscription checkouts only.  A
    missing session, a session of another mode and a session without a
    subscription identifier are ignored: nothing is read, written or
    called.  Otherwise the subscription is retrieved from the processor
    once; if that fails the error is raised and the tables are as
    before; if it succeeds the handler ends as one reconciliation pass
    over the retrieved snapshot ends, with the session's metadata as
    custom metadata: fulfilled or rejected with the error of the pass,
    and with the tables that the pass leaves. *)
Theorem handleCheckoutSession_acts_on_subscription_checkouts session w :
  match session with
  | None => handleCheckoutSession session w = (Fulfilled tt, w)
  | Some s =>
      if bool_decide (Stripe.Session.mode s = Some "subscription")
      then match checkout_subscription_id s with
           | None => handleCheckoutSession session w = (Fulfilled tt, w)
           | Some sid =>
               let w1 := log (StripeCall (Stripe.SubscriptionsRetrieve sid)) w in
               match subscriptions_retrieve sid with
               | inl message =>
                   handleCheckoutSession session w = (Rejected (StripeError message), w1)
               | inr snapshot =>
                   ∃ w', handleCheckoutSession session w
                         = (sync_outcome snapshot (checkout_metadata s) w1, w')
                         ∧ subscriptions w' = reconciled snapshot (checkout_metadata s) w1
                         ∧ stripe_customers w' = stripe_customers w
                         ∧ plans w' = plans w
               end
           end
      else handleCheckoutSession session w = (Fulfilled tt, w)
  end.
Proof.
  destruct session as [s|]; [|reflexivity].
  destruct (bool_decide (Stripe.Session.mode s = Some "subscription")) eqn:Hmode.
  2:{ unfold handleCheckoutSession. by rewrite Hmode. }
  apply bool_decide_eq_true in Hmode.
  destruct (checkout_subscription_id s) as [sid|] eqn:Hsid.
  2:{ unfold handleCheckoutSession, checkout_subscription_id in *.
      rewrite (bool_decide_eq_true_2 _ Hmode). cbn [negb]. cbv iota. by rewrite Hsid. }
  cbv zeta. rewrite (handleCheckoutSession_run _ _ _ Hmode Hsid).
  destruct (subscriptions_retrieve sid) as [message|snapshot]; [reflexivity|].
  destruct (syncFromStripe_run snapshot (checkout_metadata s)
              (log (StripeCall (Stripe.SubscriptionsRetrieve sid)) w))
    as (w' & evs & Hrun & Hrows & Hcustomers & Hplans & _).
  exists w'. by repeat split.
Qed.

Lemma sync_payload_columns existing plan invoiceUrl userId stripeCustomerId
    subscription customMetadata ts t :
  let payload := sync_payload existing plan invoiceUrl userId stripeCustomerId
                   subscription customMetadata ts t in
  Payload.user_id payload = userId
  ∧ Payload.stripe_subscription_id payload = Stripe.Subscription.id subscription
  ∧ Payload.stripe_customer_id payload = stripeCustomerId
  ∧ Payload.status payload = mapStripeStatus subscription
  ∧ Payload.metadata payload
    = mergeMetadata (Subscription.metadata <$> existing) (Some customMetadata)
        (Some (default ∅ (Stripe.Subscription.metadata subscription))).
Proof. unfold sync_payload. by destruct (_ && _). Qed.

Lemma omap_stored_strings (m : gmap string string) :
  omap stored (JStr <$> m) = JStr <$> m.
Proof.
  apply map_eq. intros k. rewrite lookup_omap, !lookup_fmap. by destruct (m !! k).
Qed.

(** The owner that the mapping gives to a snapshot with no local row. *)
Lemma resolved_user_mapped snapshot cid mapping w :
  rows_for (Stripe.Subscription.id snapshot) w = [] →
  mappings_for cid w = [mapping] →
  CustomerRecord.user_id mapping ≠ EmptyString →
  resolved_user snapshot cid w = Some (CustomerRecord.user_id mapping).
Proof.
  intros Hrows Hmap Hu. unfold resolved_user, existing_row, mapped_user.
  rewrite Hrows, Hmap. unfold maybeSingle. simpl.
  change (truthy None) with false. cbv iota.
  rewrite (truthy_Some _ Hu). simpl. by apply nonempty_of_truthy.
Qed.

(** X15. A subscription checkout is attributed through the customer
    mapping.  Suppose the session names a subscription that the
    processor returns, no local row carries its external id yet, exactly
    one mapping exists for its customer and the user of that mapping is
    in the [users] table; the timestamps of the subscription are in the
    range of dates, and its first price has a local plan or a nickname
    (so that the row has a plan name).  Then the handler appends one
    row: its owner is the user of the mapping (whatever [user_id] the
    metadata of the session or of the subscription name), it carries the
    external subscription and customer ids and the mapped status, no
    cancel reason, and the session's metadata under the [custom] key. *)
Theorem checkout_session_is_attributed_through_the_mapping s sid snapshot cid mapping w :
  Stripe.Session.mode s = Some "subscription" →
  checkout_subscription_id s = Some sid →
  subscriptions_retrieve sid = inr snapshot →
  rows_for (Stripe.Subscription.id snapshot) w = [] →
  nonempty (customer_id (Stripe.Subscription.customer snapshot)) = Some cid →
  mappings_for cid w = [mapping] →
  CustomerRecord.user_id mapping ≠ EmptyString →
  user_exists (CustomerRecord.user_id mapping) = true →
  timestamps_valid snapshot = true →
  is_Some (priced_plan snapshot w)
  ∨ is_Some (first_price snapshot ≫= Stripe.Price.nickname) →
  ∃ w' row,
    handleCheckoutSession (Some s) w = (Fulfilled tt, w')
    ∧ subscriptions w' = subscriptions w ++ [row]
    ∧ Subscription.user_id row = CustomerRecord.user_id mapping
    ∧ Subscription.stripe_subscription_id row = Some (Stripe.Subscription.id snapshot)
    ∧ Subscription.stripe_customer_id row = Some cid
    ∧ Subscription.status row = mapStripeStatus snapshot
    ∧ Subscription.cancel_reason row = None
    ∧ (∀ meta, Stripe.Session.metadata s = Some meta → meta ≠ ∅ →
         ∃ m, Subscription.metadata row = JObj m
              ∧ m !! "custom" = Some (JObj (JStr <$> meta))).
Proof.
  intros Hmode Hsid Hret Hrows Hcid Hmap Hu Hexists Htimes Hname.
  rewrite (handleCheckoutSession_run _ _ _ Hmode Hsid), Hret.
  set (w1 := log (StripeCall (Stripe.SubscriptionsRetrieve sid)) w).
  assert (Hres : resolved_user snapshot cid w1 = Some (CustomerRecord.user_id mapping)).
  { by apply resolved_user_mapped. }
  assert (Herr : sync_error snapshot (checkout_metadata s) w1 = None).
  { by eapply sync_error_insert. }
  destruct (syncFromStripe_writes snapshot (checkout_metadata s) w1 cid _ Hcid Hres)
    as (w' & payload & Hpayload & _ & _ & Hrun).
  rewrite Herr in Hrun. destruct Hrun as [Hrun Hsubs].
  assert (He : existing_row (Stripe.Subscription.id snapshot) w1 = None).
  { unfold existing_row. change (rows_for _ w1) with (rows_for (Stripe.Subscription.id snapshot) w).
    by rewrite Hrows. }
  rewrite He in Hsubs, Hpayload. simpl in Hsubs.
  change (nonempty None) with (@None string) in Hsubs. cbv iota in Hsubs.
  destruct (sync_payload_columns None (priced_plan snapshot w1)
              (latest_invoice_url snapshot w1)
              (CustomerRecord.user_id mapping) cid snapshot (checkout_metadata s)
              (converted_timestamps snapshot)
              (now (clock_reads w1))) as (Huser & Hstripe & Hcustomer & Hstatus & Hmeta).
  rewrite <- Hpayload in Huser, Hstripe, Hcustomer, Hstatus, Hmeta.
  eexists w', _. split; [exact Hrun|]. split; [exact Hsubs|].
  unfold Payload.row. simpl.
  rewrite Huser, Hstripe, Hcustomer, Hstatus, Hmeta.
  repeat split.
  intros meta Hsession Hne.
  simpl. rewrite mergeMetadata_unfold, to_jsonb_obj.
  eexists. split; [reflexivity|].
  unfold checkout_metadata. rewrite Hsession. simpl.
  assert (Hsz : (0 <? size (JStr <$> meta))%nat = true).
  { apply Nat.ltb_lt. rewrite map_size_fmap.
    destruct (decide (size meta = 0%nat)) as [Hz|]; [|lia].
    by apply map_size_empty_iff in Hz. }
  rewrite Hsz. rewrite lookup_omap, lookup_insert_ne by done.
  rewrite lookup_insert_eq. simpl.
  unfold previous_custom, object_of. rewrite lookup_empty.
  unfold assign. rewrite (right_id_L ∅ (∪)).
  by rewrite stored_obj, omap_stored_strings.
Qed.

(** ** The customer mapping *)

Lemma same_mapping_keys_preorder : PreOrder same_mapping_keys.
Proof.
  split.
  - by intros w.
  - intros x y z (H1 & H2 & H3) (H4 & H5 & H6). unfold same_mapping_keys.
    by rewrite H4, H5, H6.
Qed.
#[local] Existing Instance same_mapping_keys_preorder.

Lemma same_mapping_keys_quiet {A} (m : Promise A) :
  (∀ w, same_tables w (m w).2) → frame same_mapping_keys m.
Proof.
  intros Hm w. destruct (Hm w) as (H1 & H2 & H3). unfold same_mapping_keys.
  by rewrite H1, H2, H3.
Qed.

Lemma same_mapping_keys_stripe {A} r (response : string + A) :
  frame same_mapping_keys (stripe r response).
Proof. apply same_mapping_keys_quiet. apply same_tables_stripe. Qed.

Lemma same_mapping_keys_updateLocal id email :
  frame same_mapping_keys (updateLocal id email).
Proof.
  intros w. unfold updateLocal. repeat (rewrite bind_unfold; simpl).
  assert (Hkeys : ∀ t rows,
            mapping_keys
              (map (λ c, if String.eqb (CustomerRecord.id c) id
                         then CustomerRecord.mk (CustomerRecord.id c) (CustomerRecord.user_id c)
                                (CustomerRecord.stripe_customer_id c) (Some email)
                                (CustomerRecord.metadata c) (CustomerRecord.created_at c) t
                         else c) rows)
            = mapping_keys rows).
  { intros t rows. unfold mapping_keys. rewrite <- list_fmap_compose.
    apply list_fmap_ext. intros i c _. simpl. by destruct (String.eqb _ _). }
  destruct (single _); simpl; (split; [apply Hkeys|done]).
Qed.

Lemma calls_only_updateLocal P id email : frame (calls_only P) (updateLocal id email).
Proof. unfold updateLocal. frames. Qed.

(** [ensureCustomer] for a user who has a mapping. *)
Lemma ensureCustomer_existing options w existing :
  customer_of (EnsureCustomerOptions.userId options) w = Some existing →
  ∃ w1, same_tables w w1
        ∧ stripe_calls (trace w1) = stripe_calls (trace w)
        ∧ clock_reads w1 = clock_reads w
        ∧ ensureCustomer options w
          = match nonempty (known_email options) with
            | Some e =>
                if bool_decide (CustomerRecord.email existing = Some e)
                then (Fulfilled existing, w1)
                else (stripe (Stripe.CustomersUpdate
                                (CustomerRecord.stripe_customer_id existing) e)
                             (customers_update
                                (CustomerRecord.stripe_customer_id existing) e);;
                      updateLocal (CustomerRecord.id existing) e;;
                      mret existing) w1
            | None => (Fulfilled existing, w1)
            end.
Proof.
  unfold customer_of. intros He.
  unfold ensureCustomer, CustomersService_findByUserId, known_email, fetchUserEmail.
  repeat (rewrite bind_unfold; simpl). rewrite He.
  destruct (EnsureCustomerOptions.email options) as [e|].
  - simpl. eexists. split; [|split; [|split]].
    4:{ unfold nonempty. destruct (String.eqb e EmptyString); simpl; [reflexivity|].
        destruct (bool_decide _); reflexivity. }
    + done.
    + by apply stripe_calls_log_db.
    + reflexivity.
  - repeat (rewrite bind_unfold; simpl). eexists. split; [|split; [|split]].
    4:{ destruct (getUserById _) as [e|]; [|reflexivity].
        unfold nonempty. destruct (String.eqb e EmptyString); simpl; [reflexivity|].
        destruct (bool_decide _); reflexivity. }
    + done.
    + unfold stripe_calls, log. simpl. rewrite !omap_app. simpl. by rewrite !app_nil_r.
    + reflexivity.
Qed.

Lemma update_path_frames existing e :
  let m := (stripe (Stripe.CustomersUpdate (CustomerRecord.stripe_customer_id existing) e)
                   (customers_update (CustomerRecord.stripe_customer_id existing) e);;
            updateLocal (CustomerRecord.id existing) e;;
            mret existing) in
  frame same_mapping_keys m
  ∧ frame (calls_only (among [CustomersUpdateEndpoint])) m
  ∧ ∀ w record w', m w = (Fulfilled record, w') → record = existing.
Proof.
  cbv zeta. split; [|split].
  - pose proof (@same_mapping_keys_stripe Stripe.Customer.t).
    pose proof same_mapping_keys_updateLocal. frames.
  - pose proof calls_only_updateLocal. frames. apply calls_only_stripe. solve_among.
  - intros w record w' Hrun.
    apply bind_fulfilled in Hrun as (? & ? & _ & Hrun).
    apply bind_fulfilled in Hrun as (? & ? & _ & Hrun).
    by injection Hrun as <- _.
Qed.

Lemma ensureCustomer_with_mapping options w existing :
  customer_of (EnsureCustomerOptions.userId options) w = Some existing →
  let result := ensureCustomer options w in
  (∀ record w', result = (Fulfilled record, w') → record = existing)
  ∧ same_mapping_keys w result.2
  ∧ calls_only (among [CustomersUpdateEndpoint]) w result.2
  ∧ (nonempty (known_email options) = None
     ∨ known_email options = CustomerRecord.email existing →
     result.1 = Fulfilled existing
     ∧ same_tables w result.2
     ∧ stripe_calls (trace result.2) = stripe_calls (trace w)).
Proof.
  intros He result.
  destruct (ensureCustomer_existing options w existing He)
    as (w1 & Hsame & Hcalls & _ & Hrun).
  assert (Hquiet : same_mapping_keys w w1 ∧ calls_only (among [CustomersUpdateEndpoint]) w w1).
  { split.
    - destruct Hsame as (H1 & H2 & H3). unfold same_mapping_keys. by rewrite H1, H2, H3.
    - exists []. by rewrite Hcalls, app_nil_r. }
  destruct Hquiet as [Hq1 Hq2].
  unfold result. rewrite Hrun. clear Hrun result.
  destruct (nonempty (known_email options)) as [e|] eqn:Hemail.
  2:{ simpl. split; [by intros record w' [= <- _]|].
      split; [exact Hq1|]. split; [exact Hq2|]. intros _.
      split; [done|]. split; [exact Hsame|exact Hcalls]. }
  destruct (bool_decide (CustomerRecord.email existing = Some e)) eqn:Hsame_email.
  { simpl. split; [by intros record w' [= <- _]|].
    split; [exact Hq1|]. split; [exact Hq2|]. intros _.
    split; [done|]. split; [exact Hsame|exact Hcalls]. }
  destruct (update_path_frames existing e) as (Hkeys & Honly & Hret).
  cbv zeta in Hkeys, Honly, Hret. split; [|split; [|split]].
  - intros record w'. apply Hret.
  - etransitivity; [exact Hq1|]. apply Hkeys.
  - etransitivity; [exact Hq2|]. apply Honly.
  - intros [Hnone|Heq]; [done|]. exfalso.
    apply bool_decide_eq_false in Hsame_email. apply Hsame_email.
    apply nonempty_Some in Hemail as [Hemail _]. congruence.
Qed.

(** X16. [ensureCustomer] for a user who has a mapping never creates a
    customer and never adds or re-keys a mapping row: the only processor
    call it can make is the update of the customer's email, and the
    mapping keeps its rows with their ids, users and customer ids.  When
    it succeeds it returns the mapping as it was read at the start, also
    when it has just changed the email.  When no email is known, or the
    known email is the stored one, nothing is written and the processor
    is not called at all. *)
Theorem ensureCustomer_reuses_the_mapping options w existing :
  customer_of (EnsureCustomerOptions.userId options) w = Some existing →
  let result := ensureCustomer options w in
  (∀ record w', result = (Fulfilled record, w') → record = existing)
  ∧ same_mapping_keys w result.2
  ∧ calls_only (among [CustomersUpdateEndpoint]) w result.2
  ∧ (nonempty (known_email options) = None
     ∨ known_email options = CustomerRecord.email existing →
     result.1 = Fulfilled existing
     ∧ same_tables w result.2
     ∧ stripe_calls (trace result.2) = stripe_calls (trace w)).
Proof. apply ensureCustomer_with_mapping. Qed.


Lemma filter_user_absent userId (rows : list CustomerRecord.t) :
  userId ∉ (CustomerRecord.user_id <$> rows) →
  List.filter (λ c, String.eqb (CustomerRecord.user_id c) userId) rows = [].
Proof.
  induction rows as [|r rows IH]; [done|].
  rewrite fmap_cons, not_elem_of_cons. intros [Hne Hrows]. simpl.
  destruct (String.eqb_spec (CustomerRecord.user_id r) userId); [congruence|]. by apply IH.
Qed.

(** [ensureCustomer] for a user for whom [findByUserId] finds nothing. *)
Lemma ensureCustomer_creating options w :
  customer_of (EnsureCustomerOptions.userId options) w = None →
  let userId := EnsureCustomerOptions.userId options in
  let given := default ∅ (EnsureCustomerOptions.metadata options) in
  let params := customer_create_params options in
  ∃ w1, same_tables w w1
        ∧ stripe_calls (trace w1) = stripe_calls (trace w)
        ∧ ensureCustomer options w
          = (customer ← stripe (Stripe.CustomersCreate params) (customers_create params);
             t ← Date_now;
             defaults ← fresh_defaults;
             let data :=
               CustomerRecord.mk defaults.1 userId (Stripe.Customer.id customer)
                 (Stripe.Customer.email customer ?? known_email options)
                 (to_jsonb
                    match Stripe.Customer.metadata customer with
                    | Some m => JObj (JStr <$> m)
                    | None => JObj given
                    end)
                 defaults.2 t in
             record (DbInsert stripe_customers_table);;
             modify (λ w, set_stripe_customers (stripe_customers w ++ [data]) w);;
             mret data) w1.
Proof.
  intros Hnone userId given params. unfold customer_of in Hnone.
  unfold ensureCustomer, CustomersService_findByUserId, fetchUserEmail.
  repeat (rewrite bind_unfold; simpl). rewrite Hnone.
  unfold params, customer_create_params, known_email, userId, given.
  destruct (EnsureCustomerOptions.email options) as [e|].
  - simpl. eexists. split; [|split]; [..|reflexivity]; try done.
    by apply stripe_calls_log_db.
  - repeat (rewrite bind_unfold; simpl).
    eexists. split; [|split]; [..|reflexivity]; try done.
    unfold stripe_calls, log. simpl. rewrite !omap_app. simpl. by rewrite !app_nil_r.
Qed.



(** ** Creation *)

Lemma ensureUserCanStartNew_passes userId w :
  slot_rows userId w = [] →
  ensureUserCanStartNew userId w = (Fulfilled tt, log (DbSelect subscriptions_table) w).
Proof.
  unfold slot_rows, ensureUserCanStartNew. intros Hfree. simpl in Hfree.
  repeat (rewrite bind_unfold; simpl). by rewrite Hfree.
Qed.

Lemma filter_plan_absent id (rows : list Plan.t) :
  id ∉ (Plan.id <$> rows) →
  List.filter (λ p, String.eqb (Plan.id p) id) rows = [].
Proof.
  induction rows as [|r rows IH]; [done|].
  rewrite fmap_cons, not_elem_of_cons. intros [Hne Hrows]. simpl.
  destruct (String.eqb_spec (Plan.id r) id); [congruence|]. by apply IH.
Qed.

(** X18. What [create] refuses before it reaches the processor.  A
    target user id that is not a UUID (an empty [user_id] in the request
    included) and a request by a non-privileged caller for another user
    are rejected before anything is read.  For a caller who may create
    and a user without an active-like or paused subscription, a
    [plan_id] that names no plan is answered with the not-found error of
    the plans, even when a [stripe_price_id] is given as well, and a
    request with neither a [plan_id] nor a [stripe_price_id] with
    "A valid plan_id or stripe_price_id is required to create a
    subscription"; in both cases nothing has been written and the
    processor has not been called. *)
Theorem create_is_refused_before_the_processor requester dto isAdmin w :
  let targetUserId := default (User.id requester) (CreateSubscriptionDto.user_id dto) in
  (isValidUUID targetUserId = false →
   create requester dto isAdmin w
   = (Rejected (BadRequestException "Invalid user identifier"), w))
  ∧ (isValidUUID targetUserId = true → isAdmin = false →
     targetUserId ≠ User.id requester →
     create requester dto isAdmin w
     = (Rejected (ForbiddenException
                    "You are not allowed to create subscriptions for other users"), w))
  ∧ (isValidUUID targetUserId = true →
     isAdmin = true ∨ targetUserId = User.id requester →
     slot_rows targetUserId w = [] →
     (∀ plan_id, nonempty (CreateSubscriptionDto.plan_id dto) = Some plan_id →
        plan_id ∉ (Plan.id <$> plans w) →
        refused (create requester dto isAdmin w) w
          (NotFoundException
             ("Plan with id " +:+ dquote +:+ plan_id +:+ dquote +:+ " not found")))
     ∧ (nonempty (CreateSubscriptionDto.plan_id dto) = None →
        nonempty (CreateSubscriptionDto.stripe_price_id dto) = None →
        refused (create requester dto isAdmin w) w
          (BadRequestException
             "A valid plan_id or stripe_price_id is required to create a subscription"))).
Proof.
  intros targetUserId. split; [|split].
  - intros Hv. unfold create. fold targetUserId. by rewrite Hv.
  - intros Hv -> Hother. unfold create. fold targetUserId. rewrite Hv. simpl.
    by destruct (String.eqb_spec targetUserId (User.id requester)).
  - intros Hv Hmay Hfree.
    assert (Hguard : negb isAdmin && negb (String.eqb targetUserId (User.id requester))
                     = false).
    { destruct Hmay as [-> | ->]; [done|]. by rewrite String.eqb_refl, andb_false_r. }
    split.
    + intros plan_id Hplan Habs. unfold refused, create. fold targetUserId.
      rewrite Hv, Hguard. cbn [negb]. cbv iota.
      rewrite bind_unfold, (ensureUserCanStartNew_passes _ _ Hfree). cbv beta iota.
      unfold resolvePrice. rewrite Hplan. unfold PlansService_findOne.
      repeat (rewrite bind_unfold; simpl).
      rewrite (filter_plan_absent _ _ Habs). unfold single. simpl.
      repeat split.
      unfold stripe_calls. rewrite !omap_app. simpl. by rewrite !app_nil_r.
    + intros Hplan Hprice. unfold refused, create. fold targetUserId.
      rewrite Hv, Hguard. cbn [negb]. cbv iota.
      rewrite bind_unfold, (ensureUserCanStartNew_passes _ _ Hfree). cbv beta iota.
      unfold resolvePrice. rewrite Hplan, Hprice.
      repeat (rewrite bind_unfold; simpl).
      change (nonempty None) with (@None string). cbv iota. simpl.
      repeat split. by apply stripe_calls_log_db.
Qed.

Lemma unless_after (e0 : HttpException) (R : relation World) `{!PreOrder R} {A B}
    (m : Promise A) (f : A → Promise B) :
  frame R m → (∀ a, unless_rejected_with e0 R (f a)) →
  unless_rejected_with e0 R (m ≫= f).
Proof.
  intros Hm Hf w e w' [Hrun|(a & w1 & Hrun & Hrest)]%bind_rejected He.
  - specialize (Hm w). by rewrite Hrun in Hm.
  - transitivity w1.
    + specialize (Hm w). by rewrite Hrun in Hm.
    + by eapply Hf.
Qed.

Lemma unless_frame (e0 : HttpException) (R : relation World) {A} (m : Promise A) :
  frame R m → unless_rejected_with e0 R m.
Proof. intros Hm w e w' Hrun _. specialize (Hm w). by rewrite Hrun in Hm. Qed.

(** The end of [create] is rejected when the row cannot be read back,
    or when the reconciliation fails, which then has written nothing. *)
Lemma read_back_rejection snapshot customMetadata w e w' :
  (syncFromStripe snapshot customMetadata;;
   created ← findByStripeSubscriptionId (Stripe.Subscription.id snapshot);
   match created with
   | Some created => mret created
   | None => throw not_persisted
   end) w = (Rejected e, w') →
  e = not_persisted ∨ subscriptions w' = subscriptions w.
Proof.
  intros [Hrun|(a & w1 & _ & Hrun)]%bind_rejected.
  { right. by apply sync_rejected in Hrun as (_ & Hsame & _). }
  unfold findByStripeSubscriptionId in Hrun.
  repeat (rewrite bind_unfold in Hrun; simpl in Hrun).
  destruct (maybeSingle _); [done|]. left. by injection Hrun as <- _.
Qed.

(** X19. A rejected [create] leaves no subscription row behind.
    Whenever [create] is rejected, for whatever reason (a refusal, an
    unknown plan, an error of the processor while the customer or the
    subscription is created) other than that the reconciled row could not
    be read back, the subscriptions table is exactly as it was before the
    call. *)
Theorem rejected_create_writes_no_row requester dto isAdmin :
  unless_rejected_with not_persisted same_rows (create requester dto isAdmin).
Proof.
  unfold create.
  repeat lazymatch goal with
    | |- unless_rejected_with _ _ (if ?b then _ else _) => destruct b
    | |- unless_rejected_with _ _ (match ?x with _ => _ end) => destruct x
    | |- unless_rejected_with _ _ (let _ := _ in _) => cbv zeta
    | |- unless_rejected_with _ _ (throw _) => apply unless_frame; frames
    | |- unless_rejected_with _ _ (stripe ?r ?resp ≫= _) =>
        apply unless_after; [apply _|solve [frames]|intros ?]
    | |- unless_rejected_with _ _ (syncFromStripe _ _ ≫= _) =>
        intros w e w' Hrun He;
        by apply read_back_rejection in Hrun as [->|Hsame]
    | |- unless_rejected_with _ _ (_ ≫= _) =>
        apply unless_after; [apply _|solve [frames]|intros ?]
    end.
Qed.


(** ** The finders *)

Context `{Datastore}.

(** X20. [findByUserId] validates the identifier before it reads: an
    identifier that is not a UUID is rejected with "Invalid user
    identifier" and the world is untouched.  For a UUID it does exactly
    what [findMine] does: one read of the subscriptions table, nothing
    written, and the rows returned are the rows of that user, each one
    once, and no row of anybody else. *)
Theorem findByUserId_validates_then_lists userId w :
  (isValidUUID userId = false →
   findByUserId userId w = (Rejected (BadRequestException "Invalid user identifier"), w))
  ∧ (isValidUUID userId = true →
     findByUserId userId w = findMine userId w
     ∧ ∃ rows,
         findMine userId w = (Fulfilled rows, log (DbSelect subscriptions_table) w)
         ∧ rows ≡ₚ List.filter (λ r, String.eqb (Subscription.user_id r) userId)
                               (subscriptions w)
         ∧ ∀ r, r ∈ rows ↔ r ∈ subscriptions w ∧ Subscription.user_id r = userId).
Proof.
  split.
  - intros Hv. unfold findByUserId. by rewrite Hv.
  - intros Hv. split.
    + unfold findByUserId, findMine. by rewrite Hv.
    + unfold findMine. repeat (rewrite bind_unfold; simpl).
      eexists. split; [reflexivity|].
      split; [apply newest_first_permutation|].
      intros r. rewrite newest_first_permutation.
      rewrite list_elem_of_In, filter_In, <- list_elem_of_In.
      destruct (String.eqb_spec (Subscription.user_id r) userId) as [Hu|Hu].
      * by split; intros [Hin _].
      * split; [by intros [_ ?]|by intros [_ ?]].
Qed.

Lemma newest_first_nil rows : newest_first rows = [] ↔ rows = [].
Proof.
  pose proof (newest_first_permutation rows) as Hperm. split.
  - intros Hnil. rewrite Hnil in Hperm. by apply Permutation.Permutation_nil.
  - intros ->. apply Permutation.Permutation_nil. by symmetry.
Qed.

(** X21. For the identifier of a user, [findMyActive] reads the
    subscriptions table once and writes nothing.  What it returns, if
    anything, is a stored row of the user whose status is one of active,
    trialing, past_due, unpaid and incomplete; it returns nothing
    exactly when the user has no such row.  A paused subscription is not active for [findMyActive], yet it
    does count for the guard of [create]: when the guard lets the user
    start a subscription, [findMyActive] returns nothing, but a user
    whose only subscription is paused gets nothing from [findMyActive]
    and is still refused by the guard. *)
Theorem findMyActive_is_an_active_row_of_the_user userId w :
  isValidUUID userId = true →
  ∃ found,
    findMyActive userId w = (Fulfilled found, log (DbSelect subscriptions_table) w)
    ∧ (∀ r, found = Some r →
         r ∈ subscriptions w
         ∧ Subscription.user_id r = userId
         ∧ includes ACTIVE_STATUSES (Subscription.status r) = true)
    ∧ (found = None ↔ active_like_rows userId w = [])
    ∧ (slot_rows userId w = [] → found = None)
    ∧ (active_like_rows userId w = [] →
       (∃ r, r ∈ subscriptions w
             ∧ Subscription.user_id r = userId
             ∧ Subscription.status r = Paused) →
       found = None
       ∧ ensureUserCanStartNew userId w
         = (Rejected (BadRequestException
                        "An active subscription already exists for this user"),
            log (DbSelect subscriptions_table) w)).
Proof.
  intros _. unfold findMyActive. repeat (rewrite bind_unfold; simpl).
  fold (active_like_rows userId w).
  set (sorted := newest_first (active_like_rows userId w)).
  eexists. split; [reflexivity|].
  assert (Hnone : maybeSingle (take 1 sorted) = None ↔ active_like_rows userId w = []).
  { rewrite <- newest_first_nil. fold sorted. unfold maybeSingle.
    destruct sorted as [|x l]; simpl; [done|]. by destruct l. }
  split; [|split; [exact Hnone|split]].
  - intros r Hr.
    assert (Hin : r ∈ sorted).
    { unfold maybeSingle in Hr. destruct sorted as [|x l]; simpl in Hr; [done|].
      destruct l; injection Hr as ->; by left. }
    unfold sorted in Hin. rewrite newest_first_permutation in Hin.
    unfold active_like_rows in Hin.
    apply list_elem_of_In, filter_In in Hin as [Hin [Hu Hst]%andb_true_iff].
    split; [by apply list_elem_of_In|]. split; [|done].
    by destruct (String.eqb_spec (Subscription.user_id r) userId).
  - intros Hfree. apply Hnone. unfold active_like_rows.
    eapply filter_nil_weaken; [|exact Hfree].
    intros r [-> Hst]%andb_true_iff.
    unfold includes in *. apply bool_decide_eq_true in Hst.
    rewrite andb_true_l. apply bool_decide_eq_true. apply elem_of_app. by left.
  - intros Hnoactive (r & Hin & Hu & Hst). split; [by apply Hnone|].
    unfold ensureUserCanStartNew. repeat (rewrite bind_unfold; simpl).
    set (P := λ r : Subscription.t, _).
    assert (HP : P r = true).
    { unfold P. rewrite Hu, String.eqb_refl, Hst. reflexivity. }
    assert (Hf : In r (List.filter P (subscriptions w))).
    { apply filter_In. split; [by apply list_elem_of_In|done]. }
    destruct (List.filter P (subscriptions w)); [done|]. done.
Qed.


(** ** The customer webhook *)

Lemma to_jsonb_strings (m : gmap string string) :
  to_jsonb (JObj (JStr <$> m)) = JObj (JStr <$> m).
Proof. by rewrite to_jsonb_obj, omap_stored_strings. Qed.

(** X22. The customer webhook on a customer that has exactly one mapping
    row is always fulfilled, calls no processor endpoint and keeps the
    mapping's rows and their keys.  The row of the customer takes the
    email of the processor's customer (null when it has none, whatever
    the row held), its metadata (an empty object when it has none) and
    the current time as [updated_at]; its id, user, customer id and
    [created_at] stay, and rows with another id are untouched. *)
Theorem customer_sync_updates_in_place customer existing w :
  mappings_for (Stripe.Customer.id customer) w = [existing] →
  CustomerRecord.id existing ≠ EmptyString →
  ∃ w',
    CustomersService_syncFromStripe customer w = (Fulfilled tt, w')
    ∧ same_mapping_keys w w'
    ∧ stripe_calls (trace w') = stripe_calls (trace w)
    ∧ ∀ i c, stripe_customers w !! i = Some c →
        stripe_customers w' !! i
        = Some (if String.eqb (CustomerRecord.id c) (CustomerRecord.id existing)
                then CustomerRecord.mk (CustomerRecord.id c) (CustomerRecord.user_id c)
                       (CustomerRecord.stripe_customer_id c)
                       (Stripe.Customer.email customer)
                       (JObj (JStr <$> default ∅ (Stripe.Customer.metadata customer)))
                       (CustomerRecord.created_at c) (now (clock_reads w))
                else c).
Proof.
  intros Hmap Hid. unfold CustomersService_syncFromStripe.
  repeat (rewrite bind_unfold; simpl).
  fold (mappings_for (Stripe.Customer.id customer) w). rewrite Hmap.
  unfold maybeSingle. simpl. rewrite (nonempty_of_truthy _ Hid).
  repeat (rewrite bind_unfold; simpl).
  eexists. split; [reflexivity|]. simpl.
  rewrite to_jsonb_strings.
  split; [|split].
  - split; [|done]. simpl. unfold mapping_keys. rewrite <- list_fmap_compose.
    apply list_fmap_ext. intros i c _. simpl. by destruct (String.eqb _ _).
  - unfold stripe_calls. rewrite !omap_app. simpl. by rewrite !app_nil_r.
  - intros i c Hi. by rewrite list_lookup_fmap, Hi.
Qed.

Lemma filter_customer_absent cid (rows : list CustomerRecord.t) :
  List.filter (λ c, String.eqb (CustomerRecord.stripe_customer_id c) cid) rows = [] →
  cid ∉ (CustomerRecord.stripe_customer_id <$> rows).
Proof.
  induction rows as [|r rows IH]; [intros _; apply not_elem_of_nil|].
  rewrite fmap_cons, not_elem_of_cons. simpl.
  destruct (String.eqb_spec (CustomerRecord.stripe_customer_id r) cid); [done|].
  intros Hrows. split; [congruence|by apply IH].
Qed.

(** X23. The customer webhook on a customer that has no mapping row is
    always fulfilled, calls no processor endpoint and leaves the
    subscriptions and the plans alone.  Without a [user_id] in the
    customer's metadata, with one that the datastore does not read as a
    uuid, or with one that already has a mapping (to another customer),
    the mapping table stays as it is: the insert is refused by the
    datastore and the refusal is not raised.  Otherwise exactly one row
    is appended, for that user and this customer, and from then on the
    reconciliation of a subscription of this customer that has no local
    row yet attributes it to that user. *)
Theorem customer_sync_maps_the_hinted_user customer w :
  mappings_for (Stripe.Customer.id customer) w = [] →
  ∃ w',
    CustomersService_syncFromStripe customer w = (Fulfilled tt, w')
    ∧ subscriptions w' = subscriptions w
    ∧ plans w' = plans w
    ∧ stripe_calls (trace w') = stripe_calls (trace w)
    ∧ match nonempty (Stripe.Customer.metadata customer ≫= (λ m, m !! "user_id"))
              ≫= uuid_in with
      | None => stripe_customers w' = stripe_customers w
      | Some user_id =>
          if bool_decide (user_id ∈ (CustomerRecord.user_id <$> stripe_customers w))
          then stripe_customers w' = stripe_customers w
          else
            ∃ record,
              stripe_customers w' = stripe_customers w ++ [record]
              ∧ CustomerRecord.user_id record = user_id
              ∧ CustomerRecord.stripe_customer_id record = Stripe.Customer.id customer
              ∧ CustomerRecord.email record = Stripe.Customer.email customer
              ∧ (user_id ≠ EmptyString →
                 ∀ snapshot,
                   rows_for (Stripe.Subscription.id snapshot) w' = [] →
                   resolved_user snapshot (Stripe.Customer.id customer) w' = Some user_id)
      end.
Proof.
  intros Hmap. unfold CustomersService_syncFromStripe.
  repeat (rewrite bind_unfold; simpl).
  fold (mappings_for (Stripe.Customer.id customer) w). rewrite Hmap.
  unfold maybeSingle. simpl. change (nonempty None) with (@None string). cbv iota.
  destruct (nonempty (Stripe.Customer.metadata customer ≫= (λ m, m !! "user_id")))
    as [hint|]; simpl.
  2:{ eexists. split; [reflexivity|]. simpl. repeat split.
      by apply stripe_calls_log_db. }
  unfold insert_customer. repeat (rewrite bind_unfold; simpl).
  destruct (uuid_in hint) as [user_id|]; simpl.
  2:{ eexists. split; [reflexivity|]. simpl. repeat split.
      unfold stripe_calls. rewrite !omap_app. simpl. by rewrite !app_nil_r. }
  pose proof (filter_customer_absent _ _ Hmap) as Hfree.
  rewrite (bool_decide_eq_true_2 _ Hfree), andb_true_r.
  destruct (decide (user_id ∈ (CustomerRecord.user_id <$> stripe_customers w)))
    as [Htaken|Hnew].
  - rewrite (bool_decide_eq_true_2 _ Htaken).
    rewrite bool_decide_eq_false_2 by (by intros Hn). simpl.
    eexists. split; [reflexivity|]. simpl. repeat split.
    unfold stripe_calls. rewrite !omap_app. simpl. by rewrite !app_nil_r.
  - rewrite (bool_decide_eq_false_2 _ Hnew).
    rewrite (bool_decide_eq_true_2 _ Hnew). simpl.
    repeat (rewrite bind_unfold; simpl).
    eexists. split; [reflexivity|]. simpl.
    split; [done|]. split; [done|].
    split. { unfold stripe_calls. rewrite !omap_app. simpl. by rewrite !app_nil_r. }
    eexists. split; [reflexivity|]. simpl.
    split; [done|]. split; [done|]. split; [done|].
    intros Hne snapshot Hrows.
    set (record := CustomerRecord.mk _ _ _ _ _ _ _).
    apply (resolved_user_mapped snapshot _ record); [exact Hrows| |exact Hne].
    unfold mappings_for. simpl. rewrite List.filter_app.
    fold (mappings_for (Stripe.Customer.id customer) w). rewrite Hmap. simpl.
    by rewrite String.eqb_refl.
Qed.


(** ** The owner of a created subscription *)

Lemma filter_customer_none cid (rows : list CustomerRecord.t) :
  cid ∉ (CustomerRecord.stripe_customer_id <$> rows) →
  List.filter (λ c, String.eqb (CustomerRecord.stripe_customer_id c) cid) rows = [].
Proof.
  induction rows as [|r rows IH]; [done|].
  rewrite fmap_cons, not_elem_of_cons. intros [Hne Hrows]. simpl.
  destruct (String.eqb_spec (CustomerRecord.stripe_customer_id r) cid); [congruence|].
  by apply IH.
Qed.

(** In a mapping keyed by customer id, the row of a customer is found
    again after a write that keeps the keys. *)
Lemma keyed_lookup (rows rows' : list CustomerRecord.t) existing :
  mapping_keys rows' = mapping_keys rows →
  NoDup (CustomerRecord.stripe_customer_id <$> rows) →
  In existing rows →
  ∃ c', List.filter (λ c, String.eqb (CustomerRecord.stripe_customer_id c)
                                     (CustomerRecord.stripe_customer_id existing)) rows'
        = [c']
        ∧ CustomerRecord.user_id c' = CustomerRecord.user_id existing.
Proof.
  revert rows'. induction rows as [|r rows IH]; intros rows' Hkeys Hnd Hin; [done|].
  destruct rows' as [|r' rows']; [done|].
  unfold mapping_keys in Hkeys. rewrite !fmap_cons in Hkeys.
  injection Hkeys as Hid Huser Hsid Hkeys.
  rewrite fmap_cons, NoDup_cons in Hnd. destruct Hnd as [Hnotin Hnd].
  destruct Hin as [->|Hin].
  - exists r'. simpl. rewrite Hsid, String.eqb_refl. split; [|done]. f_equal.
    apply filter_customer_none.
    assert (Hsids : CustomerRecord.stripe_customer_id <$> rows'
                    = CustomerRecord.stripe_customer_id <$> rows).
    { clear -Hkeys. revert rows' Hkeys.
      induction rows as [|x rows IH]; intros [|x' rows'] Hkeys; try done.
      rewrite !fmap_cons in *. injection Hkeys as _ _ Hs Hkeys.
      rewrite Hs. f_equal. by apply IH. }
    by rewrite Hsids.
  - destruct (IH rows' Hkeys Hnd Hin) as (c' & Hf & Hu).
    exists c'. split; [|done]. simpl.
    destruct (String.eqb_spec (CustomerRecord.stripe_customer_id r')
                (CustomerRecord.stripe_customer_id existing)) as [Heq|]; [|done].
    destruct Hnotin. rewrite <- Hsid, Heq. apply list_elem_of_fmap.
    exists existing. split; [done|]. by apply list_elem_of_In.
Qed.

Lemma customer_of_Some userId w existing :
  customer_of userId w = Some existing →
  In existing (stripe_customers w) ∧ CustomerRecord.user_id existing = userId.
Proof.
  unfold customer_of, maybeSingle. intros He.
  destruct (List.filter _ (stripe_customers w)) as [|r [|]] eqn:Hrows; try done.
  injection He as ->.
  assert (Hin : In existing (List.filter
                               (λ c, String.eqb (CustomerRecord.user_id c) userId)
                               (stripe_customers w))) by (rewrite Hrows; by left).
  apply filter_In in Hin as [Hin Hu]. split; [done|].
  by destruct (String.eqb_spec (CustomerRecord.user_id existing) userId).
Qed.

(** After a fulfilled [ensureCustomer] the customer of the record it
    returns is mapped to the user, and to nobody else. *)
Lemma ensureCustomer_maps options w c w3 :
  ensureCustomer options w = (Fulfilled c, w3) →
  NoDup (CustomerRecord.stripe_customer_id <$> stripe_customers w) →
  (∀ p customer, customers_create p = inr customer →
     Stripe.Customer.id customer ∉ (CustomerRecord.stripe_customer_id <$> stripe_customers w)) →
  ∃ c', mappings_for (CustomerRecord.stripe_customer_id c) w3 = [c']
        ∧ CustomerRecord.user_id c' = EnsureCustomerOptions.userId options.
Proof.
  intros Hrun Hnd Hfresh.
  destruct (customer_of (EnsureCustomerOptions.userId options) w) as [existing|] eqn:Hc.
  - destruct (ensureCustomer_with_mapping options w existing Hc) as (Hret & Hkeys & _).
    rewrite Hrun in Hret, Hkeys. simpl in Hkeys.
    rewrite (Hret c w3 eq_refl).
    apply customer_of_Some in Hc as [Hin Hu].
    destruct Hkeys as (Hkeys & _).
    destruct (keyed_lookup _ _ existing Hkeys Hnd Hin) as (c' & Hf & Hu').
    exists c'. split; [exact Hf|congruence].
  - destruct (ensureCustomer_creating options w Hc) as (w1 & Hsame & _ & Hrun').
    cbv zeta in Hrun'. rewrite Hrun' in Hrun. clear Hrun'.
    unfold stripe in Hrun.
    destruct (customers_create (customer_create_params options)) as [message|customer]
      eqn:Hcreate.
    { repeat (rewrite bind_unfold in Hrun; simpl in Hrun). discriminate Hrun. }
    repeat (rewrite bind_unfold in Hrun; simpl in Hrun).
    injection Hrun as <- <-.
    destruct Hsame as (_ & Hcust & _).
    eexists. unfold mappings_for. simpl. rewrite Hcust, List.filter_app.
    rewrite filter_customer_none by (by eapply Hfresh). simpl.
    rewrite String.eqb_refl. by split.
Qed.

Lemma stripe_fulfilled {A} r (response : string + A) w a w' :
  stripe r response w = (Fulfilled a, w') →
  response = inr a ∧ w' = log (StripeCall r) w.
Proof.
  unfold stripe. rewrite bind_unfold. simpl.
  destruct response; [done|]. by intros [= -> <-].
Qed.

Lemma same_tables_ensureUserCanStartNew userId :
  frame same_tables (ensureUserCanStartNew userId).
Proof. unfold ensureUserCanStartNew. frames. Qed.

Lemma same_tables_run {A} (m : Promise A) w a w' :
  frame same_tables m → m w = (a, w') → same_tables w w'.
Proof. intros Hm Hrun. specialize (Hm w). by rewrite Hrun in Hm. Qed.

Lemma isValidUUID_nonempty s : isValidUUID s = true → s ≠ EmptyString.
Proof. by intros Hv ->. Qed.

Lemma findByStripeSubscriptionId_fulfilled stripeId w found w' :
  findByStripeSubscriptionId stripeId w = (Fulfilled found, w') →
  found = maybeSingle (rows_for stripeId w) ∧ w' = log (DbSelect subscriptions_table) w.
Proof.
  unfold findByStripeSubscriptionId. repeat (rewrite bind_unfold; simpl).
  by intros [= <- <-].
Qed.

Lemma rows_for_subscriptions stripeId w rows :
  subscriptions w = rows →
  rows_for stripeId w
  = List.filter (λ r, bool_decide (Subscription.stripe_subscription_id r = Some stripeId))
                rows.
Proof. by intros <-. Qed.

(** X24. A created subscription belongs to the target user.  Suppose the
    customer mapping holds each customer id once, and the processor
    gives a new customer an id that is not mapped yet, echoes in a new
    subscription the customer it was asked for, and gives it an id that
    no local row carries.  Then whenever [create] succeeds, the caller
    was privileged or created for themself, exactly one row has been
    appended to the subscriptions table, it is the row returned, and its
    owner is the target user: the [user_id] of the request or else the
    requester, whatever [user_id] the metadata of the request names.
    The row carries the external id and the mapped status of the
    subscription that the processor returned. *)
Theorem create_attributes_to_the_target_user requester dto isAdmin w created w' :
  create requester dto isAdmin w = (Fulfilled created, w') →
  NoDup (CustomerRecord.stripe_customer_id <$> stripe_customers w) →
  (∀ p customer, customers_create p = inr customer →
     Stripe.Customer.id customer ∉ (CustomerRecord.stripe_customer_id <$> stripe_customers w)) →
  (∀ p snapshot, subscriptions_create p = inr snapshot →
     customer_id (Stripe.Subscription.customer snapshot)
     = Some (Stripe.SubscriptionCreateParams.customer p)
     ∧ rows_for (Stripe.Subscription.id snapshot) w = []) →
  let targetUserId := default (User.id requester) (CreateSubscriptionDto.user_id dto) in
  Subscription.user_id created = targetUserId
  ∧ isValidUUID targetUserId = true
  ∧ (isAdmin = true ∨ targetUserId = User.id requester)
  ∧ subscriptions w' = subscriptions w ++ [created]
  ∧ ∃ p snapshot,
      subscriptions_create p = inr snapshot
      ∧ Subscription.stripe_subscription_id created = Some (Stripe.Subscription.id snapshot)
      ∧ Subscription.stripe_customer_id created
        = Some (Stripe.SubscriptionCreateParams.customer p)
      ∧ Subscription.status created = mapStripeStatus snapshot.
Proof.
  intros Hrun Hnd Hfresh Hecho targetUserId.
  unfold create in Hrun. fold targetUserId in Hrun.
  destruct (isValidUUID targetUserId) eqn:Hvalid; [|done]. cbn [negb] in Hrun.
  cbv iota in Hrun.
  destruct (negb isAdmin && negb (String.eqb targetUserId (User.id requester)))
    eqn:Hforbid; [done|].
  assert (Hmay : isAdmin = true ∨ targetUserId = User.id requester).
  { destruct isAdmin; [by left|]. right.
    by destruct (String.eqb_spec targetUserId (User.id requester)). }
  apply bind_fulfilled in Hrun as ([] & w1 & Hcheck & Hrun).
  pose proof (same_tables_run _ _ _ _ (same_tables_ensureUserCanStartNew _) Hcheck) as Ht1.
  apply bind_fulfilled in Hrun as (priceResolution & w2 & Hprice & Hrun).
  pose proof (same_tables_run _ _ _ _ (same_tables_resolvePrice _ _ _) Hprice) as Ht2.
  destruct (nonempty (PriceResolution.priceId priceResolution)) as [priceId|]; [|done].
  cbv zeta in Hrun.
  apply bind_fulfilled in Hrun as (c & w3 & Hcustomer & Hrun).
  pose proof (same_rows_run _ _ _ _ (same_rows_ensureCustomer _) Hcustomer) as Hs3.
  apply bind_fulfilled in Hrun as (snapshot & w4 & Hstripe & Hrun).
  apply stripe_fulfilled in Hstripe as [Hcreate ->].
  apply bind_fulfilled in Hrun as ([] & w5 & Hsync & Hrun).
  apply bind_fulfilled in Hrun as (found & w6 & Hfind & Hrun).
  set (params := Stripe.SubscriptionCreateParams.mk _ _ _ _) in Hcreate, Hsync.
  set (w4 := log (StripeCall (Stripe.SubscriptionsCreate params)) w3) in Hsync.
  (* the tables before the reconciliation *)
  assert (Hrows2 : subscriptions w2 = subscriptions w).
  { destruct Ht1 as (H1 & _), Ht2 as (H2 & _). congruence. }
  assert (Hcust2 : stripe_customers w2 = stripe_customers w).
  { destruct Ht1 as (_ & H1 & _), Ht2 as (_ & H2 & _). congruence. }
  assert (Hrows4 : subscriptions w4 = subscriptions w) by (simpl; congruence).
  (* the mapping after [ensureCustomer] *)
  destruct (ensureCustomer_maps _ _ _ _ Hcustomer) as (c' & Hmap & Huser).
  { by rewrite Hcust2. }
  { intros p customer Hp. rewrite Hcust2. by eapply Hfresh. }
  simpl in Huser.
  (* what the processor returned *)
  destruct (Hecho _ _ Hcreate) as [Hcid Hnew]. simpl in Hcid.
  assert (Hnew4 : rows_for (Stripe.Subscription.id snapshot) w4 = []).
  { unfold rows_for in *. by rewrite Hrows4. }
  (* the reconciliation *)
  destruct (syncFromStripe_run snapshot (default ∅ (CreateSubscriptionDto.metadata dto)) w4)
    as (w5' & evs & Hsync' & Hsubs & _).
  assert (w5' = w5) as -> by congruence.
  apply findByStripeSubscriptionId_fulfilled in Hfind as [-> ->].
  assert (He : existing_row (Stripe.Subscription.id snapshot) w4 = None).
  { unfold existing_row. by rewrite Hnew4. }
  pose proof (sync_fulfilled_no_error _ _ _ _ Hsync) as Herr.
  unfold reconciled in Hsubs. rewrite Herr in Hsubs.
  unfold reconciled_payload in Hsubs. rewrite Hcid in Hsubs.
  destruct (nonempty (Some (CustomerRecord.stripe_customer_id c))) as [cid|] eqn:Hne;
    cbv beta iota in Hsubs.
  2:{ rewrite (rows_for_subscriptions _ _ _ Hsubs) in Hrun.
      fold (rows_for (Stripe.Subscription.id snapshot) w4) in Hrun.
      rewrite Hnew4 in Hrun. discriminate Hrun. }
  apply nonempty_Some in Hne as [[= <-] _].
  assert (Hres : resolved_user snapshot (CustomerRecord.stripe_customer_id c) w4
                 = Some targetUserId).
  { rewrite <- Huser. apply resolved_user_mapped; [exact Hnew4|exact Hmap|].
    rewrite Huser. by apply isValidUUID_nonempty. }
  rewrite Hres, He in Hsubs.
  change (nonempty (Subscription.id <$> None)) with (@None string) in Hsubs.
  cbv iota in Hsubs.
  set (payload := sync_payload None _ _ _ _ _ _ _ _) in Hsubs.
  set (row := Payload.row _ _ payload) in Hsubs.
  destruct (sync_payload_columns None (priced_plan snapshot w4)
              (latest_invoice_url snapshot w4)
              targetUserId (CustomerRecord.stripe_customer_id c) snapshot
              (default ∅ (CreateSubscriptionDto.metadata dto))
              (converted_timestamps snapshot) (now (clock_reads w4)))
    as (Hpu & Hps & Hpc & Hpst & _).
  fold payload in Hpu, Hps, Hpc, Hpst.
  rewrite (rows_for_subscriptions _ _ _ Hsubs), List.filter_app in Hrun.
  fold (rows_for (Stripe.Subscription.id snapshot) w4) in Hrun.
  rewrite Hnew4 in Hrun.
  assert (Hrow : List.filter
                   (λ r, bool_decide (Subscription.stripe_subscription_id r
                                      = Some (Stripe.Subscription.id snapshot))) [row]
                 = [row]).
  { simpl. rewrite Hps. by rewrite bool_decide_eq_true_2. }
  rewrite Hrow in Hrun. unfold maybeSingle in Hrun. simpl in Hrun.
  injection Hrun as <- <-.
  split; [exact Hpu|]. split; [done|]. split; [done|].
  split. { simpl. by rewrite Hsubs, Hrows4. }
  exists params, snapshot. split; [exact Hcreate|]. simpl.
  by rewrite Hps, Hpc, Hpst.
Qed.


(** ** What is sent to the processor *)

Lemma bind_assoc {A B C} (m : Promise A) (f : A → Promise B) (g : B → Promise C) w :
  ((m ≫= f) ≫= g) w = (m ≫= λ a, f a ≫= g) w.
Proof.
  rewrite !bind_unfold. destruct (m w) as [[a|e] w1]; [|done]. by rewrite bind_unfold.
Qed.

(** A computation that starts with a call of the processor: that call is
    the first one in the trace, whatever the processor answers. *)
Lemma call_first {A B} r (response : string + A) (k : A → Promise B)
    (P : Stripe.Request → Prop) w :
  (∀ a, frame (calls_only P) (k a)) →
  ∃ rest, stripe_calls (trace ((stripe r response ≫= k) w).2)
          = stripe_calls (trace w) ++ r :: rest
          ∧ Forall P rest.
Proof.
  intros Hk. unfold stripe. rewrite !bind_unfold. simpl.
  assert (Hlog : stripe_calls (trace (log (StripeCall r) w)) = stripe_calls (trace w) ++ [r]).
  { unfold stripe_calls, log. simpl. by rewrite omap_app. }
  destruct response as [message|a].
  - exists []. split; [exact Hlog|constructor].
  - destruct (Hk a (log (StripeCall r) w)) as (calls & Hcalls & HP).
    exists calls. split; [|exact HP].
    etransitivity; [exact Hcalls|]. by rewrite Hlog, <- app_assoc.
Qed.

(** X26. What the lifecycle operations send for an externally backed
    subscription.  Once the caller has passed the access check and the
    status guard, the first call to the processor is the change of the
    subscription whose external id the row carries, and every call
    after it is an invoice lookup.  [pause] sends an update that sets
    the collection pause "mark_uncollectible" and changes no item;
    [resume] sends an update that clears the collection pause and
    changes neither items nor metadata; [cancel] sends the
    cancellation.  This holds whatever the processor answers. *)
Theorem external_transition_requests w id requesterId isAdmin subscription stripeId :
  lookup_subscription w id = Some subscription →
  may_access subscription requesterId isAdmin = true →
  nonempty (Subscription.stripe_subscription_id subscription) = Some stripeId →
  let sent (w' : World) (first : Stripe.Request) :=
    ∃ rest, stripe_calls (trace w') = stripe_calls (trace w) ++ first :: rest
            ∧ Forall (among [InvoicesRetrieveEndpoint]) rest in
  (∀ dto, includes ACTIVE_STATUSES (Subscription.status subscription) = true →
     ∃ params,
       sent (pause id requesterId dto isAdmin w).2 (Stripe.SubscriptionsUpdate stripeId params)
       ∧ Stripe.SubscriptionUpdateParams.pause_collection params
         = Given (Stripe.PauseCollection.mk "mark_uncollectible")
       ∧ Stripe.SubscriptionUpdateParams.items params = None)
  ∧ (∀ dto, Subscription.status subscription = Paused →
       sent (resume id requesterId dto isAdmin w).2
         (Stripe.SubscriptionsUpdate stripeId
            (Stripe.SubscriptionUpdateParams.mk None None Null)))
  ∧ (∀ dto, Subscription.status subscription ≠ Canceled →
       sent (cancel id requesterId dto isAdmin w).2 (Stripe.SubscriptionsCancel stripeId)).
Proof.
  intros Hl Ha Hsid sent.
  assert (Hselect : stripe_calls (trace (log (DbSelect subscriptions_table) w))
                    = stripe_calls (trace w)) by (by apply stripe_calls_log_db).
  split; [|split].
  - intros dto Hst.
    exists (Stripe.SubscriptionUpdateParams.mk None
              (if truthy (PauseSubscriptionDto.reason dto)
               then Some {[ "pause_reason" := of_string_opt (PauseSubscriptionDto.reason dto) ]}
               else None)
              (Given (Stripe.PauseCollection.mk "mark_uncollectible"))).
    split; [|split; reflexivity].
    unfold sent, pause. enter Hl Ha. rewrite Hst. cbn [negb]. cbv iota. rewrite Hsid.
    rewrite bind_assoc, <- Hselect. apply call_first.
    intros a. frames. apply calls_only_sync. solve_among.
  - intros dto Hst.
    unfold sent, resume. enter Hl Ha. rewrite (bool_decide_eq_true_2 _ Hst).
    cbn [negb]. cbv iota. rewrite Hsid.
    rewrite bind_assoc, <- Hselect. apply call_first.
    intros a. frames. apply calls_only_sync. solve_among.
  - intros dto Hst.
    unfold sent, cancel. enter Hl Ha. rewrite (bool_decide_eq_false_2 _ Hst).
    cbv iota. rewrite Hsid.
    rewrite bind_assoc, <- Hselect. apply call_first.
    intros a. frames. apply calls_only_sync. solve_among.
Qed.


Lemma resolvePrice_by_plan plan_id stripe_price_id name pid plan w :
  nonempty plan_id = Some pid →
  List.filter (λ p, String.eqb (Plan.id p) pid) (plans w) = [plan] →
  resolvePrice plan_id stripe_price_id name w
  = (Fulfilled (PriceResolution.mk (Some (Plan.stripe_price_id plan)) (Some (Plan.id plan))
                  (Some (Plan.name plan))),
     log (DbSelect plans_table) w).
Proof.
  intros Hpid Hplan. unfold resolvePrice. rewrite Hpid. unfold PlansService_findOne.
  repeat (rewrite bind_unfold; simpl). rewrite Hplan. unfold single. reflexivity.
Qed.

(** X27. What [create] sends.  For a caller who may create, a user who
    holds no active-like or paused subscription and has a customer
    mapping whose email needs no change, and a request whose [plan_id]
    names a plan with a price: the first call to the processor is the
    creation of a subscription for the mapped customer at the price of
    that plan, whatever [stripe_price_id] the request names beside, with
    the trial period of the request; every call after it is an invoice
    lookup.  The metadata sent holds every key of the request's
    metadata, and the target user under [user_id] unless the request's
    metadata has a [user_id] of its own. *)
Theorem create_sends_the_plan_price requester dto isAdmin w pid plan existing :
  let targetUserId := default (User.id requester) (CreateSubscriptionDto.user_id dto) in
  let options := customer_options_of requester dto in
  let given := default ∅ (CreateSubscriptionDto.metadata dto) in
  isValidUUID targetUserId = true →
  isAdmin = true ∨ targetUserId = User.id requester →
  slot_rows targetUserId w = [] →
  nonempty (CreateSubscriptionDto.plan_id dto) = Some pid →
  List.filter (λ p, String.eqb (Plan.id p) pid) (plans w) = [plan] →
  Plan.stripe_price_id plan ≠ EmptyString →
  customer_of targetUserId w = Some existing →
  nonempty (known_email options) = None
  ∨ known_email options = CustomerRecord.email existing →
  ∃ params rest,
    stripe_calls (trace (create requester dto isAdmin w).2)
    = stripe_calls (trace w) ++ Stripe.SubscriptionsCreate params :: rest
    ∧ Forall (among [InvoicesRetrieveEndpoint]) rest
    ∧ Stripe.SubscriptionCreateParams.customer params
      = CustomerRecord.stripe_customer_id existing
    ∧ Stripe.SubscriptionCreateParams.price params = Plan.stripe_price_id plan
    ∧ Stripe.SubscriptionCreateParams.trial_period_days params
      = CreateSubscriptionDto.trial_period_days dto
    ∧ (∀ k v, given !! k = Some v →
         Stripe.SubscriptionCreateParams.metadata params !! k = Some v)
    ∧ (given !! "user_id" = None →
       Stripe.SubscriptionCreateParams.metadata params !! "user_id"
       = Some (JStr targetUserId)).
Proof.
  intros targetUserId options given Hv Hmay Hfree Hpid Hplan Hprice Hcustomer Hemail.
  assert (Hguard : negb isAdmin && negb (String.eqb targetUserId (User.id requester))
                   = false).
  { destruct Hmay as [-> | ->]; [done|]. by rewrite String.eqb_refl, andb_false_r. }
  set (priceResolution := PriceResolution.mk (Some (Plan.stripe_price_id plan))
                            (Some (Plan.id plan)) (Some (Plan.name plan))).
  set (params := subscription_create_params requester dto
                   (CustomerRecord.stripe_customer_id existing)
                   (Plan.stripe_price_id plan) priceResolution).
  exists params.
  assert (Hmeta : (∀ k v, given !! k = Some v →
                     Stripe.SubscriptionCreateParams.metadata params !! k = Some v)
                  ∧ (given !! "user_id" = None →
                     Stripe.SubscriptionCreateParams.metadata params !! "user_id"
                     = Some (JStr targetUserId))).
  { unfold params, subscription_create_params, assign. simpl. fold given targetUserId. split.
    - intros k v Hk. by rewrite lookup_union, Hk, union_Some_l.
    - intros Hk. rewrite lookup_union, Hk, (left_id_L None _).
      rewrite lookup_insert_ne by done. rewrite lookup_insert_ne by done.
      by rewrite lookup_singleton_eq. }
  (* the run up to the call *)
  set (w1 := log (DbSelect subscriptions_table) w).
  set (w2 := log (DbSelect plans_table) w1).
  assert (Hc2 : customer_of (EnsureCustomerOptions.userId options) w2 = Some existing)
    by exact Hcustomer.
  destruct (ensureCustomer_with_mapping options w2 existing Hc2) as (_ & _ & _ & Hquiet).
  destruct (Hquiet Hemail) as (Hret & _ & Hcalls).
  destruct (ensureCustomer options w2) as [outcome w3] eqn:Hensure.
  simpl in Hret, Hcalls. subst outcome.
  assert (Hcalls3 : stripe_calls (trace w3) = stripe_calls (trace w)).
  { rewrite Hcalls. unfold w2, w1, stripe_calls, log. simpl.
    rewrite !omap_app. simpl. by rewrite !app_nil_r. }
  assert (Hrun : create requester dto isAdmin w
            = (subscription ← stripe (Stripe.SubscriptionsCreate params)
                                     (subscriptions_create params);
               syncFromStripe subscription given;;
               created ← findByStripeSubscriptionId (Stripe.Subscription.id subscription);
               match created with
               | Some created => mret created
               | None => throw not_persisted
               end) w3).
  { unfold create. fold targetUserId. rewrite Hv, Hguard. cbn [negb]. cbv iota.
    rewrite bind_unfold, (ensureUserCanStartNew_passes _ _ Hfree). cbv beta iota.
    fold w1.
    rewrite bind_unfold, (resolvePrice_by_plan _ _ _ pid plan w1 Hpid Hplan).
    cbv beta iota. fold w2 priceResolution.
    change (nonempty (PriceResolution.priceId priceResolution))
      with (nonempty (Some (Plan.stripe_price_id plan))).
    rewrite (nonempty_of_truthy _ Hprice). cbv beta iota zeta.
    rewrite bind_unfold.
    change (EnsureCustomerOptions.mk _ _ _ _) with options.
    rewrite Hensure. cbv beta iota. reflexivity. }
  rewrite Hrun, <- Hcalls3.
  destruct (call_first (Stripe.SubscriptionsCreate params) (subscriptions_create params)
              (λ subscription,
                 syncFromStripe subscription given;;
                 created ← findByStripeSubscriptionId (Stripe.Subscription.id subscription);
                 match created with
                 | Some created => mret created
                 | None => throw not_persisted
                 end)
              (among [InvoicesRetrieveEndpoint]) w3) as (rest & Hrest & HP).
  { intros a. frames. apply calls_only_sync. solve_among. }
  exists rest. split; [exact Hrest|]. split; [exact HP|].
  split; [reflexivity|]. split; [reflexivity|]. split; [reflexivity|]. exact Hmeta.
Qed.


Lemma stripe_inr {A B} r (a : A) (k : A → Promise B) w :
  (stripe r (inr a) ≫= k) w = k a (log (StripeCall r) w).
Proof. unfold stripe. by rewrite !bind_unfold. Qed.

Lemma nonempty_idem o : nonempty (nonempty o) = nonempty o.
Proof.
  unfold nonempty. destruct o as [s|]; [|done].
  destruct (String.eqb s EmptyString) eqn:Hs; [done|]. by rewrite Hs.
Qed.

Lemma resolvePrice_without_plan plan_id price name w :
  nonempty plan_id = None →
  ∃ priceResolution w',
    resolvePrice plan_id price name w = (Fulfilled priceResolution, w')
    ∧ PriceResolution.priceId priceResolution = nonempty price
    ∧ stripe_calls (trace w') = stripe_calls (trace w).
Proof.
  intros Hplan. unfold resolvePrice. rewrite Hplan.
  destruct (nonempty price) as [p|].
  - unfold PlansService_findByStripePrice. repeat (rewrite bind_unfold; simpl).
    eexists _, _. split; [reflexivity|]. split; [reflexivity|].
    by apply stripe_calls_log_db.
  - eexists _, _. split; [reflexivity|]. by split.
Qed.

(** X28. What [update] sends for an externally backed subscription.
    Once the caller has passed the access check, the subscription is
    retrieved from the processor.  When the request names no plan, the
    processor is then asked to change the subscription only if there is
    something to change: an item, when the request names a price other
    than the one of the first item, and the metadata, when the request
    carries a non-empty one (merged over the processor's).  Otherwise no
    update is sent at all.  Every later call is an invoice lookup. *)
Theorem update_sends_only_what_changes w id requesterId isAdmin dto subscription
    stripeId current :
  lookup_subscription w id = Some subscription →
  may_access subscription requesterId isAdmin = true →
  nonempty (Subscription.stripe_subscription_id subscription) = Some stripeId →
  subscriptions_retrieve stripeId = inr current →
  nonempty (UpdateSubscriptionDto.plan_id dto) = None →
  let items :=
    match nonempty (UpdateSubscriptionDto.stripe_price_id dto),
          head (Stripe.Subscription.items current) with
    | Some priceId, Some firstItem =>
        if bool_decide (Some priceId ≠ (Stripe.Price.id <$> Stripe.Item.price firstItem))
        then Some (Stripe.Item.id firstItem, priceId)
        else None
    | _, _ => None
    end in
  let metadata :=
    match UpdateSubscriptionDto.metadata dto with
    | Some custom =>
        if (0 <? size custom)%nat
        then Some (assign (JStr <$> default ∅ (Stripe.Subscription.metadata current)) custom)
        else None
    | None => None
    end in
  ∃ rest,
    stripe_calls (trace (update id requesterId dto isAdmin w).2)
    = stripe_calls (trace w)
      ++ Stripe.SubscriptionsRetrieve stripeId
         :: (if bool_decide (is_Some items ∨ is_Some metadata)
             then [Stripe.SubscriptionsUpdate stripeId
                     (Stripe.SubscriptionUpdateParams.mk items metadata Absent)]
             else [])
         ++ rest
    ∧ Forall (among [InvoicesRetrieveEndpoint]) rest.
Proof.
  intros Hl Ha Hsid Hretrieve Hplan items metadata.
  unfold update. enter Hl Ha. rewrite Hsid, Hretrieve.
  rewrite !bind_assoc, stripe_inr.
  set (w2 := log (StripeCall (Stripe.SubscriptionsRetrieve stripeId))
               (log (DbSelect subscriptions_table) w)).
  assert (Hcalls2 : stripe_calls (trace w2)
                    = stripe_calls (trace w) ++ [Stripe.SubscriptionsRetrieve stripeId]).
  { unfold w2, stripe_calls, log. simpl. rewrite !omap_app. simpl. by rewrite app_nil_r. }
  destruct (resolvePrice_without_plan _ (UpdateSubscriptionDto.stripe_price_id dto)
              (UpdateSubscriptionDto.plan dto) w2 Hplan)
    as (priceResolution & w3 & Hprice & Hid & Hcalls3).
  rewrite !bind_assoc, bind_unfold, Hprice. cbv beta iota zeta.
  rewrite Hid, nonempty_idem. fold items metadata.
  destruct (bool_decide (is_Some items ∨ is_Some metadata)).
  - rewrite !bind_assoc.
    match goal with
    | |- context [ (stripe ?r ?response ≫= ?k) w3 ] =>
        destruct (call_first r response k (among [InvoicesRetrieveEndpoint]) w3)
          as (rest & Hrest & HP)
    end.
    { intros a. frames. apply calls_only_sync. solve_among. }
    exists rest. split; [|exact HP].
    etransitivity; [exact Hrest|]. rewrite Hcalls3, Hcalls2, <- app_assoc. reflexivity.
  - rewrite !bind_assoc.
    match goal with
    | |- context [ trace (?m w3).2 ] =>
        assert (Hm : frame (calls_only (among [InvoicesRetrieveEndpoint])) m)
    end.
    { frames. apply calls_only_sync. solve_among. }
    destruct (Hm w3) as (rest & Hrest & HP).
    exists rest. split; [|exact HP].
    etransitivity; [exact Hrest|]. rewrite Hcalls3, Hcalls2, <- app_assoc. reflexivity.
Qed.


(** ** The email of a customer *)

Lemma filter_map_customers (P : CustomerRecord.t → bool)
    (f : CustomerRecord.t → CustomerRecord.t) rows :
  (∀ c, P (f c) = P c) →
  List.filter P (map f rows) = map f (List.filter P rows).
Proof.
  intros HP. induction rows as [|r rows IH]; [done|]. simpl.
  rewrite HP. destruct (P r); simpl; by rewrite IH.
Qed.

(** X29. [ensureCustomer] for a user whose mapping holds another email
    than the one that is known.  The processor is asked to update the
    email of the mapped customer.  If it refuses, the error is raised and
    the tables are as before.  If it accepts, the mapping row takes the
    new email and the current time as [updated_at], and nothing else in
    the tables changes; the record returned, however, is the one read
    before the update: it still shows the old email. *)
Theorem ensureCustomer_updates_the_email options w existing e :
  customer_of (EnsureCustomerOptions.userId options) w = Some existing →
  List.filter (λ c, String.eqb (CustomerRecord.id c) (CustomerRecord.id existing))
              (stripe_customers w) = [existing] →
  nonempty (known_email options) = Some e →
  CustomerRecord.email existing ≠ Some e →
  match customers_update (CustomerRecord.stripe_customer_id existing) e with
  | inl message =>
      ∃ w', ensureCustomer options w = (Rejected (StripeError message), w')
            ∧ same_tables w w'
  | inr _ =>
      ∃ w', ensureCustomer options w = (Fulfilled existing, w')
            ∧ customer_of (EnsureCustomerOptions.userId options) w'
              = Some (with_email e (now (clock_reads w)) existing)
            ∧ stripe_customers w'
              = map (λ c, if String.eqb (CustomerRecord.id c) (CustomerRecord.id existing)
                          then with_email e (now (clock_reads w)) c else c)
                    (stripe_customers w)
            ∧ subscriptions w' = subscriptions w
            ∧ stripe_calls (trace w')
              = stripe_calls (trace w)
                ++ [Stripe.CustomersUpdate (CustomerRecord.stripe_customer_id existing) e]
  end.
Proof.
  intros Hc Hid Hemail Hother.
  destruct (ensureCustomer_existing options w existing Hc)
    as (w1 & Hsame & Hcalls & Hclock & Hrun).
  rewrite Hemail in Hrun. rewrite (bool_decide_eq_false_2 _ Hother) in Hrun.
  rewrite Hrun. clear Hrun. unfold stripe.
  destruct Hsame as (Hsubs & Hcust & Hplans).
  destruct (customers_update (CustomerRecord.stripe_customer_id existing) e)
    as [message|updated].
  { repeat (rewrite bind_unfold; simpl). eexists. split; [reflexivity|]. by split. }
  unfold updateLocal. repeat (rewrite bind_unfold; simpl).
  fold (with_email e (now (clock_reads w1))).
  set (f := λ c : CustomerRecord.t, if String.eqb _ _ then _ else c).
  assert (Hf : ∀ c, CustomerRecord.id (f c) = CustomerRecord.id c
                    ∧ CustomerRecord.user_id (f c) = CustomerRecord.user_id c).
  { intros c. unfold f. by destruct (String.eqb _ _). }
  assert (Hfe : f existing = with_email e (now (clock_reads w)) existing).
  { unfold f. by rewrite String.eqb_refl, Hclock. }
  rewrite filter_map_customers by (intros c; by rewrite (proj1 (Hf c))).
  rewrite Hcust, Hid. unfold single. simpl.
  eexists. split; [reflexivity|]. simpl.
  split.
  { unfold customer_of. simpl.
    rewrite filter_map_customers by (intros c; by rewrite (proj2 (Hf c))).
    unfold customer_of in Hc. unfold maybeSingle in *.
    destruct (List.filter _ (stripe_customers w)) as [|c0 [|]]; try done.
    injection Hc as ->. simpl. by rewrite Hfe. }
  split. { unfold f. by rewrite Hclock. }
  split; [exact Hsubs|].
  unfold stripe_calls. rewrite !omap_app. simpl. rewrite !app_nil_r.
  fold (stripe_calls (trace w1)). by rewrite Hcalls.
Qed.


(** ** The customer webhook, again *)

Lemma customer_sync_run customer w :
  ∃ w', CustomersService_syncFromStripe customer w = (Fulfilled tt, w')
        ∧ stripe_customers w'
          = synced_customers customer (now (clock_reads w)) (now (S (clock_reads w)))
              (gen_random_uuid (generated w)) (db_now (generated w)) (stripe_customers w)
        ∧ subscriptions w' = subscriptions w
        ∧ plans w' = plans w
        ∧ stripe_calls (trace w') = stripe_calls (trace w).
Proof.
  unfold CustomersService_syncFromStripe, synced_customers.
  repeat (rewrite bind_unfold; simpl).
  destruct (nonempty (CustomerRecord.id <$> maybeSingle _)) as [id|].
  { repeat (rewrite bind_unfold; simpl). eexists. split; [reflexivity|]. simpl.
    repeat split. unfold stripe_calls. rewrite !omap_app. simpl. by rewrite !app_nil_r. }
  destruct (nonempty (Stripe.Customer.metadata customer ≫= (λ m, m !! "user_id")))
    as [hint|]; simpl.
  2:{ eexists. split; [reflexivity|]. simpl. repeat split. by apply stripe_calls_log_db. }
  unfold insert_customer. repeat (rewrite bind_unfold; simpl).
  destruct (uuid_in hint) as [user_id|]; simpl.
  2:{ eexists. split; [reflexivity|]. simpl. repeat split.
      unfold stripe_calls. rewrite !omap_app. simpl. by rewrite !app_nil_r. }
  destruct (_ && _); repeat (rewrite bind_unfold; simpl).
  - eexists. split; [reflexivity|]. simpl. repeat split.
    unfold stripe_calls. rewrite !omap_app. simpl. by rewrite !app_nil_r.
  - eexists. split; [reflexivity|]. simpl. repeat split.
    unfold stripe_calls. rewrite !omap_app. simpl. by rewrite !app_nil_r.
Qed.

Lemma same_but_updated_at_refl c : same_but_updated_at c c.
Proof. by repeat split. Qed.

Lemma Forall2_same_but_refl rows : Forall2 same_but_updated_at rows rows.
Proof. induction rows; constructor; [apply same_but_updated_at_refl|done]. Qed.

(** Running the webhook over its own result changes [updated_at] at
    most. *)
Lemma synced_customers_again customer t1 t2 i1 c1 t3 t4 i2 c2 rows :
  i1 ∉ (CustomerRecord.id <$> rows) →
  Forall2 same_but_updated_at
    (synced_customers customer t1 t2 i1 c1 rows)
    (synced_customers customer t3 t4 i2 c2 (synced_customers customer t1 t2 i1 c1 rows)).
Proof.
  intros Hfresh.
  set (cid := Stripe.Customer.id customer).
  set (F := List.filter (λ c, String.eqb (CustomerRecord.stripe_customer_id c) cid)).
  set (email := Stripe.Customer.email customer).
  set (metadata := to_jsonb (JObj (JStr <$> default ∅ (Stripe.Customer.metadata customer)))).
  pose (upd := λ (t : string) (c : CustomerRecord.t),
          CustomerRecord.mk (CustomerRecord.id c) (CustomerRecord.user_id c)
            (CustomerRecord.stripe_customer_id c) email metadata
            (CustomerRecord.created_at c) t).
  destruct (nonempty (CustomerRecord.id <$> maybeSingle (F rows))) as [id0|] eqn:Hdata.
  - (* updated in place, twice *)
    assert (Hrows1 : synced_customers customer t1 t2 i1 c1 rows
                     = map (λ c, if String.eqb (CustomerRecord.id c) id0 then upd t1 c else c)
                           rows).
    { unfold synced_customers. fold cid F. by rewrite Hdata. }
    rewrite Hrows1.
    set (f1 := λ c, if String.eqb (CustomerRecord.id c) id0 then upd t1 c else c).
    assert (Hsid : ∀ c, String.eqb (CustomerRecord.stripe_customer_id (f1 c)) cid
                        = String.eqb (CustomerRecord.stripe_customer_id c) cid).
    { intros c. unfold f1. by destruct (String.eqb (CustomerRecord.id c) id0). }
    assert (Hdata1 : nonempty (CustomerRecord.id <$> maybeSingle (F (map f1 rows)))
                     = Some id0).
    { unfold F. rewrite filter_map_customers by exact Hsid. fold (F rows).
      unfold maybeSingle in *. destruct (F rows) as [|ex [|]]; try done.
      simpl in *. unfold f1. by destruct (String.eqb (CustomerRecord.id ex) id0). }
    unfold synced_customers at 1. fold cid F. rewrite Hdata1.
    fold (upd t3). clear.
    induction rows as [|c rows IH]; [constructor|].
    simpl. constructor; [|exact IH].
    unfold f1. destruct (String.eqb (CustomerRecord.id c) id0) eqn:Hid.
    + simpl. rewrite Hid. by repeat split.
    + rewrite Hid. apply same_but_updated_at_refl.
  - destruct (nonempty (Stripe.Customer.metadata customer ≫= (λ m, m !! "user_id"))
              ≫= uuid_in) as [u|] eqn:Hhint.
    2:{ assert (Hrows1 : synced_customers customer t1 t2 i1 c1 rows = rows).
        { unfold synced_customers. fold cid F. by rewrite Hdata, Hhint. }
        rewrite Hrows1. unfold synced_customers. fold cid F. rewrite Hdata, Hhint.
        apply Forall2_same_but_refl. }
    destruct (bool_decide (u ∉ (CustomerRecord.user_id <$> rows))
              && bool_decide (cid ∉ (CustomerRecord.stripe_customer_id <$> rows)))
      eqn:Hfree.
    2:{ assert (Hrows1 : synced_customers customer t1 t2 i1 c1 rows = rows).
        { unfold synced_customers. fold cid F. by rewrite Hdata, Hhint, Hfree. }
        rewrite Hrows1. unfold synced_customers. fold cid F.
        rewrite Hdata, Hhint, Hfree. apply Forall2_same_but_refl. }
    (* one row inserted, then found *)
    set (r := CustomerRecord.mk i1 u cid email metadata c1 t2).
    assert (Hrows1 : synced_customers customer t1 t2 i1 c1 rows = rows ++ [r]).
    { unfold synced_customers. fold cid F. by rewrite Hdata, Hhint, Hfree. }
    rewrite Hrows1.
    apply andb_true_iff in Hfree as [Hu Hc].
    apply bool_decide_eq_true in Hu, Hc.
    assert (HF1 : F (rows ++ [r]) = [r]).
    { unfold F. rewrite List.filter_app, (filter_customer_none _ _ Hc). simpl.
      by rewrite String.eqb_refl. }
    unfold synced_customers. fold cid F. rewrite HF1. unfold maybeSingle. simpl.
    destruct (nonempty (Some i1)) as [id1|] eqn:Hid1.
    + apply nonempty_Some in Hid1 as [[= <-] _].
      rewrite map_app. apply Forall2_app.
      * rewrite (map_ext_in _ (λ c, c)); [rewrite map_id; apply Forall2_same_but_refl|].
        intros c Hin.
        destruct (String.eqb_spec (CustomerRecord.id c) i1) as [Heq|]; [|done].
        destruct Hfresh. rewrite <- Heq. apply list_elem_of_fmap. exists c.
        split; [done|]. by apply list_elem_of_In.
      * simpl. rewrite String.eqb_refl. constructor; [by repeat split|constructor].
    + rewrite Hhint.
      assert (Htaken : bool_decide (u ∉ (CustomerRecord.user_id <$> rows ++ [r])) = false).
      { apply bool_decide_eq_false. intros Hn. apply Hn.
        rewrite fmap_app. apply elem_of_app. right. by left. }
      rewrite Htaken. simpl. apply Forall2_same_but_refl.
Qed.



(** * Removal *)

Lemma others_patched id u (rows : list Subscription.t) :
  List.filter (λ r, negb (String.eqb (Subscription.id r) id))
    (map (λ r, if String.eqb (Subscription.id r) id then Updates.apply u r else r) rows)
  = List.filter (λ r, negb (String.eqb (Subscription.id r) id)) rows.
Proof.
  induction rows as [|r rows IH]; [done|]. simpl.
  destruct (String.eqb (Subscription.id r) id) eqn:Hid; simpl.
  - by rewrite Hid.
  - by rewrite Hid, IH.
Qed.

Lemma others_ids id (rows : list Subscription.t) :
  id ∉ Subscription.id
       <$> List.filter (λ r, negb (String.eqb (Subscription.id r) id)) rows.
Proof.
  intros (r & -> & Hin%list_elem_of_In)%list_elem_of_fmap.
  apply filter_In in Hin as [_ Hne]. by rewrite String.eqb_refl in Hne.
Qed.

Lemma patched_ids id u (rows : list Subscription.t) :
  Subscription.id
  <$> map (λ r, if String.eqb (Subscription.id r) id then Updates.apply u r else r) rows
  = Subscription.id <$> rows.
Proof.
  induction rows as [|r rows IH]; [done|].
  cbn [map]. rewrite !fmap_cons, IH.
  by destruct (String.eqb (Subscription.id r) id).
Qed.

Lemma bind_run {A B} (m m' : Promise A) (k : A → Promise B) w w' :
  m w = m' w' → (m ≫= k) w = (m' ≫= k) w'.
Proof. intros Heq. by rewrite !bind_unfold, Heq. Qed.

(** The last steps of a lifecycle operation when the row cannot be read
    back: the patch is written and the operation fails. *)
Lemma patch_unread what id (patch : string → Updates.t) w :
  isValidUUID id = true →
  single (List.filter (λ r, String.eqb (Subscription.id r) id) (subscriptions w)) = None →
  (∀ nowIso w0, update_violations id (patch nowIso) w0 = []) →
  ∃ e w', (nowIso ← Date_now; update_by_id what id (patch nowIso);; getById id) w
          = (Rejected e, w')
        ∧ Subscription.id <$> subscriptions w' = Subscription.id <$> subscriptions w.
Proof.
  intros Hid Hnone Hfree.
  repeat (rewrite bind_unfold; simpl).
  rewrite update_by_id_accepted by apply Hfree. simpl.
  unfold getById. rewrite Hid. simpl.
  repeat (rewrite bind_unfold; simpl).
  rewrite filter_id_map by (intros r0; by destruct (String.eqb _ _)).
  destruct (List.filter _ (subscriptions w)) as [|r0 [|]] eqn:Hf; try done.
  - eexists _, _. split; [reflexivity|]. simpl. apply patched_ids.
  - eexists _, _. split; [reflexivity|]. simpl. apply patched_ids.
Qed.

(** A pass keeps the row of an identifier readable unless the row that
    it inserts is given that identifier. *)
Lemma reconciled_unread subscription customMetadata w id r :
  List.filter (λ r, String.eqb (Subscription.id r) id) (subscriptions w) = [r] →
  single (List.filter (λ r, String.eqb (Subscription.id r) id)
            (reconciled subscription customMetadata w)) = None →
  gen_random_uuid (generated w) = id.
Proof.
  intros Hf. unfold reconciled.
  destruct (reconciled_payload subscription customMetadata w) as [payload|];
    [|by rewrite Hf].
  destruct (sync_error subscription customMetadata w); [by rewrite Hf|].
  destruct (nonempty _) as [target|].
  - rewrite filter_id_map by (intros r0; by destruct (String.eqb _ _)).
    by rewrite Hf.
  - rewrite List.filter_app, Hf. simpl.
    destruct (String.eqb_spec (gen_random_uuid (generated w)) id); done.
Qed.

(** C7. For every stored subscription and every caller that passes the
    access check: (1) [remove] by a non-privileged caller is refused with
    "Only canceled or expired subscriptions can be deleted" unless the
    status is [Canceled] or [Expired]; a privileged caller is never
    refused on the status.  (2) When the removal is allowed and the
    record is local-only or already canceled, the row is hard-deleted
    and no processor call is made.  (3) When it is allowed and the
    record is externally backed and not canceled, the first request that
    [remove] sends to the processor is the cancellation of the external
    subscription, whatever happens next, and every later request is an
    invoice lookup.  If the processor refuses, [remove] fails with the
    processor's error and no table has changed.  If it answers with a
    snapshot, the snapshot is reconciled with the metadata
    [cancel_reason = "Deleted via API"]: when that pass fails, [remove]
    fails with its error and no table has changed; when it succeeds and
    the row can be read back, [remove] succeeds and the table is the
    reconciled one without the rows of the identifier; the row cannot be
    read back only when the pass has inserted a row under the same
    identifier, and then [remove] fails and deletes nothing.  Whenever
    [remove] succeeds, the internal [cancel] with the reason
    "Deleted via API" has succeeded before the delete, the record it
    returned was stored under the identifier with that reason as its
    [cancel_reason], and the delete has removed it.  (4) In every case
    the only processor calls that [remove] makes are the subscription
    cancel and the invoice lookup of the reconciliation that follows it:
    there is no delete of the external subscription. *)
Theorem remove_policy w id requesterId isAdmin subscription :
  lookup_subscription w id = Some subscription →
  may_access subscription requesterId isAdmin = true →
  let allowed := isAdmin || includes [Canceled; Expired] (Subscription.status subscription) in
  let cancels_first :=
    truthy (Subscription.stripe_subscription_id subscription)
    && negb (bool_decide (Subscription.status subscription = Canceled)) in
  let others (rows : list Subscription.t) :=
    List.filter (λ r, negb (String.eqb (Subscription.id r) id)) rows in
  (allowed = false →
   refused (remove id requesterId isAdmin w) w
     (BadRequestException "Only canceled or expired subscriptions can be deleted"))
  ∧ (allowed = true → cancels_first = false →
     ∃ w', remove id requesterId isAdmin w = (Fulfilled tt, w')
           ∧ subscriptions w' = others (subscriptions w)
           ∧ stripe_calls (trace w') = stripe_calls (trace w))
  ∧ (allowed = true → cancels_first = true →
     ∃ stripeId,
       nonempty (Subscription.stripe_subscription_id subscription) = Some stripeId
       ∧ (∃ rest,
            stripe_calls (trace (remove id requesterId isAdmin w).2)
            = stripe_calls (trace w) ++ Stripe.SubscriptionsCancel stripeId :: rest
            ∧ Forall (among [InvoicesRetrieveEndpoint]) rest)
       ∧ (let reason : gmap string Json := {[ "cancel_reason" := JStr "Deleted via API" ]} in
          let w0 := log (StripeCall (Stripe.SubscriptionsCancel stripeId))
                      (log (DbSelect subscriptions_table)
                         (log (DbSelect subscriptions_table) w)) in
          match subscriptions_cancel stripeId with
          | inl message =>
              ∃ w', remove id requesterId isAdmin w = (Rejected (StripeError message), w')
                    ∧ same_tables w w'
          | inr snapshot =>
              match sync_error snapshot reason w0 with
              | Some error =>
                  ∃ w', remove id requesterId isAdmin w = (Rejected error, w')
                        ∧ same_tables w w'
              | None =>
                  let rows := reconciled snapshot reason w0 in
                  match single (List.filter (λ r, String.eqb (Subscription.id r) id) rows) with
                  | Some _ =>
                      ∃ w', remove id requesterId isAdmin w = (Fulfilled tt, w')
                            ∧ subscriptions w' = others rows
                  | None =>
                      gen_random_uuid (generated w) = id
                      ∧ ∃ e w', remove id requesterId isAdmin w = (Rejected e, w')
                                ∧ Subscription.id <$> subscriptions w'
                                  = Subscription.id <$> rows
                  end
              end
          end)
       ∧ (∀ w', remove id requesterId isAdmin w = (Fulfilled tt, w') →
            ∃ canceled w1,
              cancel id requesterId (CancelSubscriptionDto.mk (Some "Deleted via API") None)
                     isAdmin (log (DbSelect subscriptions_table) w)
              = (Fulfilled canceled, w1)
              ∧ lookup_subscription w1 id = Some canceled
              ∧ Subscription.cancel_reason canceled = Some "Deleted via API"
              ∧ subscriptions w' = others (subscriptions w1)
              ∧ id ∉ Subscription.id <$> subscriptions w'))
  ∧ calls_only cancel_or_invoice w (remove id requesterId isAdmin w).2.
Proof.
  intros Hl Ha allowed cancels_first others.
  assert (Hvalid : isValidUUID id = true).
  { unfold lookup_subscription in Hl. by destruct (isValidUUID id). }
  split; [|split; [|split]].
  - intros Hno. unfold allowed in Hno. apply orb_false_iff in Hno as [-> Hst].
    unfold remove. enter Hl Ha. rewrite Hst. simpl.
    unfold refused. simpl. repeat split. by apply stripe_calls_log_db.
  - intros Hyes Hplain. unfold remove. enter Hl Ha.
    assert (Hguard : negb isAdmin
                     && negb (includes [Canceled; Expired] (Subscription.status subscription))
                     = false).
    { unfold allowed in Hyes. rewrite <- negb_orb, Hyes. done. }
    rewrite Hguard. fold cancels_first. rewrite Hplain.
    unfold delete_by_id. repeat (rewrite bind_unfold; simpl).
    eexists. split; [reflexivity|]. split; [reflexivity|].
    unfold set_subscriptions, log, stripe_calls. simpl.
    rewrite !omap_app. simpl. by rewrite !app_nil_r.
  - intros Hyes Hfirst.
    assert (Hguard : negb isAdmin
                     && negb (includes [Canceled; Expired] (Subscription.status subscription))
                     = false).
    { unfold allowed in Hyes. rewrite <- negb_orb, Hyes. done. }
    pose proof Hfirst as Hfirst'.
    unfold cancels_first in Hfirst'. apply andb_true_iff in Hfirst' as [Hsid Hst].
    apply negb_true_iff in Hst.
    rewrite nonempty_truthy in Hsid. apply bool_decide_eq_true in Hsid as [stripeId Hsid].
    set (dto := CancelSubscriptionDto.mk (Some "Deleted via API") None).
    assert (Hremove : remove id requesterId isAdmin w
                      = ((cancel id requesterId dto isAdmin;; mret tt);; delete_by_id id)
                          (log (DbSelect subscriptions_table) w)).
    { unfold remove. enter Hl Ha. rewrite Hguard. fold cancels_first. by rewrite Hfirst. }
    assert (Hl1 : lookup_subscription (log (DbSelect subscriptions_table) w) id
                  = Some subscription) by exact Hl.
    assert (Hcancel :
              cancel id requesterId dto isAdmin (log (DbSelect subscriptions_table) w)
              = ((canceledStripe ← stripe (Stripe.SubscriptionsCancel stripeId)
                                     (subscriptions_cancel stripeId);
                  syncFromStripe canceledStripe
                    {[ "cancel_reason" := JStr "Deleted via API" ]});;
                 nowIso ← Date_now;
                 update_by_id "cancel" id (sanitizePayload (cancel_updates subscription dto nowIso));;
                 getById id)
                  (log (DbSelect subscriptions_table) (log (DbSelect subscriptions_table) w))).
    { unfold cancel. enter Hl1 Ha. by rewrite Hst, Hsid. }
    exists stripeId. split; [done|].
    split; [|split].
    + rewrite Hremove, !bind_assoc, (bind_run _ _ _ _ _ Hcancel), !bind_assoc.
      assert (Hselect : stripe_calls (trace (log (DbSelect subscriptions_table)
                                               (log (DbSelect subscriptions_table) w)))
                        = stripe_calls (trace w)).
      { by rewrite !stripe_calls_log_db. }
      rewrite <- Hselect. apply call_first.
      intros a. frames. apply calls_only_sync. solve_among.
    + cbv zeta.
      rewrite Hremove, !bind_assoc, (bind_run _ _ _ _ _ Hcancel), !bind_assoc.
      destruct (subscriptions_cancel stripeId) as [message|snapshot].
      * unfold stripe. rewrite !bind_unfold. simpl.
        eexists. split; [reflexivity|done].
      * rewrite stripe_inr.
        set (w0 := log (StripeCall _) _).
        set (reason := {[ "cancel_reason" := JStr "Deleted via API" ]}).
        destruct (syncFromStripe_run snapshot reason w0)
          as (w1 & evs & Hrun & Hsubs & Hcust & Hplans & _).
        rewrite bind_unfold, Hrun. unfold sync_outcome.
        destruct (sync_error snapshot reason w0) as [error|] eqn:Herr.
        -- exists w1. split; [reflexivity|].
           unfold reconciled in Hsubs. rewrite Herr in Hsubs.
           assert (Hsame : subscriptions w1 = subscriptions w)
             by (destruct (reconciled_payload _ _ _); exact Hsubs).
           done.
        -- cbv beta iota.
           destruct (single (List.filter (λ r, String.eqb (Subscription.id r) id)
                               (reconciled snapshot reason w0))) as [r|] eqn:Hread.
           ++ assert (Hl2 : lookup_subscription w1 id = Some r)
                by (unfold lookup_subscription; rewrite Hvalid, Hsubs; exact Hread).
              destruct (patch_run "cancel" id
                          (λ t, sanitizePayload (cancel_updates subscription dto t))
                          w1 r Hl2 (λ t w0, cancel_updates_free subscription dto t id w0))
                as (w2 & Hrun2 & _ & Hrows2 & _).
              cbv zeta in Hrun2, Hrows2.
              rewrite bind_unfold, Hrun2. cbv beta iota.
              unfold delete_by_id. repeat (rewrite bind_unfold; simpl).
              eexists. split; [reflexivity|]. simpl.
              rewrite Hrows2, Hsubs. apply others_patched.
           ++ split.
              { apply (reconciled_unread snapshot reason w0 id subscription); [|exact Hread].
                by apply lookup_subscription_targets in Hl as [Hf _]. }
              destruct (patch_unread "cancel" id
                          (λ t, sanitizePayload (cancel_updates subscription dto t))
                          w1 Hvalid)
                as (e & w2 & Hrun2 & Hids).
              { by rewrite Hsubs. }
              { intros t w3. apply cancel_updates_free. }
              exists e, w2. rewrite bind_unfold, Hrun2. split; [reflexivity|].
              by rewrite Hids, Hsubs.
    + intros w' Hrun. rewrite Hremove in Hrun.
      apply bind_fulfilled in Hrun as ([] & w2 & Hrun & Hdel).
      apply bind_fulfilled in Hrun as (canceled & w1 & Hrun & Hret).
      injection Hret as <-.
      exists canceled, w1. split; [exact Hrun|].
      rewrite Hcancel in Hrun.
      apply bind_fulfilled in Hrun as (a & w3 & _ & Hrun).
      apply bind_fulfilled in Hrun as (nowIso & w4 & _ & Hrun).
      apply bind_fulfilled in Hrun as ([] & w5 & Hupd & Hget).
      apply getById_fulfilled in Hget as [-> Hl5].
      split; [exact Hl5|].
      assert (Hdeleted : subscriptions w' = others (subscriptions w5)).
      { unfold delete_by_id in Hdel. repeat (rewrite bind_unfold in Hdel; simpl in Hdel).
        by injection Hdel as <-. }
      split; [|split; [exact Hdeleted|rewrite Hdeleted; apply others_ids]].
      rewrite update_by_id_run in Hupd.
      destruct (refusal _ _ _); [discriminate Hupd|]. injection Hupd as <-.
      unfold lookup_subscription in Hl5. rewrite Hvalid in Hl5.
      apply single_patched in Hl5 as (r0 & _ & ->). reflexivity.
  - apply calls_only_remove.
Qed.
End Properties.

(** * The statements on sample data *)

Lemma mapStripeStatus_follows_table_witness :
  mapStripeStatus paused_snapshot = Paused
  ∧ mapStripeStatus first_snapshot = canonical_status "active".
Proof.
  destruct (mapStripeStatus_follows_table paused_snapshot) as (Hp & _).
  destruct (mapStripeStatus_follows_table first_snapshot) as (_ & Ht & _).
  split; [apply Hp; by eexists | apply Ht; reflexivity].
Defined.

Lemma transitions_are_guarded_witness :
  lookup_subscription (world_of [local_row Canceled] []) row_a = Some (local_row Canceled)
  ∧ refused (@cancel sample_runtime row_a alice (CancelSubscriptionDto.mk None None) false
               (world_of [local_row Canceled] []))
      (world_of [local_row Canceled] [])
      (BadRequestException "Subscription is already canceled").
Proof.
  split; [reflexivity|].
  destruct (@transitions_are_guarded sample_runtime (world_of [local_row Canceled] [])
              row_a alice false (local_row Canceled) eq_refl) as (_ & _ & Hc).
  apply (Hc (CancelSubscriptionDto.mk None None)). reflexivity.
Defined.

Lemma resume_local_only_witness :
  ∃ resumed w',
    @resume sample_runtime row_a alice (ResumeSubscriptionDto.mk None None) false
      (world_of [local_row Paused] []) = (Fulfilled resumed, w')
    ∧ lookup_subscription w' row_a = Some resumed
    ∧ Subscription.status resumed = Active
    ∧ Subscription.ended_at resumed = None
    ∧ Subscription.pause_reason resumed = None
    ∧ Subscription.started_at resumed = Some "now:0"
    ∧ stripe_calls (trace w') = [].
Proof.
  apply (@resume_local_only sample_runtime (world_of [local_row Paused] []) row_a alice false
           (ResumeSubscriptionDto.mk None None) (local_row Paused));
    [reflexivity | reflexivity | reflexivity | reflexivity | discriminate].
Defined.


Lemma owner_resolution_priority_witness :
  resolved_user hinted_snapshot "cus_unknown" empty_world = Some alice
  ∧ ∃ w' row,
      @syncFromStripe sample_runtime hinted_snapshot ∅ empty_world = (Fulfilled tt, w')
      ∧ subscriptions w' = [row]
      ∧ Subscription.user_id row = alice
      ∧ Subscription.stripe_subscription_id row = Some "sub_3".
Proof.
  destruct (@owner_resolution_priority sample_runtime hinted_snapshot ∅ empty_world)
    as (_ & _ & Hhint & _).
  destruct (Hhint "cus_unknown" alice) as (Howner & w' & row & Hrow);
    [reflexivity | reflexivity | reflexivity | reflexivity | discriminate |].
  split; [exact Howner|]. by exists w', row.
Defined.

Lemma remove_policy_witness :
  let w := world_of [external_row Active] [alice_customer] in
  (∃ rest, stripe_calls (trace (@remove sample_runtime row_b alice true w).2)
           = Stripe.SubscriptionsCancel "sub_1" :: rest
           ∧ Forall (among [InvoicesRetrieveEndpoint]) rest)
  ∧ (∃ w', @remove sample_runtime row_b alice true w = (Fulfilled tt, w')
           ∧ subscriptions w' = [])
  ∧ ∃ canceled w1,
      @cancel sample_runtime row_b alice
        (CancelSubscriptionDto.mk (Some "Deleted via API") None) true
        (log (DbSelect subscriptions_table) w) = (Fulfilled canceled, w1)
      ∧ lookup_subscription w1 row_b = Some canceled
      ∧ Subscription.status canceled = Canceled
      ∧ Subscription.cancel_reason canceled = Some "Deleted via API".
Proof.
  intros w.
  destruct (@remove_policy sample_runtime w row_b alice true (external_row Active)
              eq_refl eq_refl) as (_ & _ & Hcancels & _).
  destruct (Hcancels eq_refl eq_refl) as (stripeId & [= <-] & Hsent & Hrun & Hbefore).
  split; [exact Hsent|].
  destruct Hrun as (w' & Hrun & Hrows).
  split; [by exists w'|].
  destruct (Hbefore w' Hrun) as (canceled & w1 & Hinner & Hstored & Hreason & _).
  exists canceled, w1. repeat split; try done.
  assert (Hsame : (Fulfilled canceled, w1)
                  = @cancel sample_runtime row_b alice
                      (CancelSubscriptionDto.mk (Some "Deleted via API") None) true
                      (log (DbSelect subscriptions_table) w)) by (symmetry; exact Hinner).
  vm_compute in Hsame. by injection Hsame as -> _.
Defined.

Lemma sync_overwrites_pause_reason_witness :
  ∃ w', @syncFromStripe sample_runtime paused_snapshot ∅
          (world_of [external_row Active] [alice_customer]) = (Fulfilled tt, w')
        ∧ (row_b ≠ EmptyString →
           List.length (subscriptions w') = 1%nat
           ∧ ∀ r, r ∈ subscriptions w' →
                  Subscription.id r = row_b →
                  Subscription.pause_reason r = Some "mark_uncollectible").
Proof.
  exact (@sync_overwrites_pause_reason sample_runtime paused_snapshot ∅
           (world_of [external_row Active] [alice_customer]) "cus_alice" alice
           eq_refl eq_refl).
Defined.

Lemma sync_without_customer_only_looks_up_witness :
  @syncFromStripe sample_runtime customerless_snapshot ∅ empty_world
  = (Fulfilled tt, log (DbSelect subscriptions_table) empty_world).
Proof.
  apply (@sync_without_customer_only_looks_up sample_runtime customerless_snapshot ∅
           empty_world).
  reflexivity.
Defined.

Lemma create_enforces_single_subscription_witness :
  ∃ e w',
    @create sample_runtime (User.mk alice None None)
      (CreateSubscriptionDto.mk None None None (Some "price_1") None None) false
      (world_of [local_row Paused] []) = (Rejected e, w')
    ∧ subscriptions w' = [local_row Paused]
    ∧ stripe_customers w' = []
    ∧ stripe_calls (trace w') = []
    ∧ (isValidUUID alice = true →
       false = true ∨ alice = alice →
       e = BadRequestException "An active subscription already exists for this user").
Proof.
  destruct (@create_enforces_single_subscription sample_runtime (User.mk alice None None)
              (CreateSubscriptionDto.mk None None None (Some "price_1") None None) false
              (world_of [local_row Paused] [])) as (Hreject & _).
  apply Hreject. exists (local_row Paused).
  split; [by left|]. split; reflexivity.
Defined.

Lemma syncFromStripe_idempotent_witness :
  let w1 := (@syncFromStripe sample_runtime hinted_snapshot ∅ empty_world).2 in
  @syncFromStripe sample_runtime hinted_snapshot ∅ empty_world = (Fulfilled tt, w1)
  ∧ ∃ w2,
      @syncFromStripe sample_runtime hinted_snapshot ∅ w1 = (Fulfilled tt, w2)
      ∧ Forall2 same_derived_fields (subscriptions w1) (subscriptions w2)
      ∧ List.length (rows_for "sub_3" w1) = 1%nat
      ∧ List.length (rows_for "sub_3" w2) = 1%nat.
Proof.
  intros w1.
  assert (Hfirst : @syncFromStripe sample_runtime hinted_snapshot ∅ empty_world
                   = (Fulfilled tt, w1)) by (vm_compute; reflexivity).
  split; [exact Hfirst|].
  destruct (@syncFromStripe_idempotent sample_runtime hinted_snapshot ∅ empty_world w1
              eq_refl eq_refl Hfirst)
    as (w2 & Hrun & Hsame & _ & Hone & _); [vm_compute; reflexivity|].
  exists w2. split; [exact Hrun|]. split; [exact Hsame|].
  apply (Hone "cus_unknown" alice); reflexivity.
Defined.

(** * Where the specification says more than the code does *)

(** The counterexample to C1 as stated: a webhook snapshot that cannot be
    attributed to a user leaves no row at all for its external id,
    however often it is applied. *)
Lemma idempotent_one_row_counterexample :
  let w1 := (@syncFromStripe sample_runtime orphan_snapshot ∅ empty_world).2 in
  let w2 := (@syncFromStripe sample_runtime orphan_snapshot ∅ w1).2 in
  well_formed empty_world = true
  ∧ rows_for "sub_orphan" w2 = []
  ∧ List.length (rows_for "sub_orphan" w2) ≠ 1%nat.
Proof. vm_compute. repeat split; discriminate. Qed.

(** The counterexample to C3 as stated: two webhook snapshots of two
    external subscriptions of the same customer, reconciled into an empty
    table, leave the user with two active subscriptions. *)
Lemma single_active_subscription_counterexample :
  let w0 := world_of [] [alice_customer] in
  let w1 := (@syncFromStripe sample_runtime first_snapshot ∅ w0).2 in
  let w2 := (@syncFromStripe sample_runtime second_snapshot ∅ w1).2 in
  List.length (active_like_rows alice w0) = 0%nat
  ∧ List.length (active_like_rows alice w2) = 2%nat
  ∧ ¬ (List.length (active_like_rows alice w2) ≤ 1)%nat.
Proof. vm_compute. repeat split. lia. Qed.

(** The counterexample to C10 as stated: a snapshot without customer makes
    the routine read the [subscriptions] table once before it returns. *)
Lemma sync_without_customer_reads_counterexample :
  let w' := (@syncFromStripe sample_runtime customerless_snapshot ∅ empty_world).2 in
  customer_id (Stripe.Subscription.customer customerless_snapshot) = None
  ∧ user_hint customerless_snapshot = Some alice
  ∧ List.filter (is_read subscriptions_table) (trace empty_world) = []
  ∧ List.filter (is_read subscriptions_table) (trace w') = [DbSelect subscriptions_table].
Proof. vm_compute. repeat split. Qed.

(** * The further statements on sample data *)

Lemma invalid_identifier_rejected_before_any_io_witness :
  @pause sample_runtime "42" alice (PauseSubscriptionDto.mk None) false
    (world_of [local_row Active] [])
  = (Rejected (BadRequestException "Invalid subscription identifier"),
     world_of [local_row Active] []).
Proof.
  destruct (@invalid_identifier_rejected_before_any_io sample_runtime "42" alice false
              (world_of [local_row Active] []) eq_refl) as (_ & _ & Hpause & _).
  apply Hpause.
Defined.

Lemma unknown_identifier_is_not_found_witness :
  @remove sample_runtime row_b alice false (world_of [local_row Active] [])
  = (Rejected (NotFoundException
                 ("Subscription with id " +:+ dquote +:+ row_b +:+ dquote +:+ " not found")),
     log (DbSelect subscriptions_table) (world_of [local_row Active] [])).
Proof.
  destruct (@unknown_identifier_is_not_found sample_runtime row_b alice false
              (world_of [local_row Active] []) eq_refl)
    as (_ & _ & _ & _ & _ & Hremove).
  - refine (bool_decide_unpack _ _). vm_compute. exact I.
  - exact Hremove.
Defined.

Lemma operations_return_the_stored_row_witness :
  match @pause sample_runtime row_a alice (PauseSubscriptionDto.mk (Some "later")) false
          (world_of [local_row Active] []) with
  | (Fulfilled r, w') => lookup_subscription w' row_a = Some r
  | (Rejected _, _) => False
  end.
Proof.
  destruct (@pause sample_runtime row_a alice (PauseSubscriptionDto.mk (Some "later")) false
              (world_of [local_row Active] [])) as [[r|e] w'] eqn:Hrun.
  - destruct (@operations_return_the_stored_row sample_runtime row_a alice false
                (world_of [local_row Active] [])) as (_ & Hpause & _).
    apply (Hpause _ _ _ Hrun).
  - vm_compute in Hrun. discriminate Hrun.
Defined.

Lemma foreign_subscription_is_forbidden_witness :
  @cancel sample_runtime row_a row_b (CancelSubscriptionDto.mk None None) false
    (world_of [local_row Active] [])
  = (Rejected (ForbiddenException "You are not allowed to access this subscription"),
     log (DbSelect subscriptions_table) (world_of [local_row Active] [])).
Proof.
  destruct (@foreign_subscription_is_forbidden sample_runtime
              (world_of [local_row Active] []) row_a row_b (local_row Active) eq_refl)
    as (_ & _ & _ & _ & Hcancel & _).
  - discriminate.
  - apply Hcancel.
Defined.

Lemma pause_then_resume_local_witness :
  ∃ paused w1 resumed w2,
    @pause sample_runtime row_a alice (PauseSubscriptionDto.mk (Some "later")) false
      (world_of [local_row Trialing] []) = (Fulfilled paused, w1)
    ∧ @resume sample_runtime row_a alice (ResumeSubscriptionDto.mk None None) false w1
      = (Fulfilled resumed, w2)
    ∧ Subscription.status resumed = Active.
Proof.
  destruct (@pause_then_resume_local sample_runtime (world_of [local_row Trialing] [])
              row_a alice false (PauseSubscriptionDto.mk (Some "later"))
              (ResumeSubscriptionDto.mk None None) (local_row Trialing)
              eq_refl eq_refl eq_refl eq_refl)
    as (paused & w1 & resumed & w2 & Hpause & _ & _ & _ & Hresume & Hstatus & _).
  by exists paused, w1, resumed, w2.
Defined.

Lemma lifecycle_patch_is_written_last_witness :
  match @cancel sample_runtime row_b alice
          (CancelSubscriptionDto.mk (Some "too expensive") None) false
          (world_of [external_row Active] [alice_customer]) with
  | (Fulfilled r, _) => Subscription.cancel_reason r = Some "too expensive"
  | (Rejected _, _) => False
  end.
Proof.
  destruct (@cancel sample_runtime row_b alice
              (CancelSubscriptionDto.mk (Some "too expensive") None) false
              (world_of [external_row Active] [alice_customer])) as [[r|e] w'] eqn:Hrun.
  - destruct (@lifecycle_patch_is_written_last sample_runtime
                (world_of [external_row Active] [alice_customer]) row_b alice false
                (external_row Active) eq_refl) as (_ & _ & Hcancel).
    apply (Hcancel _ _ _ Hrun).
  - vm_compute in Hrun. discriminate Hrun.
Defined.

Lemma cancel_then_remove_local_witness :
  ∃ canceled w1 w2,
    @cancel sample_runtime row_a alice (CancelSubscriptionDto.mk (Some "moving") None) false
      (world_of [local_row Active] []) = (Fulfilled canceled, w1)
    ∧ Subscription.status canceled = Canceled
    ∧ @remove sample_runtime row_a alice false w1 = (Fulfilled tt, w2)
    ∧ subscriptions w2 = [].
Proof.
  destruct (@cancel_then_remove_local sample_runtime (world_of [local_row Active] [])
              row_a alice false (CancelSubscriptionDto.mk (Some "moving") None)
              (local_row Active) eq_refl eq_refl eq_refl)
    as (canceled & w1 & w2 & Hcancel & Hstatus & _ & _ & _ & Hremove & Hrows & _).
  - discriminate.
  - by exists canceled, w1, w2.
Defined.

Lemma removed_row_is_gone_witness :
  row_a ∉ (Subscription.id <$>
             subscriptions (@remove sample_runtime row_a alice false
                              (world_of [local_row Canceled; external_row Active] [])).2).
Proof.
  destruct (@remove sample_runtime row_a alice false
              (world_of [local_row Canceled; external_row Active] []))
    as [[[]|e] w'] eqn:Hrun.
  - apply (@removed_row_is_gone sample_runtime row_a alice false _ _ Hrun).
  - vm_compute in Hrun. discriminate Hrun.
Defined.

Lemma update_without_changes_writes_nothing_witness :
  ∃ w', @update sample_runtime row_a alice
          (UpdateSubscriptionDto.mk (Some "someone-else") None None (Some "price_gold") None
             None Absent Absent Absent Absent None)
          false (world_of [local_row Active] [])
        = (Fulfilled (local_row Active), w')
        ∧ same_tables (world_of [local_row Active] []) w'
        ∧ stripe_calls (trace w') = stripe_calls (trace (world_of [local_row Active] [])).
Proof.
  apply (@update_without_changes_writes_nothing sample_runtime
           (world_of [local_row Active] []) row_a alice false _ (local_row Active));
    reflexivity.
Defined.

(** A subscription checkout of the customer of [alice]. *)
Lemma checkout_session_is_attributed_through_the_mapping_witness :
  ∃ w' row,
    @handleCheckoutSession sample_runtime
      (Some (Stripe.Session.mk (Some "subscription") (Stripe.SubscriptionId "sub_9")
               (Some {[ "user_id" := row_b ]})))
      (world_of [] [alice_customer]) = (Fulfilled tt, w')
    ∧ subscriptions w' = [row]
    ∧ Subscription.user_id row = alice.
Proof.
  destruct (@checkout_session_is_attributed_through_the_mapping sample_runtime
              (Stripe.Session.mk (Some "subscription") (Stripe.SubscriptionId "sub_9")
                 (Some {[ "user_id" := row_b ]}))
              "sub_9" (snapshot "sub_9" (Stripe.CustomerId "cus_alice") "active" None ∅)
              "cus_alice" alice_customer (world_of [] [alice_customer])
              eq_refl eq_refl eq_refl eq_refl eq_refl eq_refl)
    as (w' & row & Hrun & Hrows & Huser & _).
  - discriminate.
  - reflexivity.
  - reflexivity.
  - right. by eexists.
  - by exists w', row.
Defined.

Lemma ensureCustomer_reuses_the_mapping_witness :
  (@ensureCustomer sample_runtime (EnsureCustomerOptions.mk alice None None None)
     (world_of [] [alice_customer])).1
  = Fulfilled alice_customer.
Proof.
  destruct (@ensureCustomer_reuses_the_mapping sample_runtime
              (EnsureCustomerOptions.mk alice None None None)
              (world_of [] [alice_customer]) alice_customer eq_refl)
    as (_ & _ & _ & Hquiet).
  apply Hquiet. left. reflexivity.
Defined.


Lemma create_is_refused_before_the_processor_witness :
  @create sample_runtime (User.mk alice None None)
    (CreateSubscriptionDto.mk (Some row_b) None None (Some "price_gold") None None)
    false empty_world
  = (Rejected (ForbiddenException
                 "You are not allowed to create subscriptions for other users"),
     empty_world).
Proof.
  destruct (@create_is_refused_before_the_processor sample_runtime (User.mk alice None None)
              (CreateSubscriptionDto.mk (Some row_b) None None (Some "price_gold") None None)
              false empty_world) as (_ & Hforbidden & _).
  apply Hforbidden; [reflexivity | reflexivity | discriminate].
Defined.

Lemma rejected_create_writes_no_row_witness :
  same_rows (world_of [local_row Canceled] [])
    (@create sample_runtime (User.mk alice None None)
       (CreateSubscriptionDto.mk None (Some "gold") None None None None)
       false (world_of [local_row Canceled] [])).2.
Proof.
  destruct (@create sample_runtime (User.mk alice None None)
              (CreateSubscriptionDto.mk None (Some "gold") None None None None)
              false (world_of [local_row Canceled] [])) as [[created|e] w'] eqn:Hrun.
  - vm_compute in Hrun. discriminate Hrun.
  - apply (@rejected_create_writes_no_row sample_runtime _ _ _ _ _ _ Hrun).
    intros ->. vm_compute in Hrun. discriminate Hrun.
Defined.

Lemma create_attributes_to_the_target_user_witness :
  match @create sample_runtime (User.mk alice None None)
          (CreateSubscriptionDto.mk None None None (Some "price_gold") None
             (Some {[ "user_id" := JStr row_b ]}))
          false (world_of [] [alice_customer]) with
  | (Fulfilled created, w') =>
      Subscription.user_id created = alice ∧ subscriptions w' = [created]
  | (Rejected _, _) => False
  end.
Proof.
  destruct (@create sample_runtime (User.mk alice None None)
              (CreateSubscriptionDto.mk None None None (Some "price_gold") None
                 (Some {[ "user_id" := JStr row_b ]}))
              false (world_of [] [alice_customer])) as [[created|e] w'] eqn:Hrun.
  - destruct (@create_attributes_to_the_target_user sample_runtime _ _ _ _ _ _ Hrun)
      as (Huser & _ & _ & Hrows & _).
    + refine (bool_decide_unpack _ _). vm_compute. exact I.
    + intros p customer [= <-]. refine (bool_decide_unpack _ _). vm_compute. exact I.
    + intros p snapshot [= <-]. split; reflexivity.
    + split; [exact Huser|exact Hrows].
  - vm_compute in Hrun. discriminate Hrun.
Defined.

Lemma external_transition_requests_witness :
  ∃ rest,
    stripe_calls (trace (@cancel sample_runtime row_b alice
                           (CancelSubscriptionDto.mk None None) false
                           (world_of [external_row Active] [alice_customer])).2)
    = stripe_calls (trace (world_of [external_row Active] [alice_customer]))
      ++ Stripe.SubscriptionsCancel "sub_1" :: rest
    ∧ Forall (among [InvoicesRetrieveEndpoint]) rest.
Proof.
  destruct (@external_transition_requests sample_runtime
              (world_of [external_row Active] [alice_customer]) row_b alice false
              (external_row Active) "sub_1" eq_refl eq_refl eq_refl) as (_ & _ & Hcancel).
  apply (Hcancel (CancelSubscriptionDto.mk None None)). discriminate.
Defined.

Lemma findByUserId_validates_then_lists_witness :
  @findByUserId sample_datastore "me" (world_of [local_row Active] [])
  = (Rejected (BadRequestException "Invalid user identifier"),
     world_of [local_row Active] []).
Proof.
  destruct (@findByUserId_validates_then_lists sample_datastore "me"
              (world_of [local_row Active] [])) as (Hinvalid & _).
  apply Hinvalid. reflexivity.
Defined.

Lemma findMyActive_is_an_active_row_of_the_user_witness :
  @findMyActive sample_datastore alice (world_of [local_row Paused] [])
  = (Fulfilled None, log (DbSelect subscriptions_table) (world_of [local_row Paused] []))
  ∧ ensureUserCanStartNew alice (world_of [local_row Paused] [])
    = (Rejected (BadRequestException "An active subscription already exists for this user"),
       log (DbSelect subscriptions_table) (world_of [local_row Paused] [])).
Proof.
  destruct (@findMyActive_is_an_active_row_of_the_user sample_datastore alice
              (world_of [local_row Paused] []) eq_refl)
    as (found & Hrun & _ & _ & _ & Hpaused).
  destruct Hpaused as [-> Hguard].
  - reflexivity.
  - exists (local_row Paused). split; [by left|]. by split.
  - by split.
Defined.

Lemma customer_sync_updates_in_place_witness :
  ∃ w',
    @CustomersService_syncFromStripe sample_runtime sample_datastore
      (Stripe.Customer.mk "cus_alice" (Some "alice@example.org") None)
      (world_of [] [alice_customer]) = (Fulfilled tt, w')
    ∧ same_mapping_keys (world_of [] [alice_customer]) w'.
Proof.
  destruct (@customer_sync_updates_in_place sample_runtime sample_datastore
              (Stripe.Customer.mk "cus_alice" (Some "alice@example.org") None)
              alice_customer (world_of [] [alice_customer]) eq_refl)
    as (w' & Hrun & Hkeys & _).
  - discriminate.
  - by exists w'.
Defined.

Lemma customer_sync_maps_the_hinted_user_witness :
  ∃ w' record,
    @CustomersService_syncFromStripe sample_runtime sample_datastore
      (Stripe.Customer.mk "cus_new" None (Some {[ "user_id" := alice ]}))
      empty_world = (Fulfilled tt, w')
    ∧ stripe_customers w' = [record]
    ∧ CustomerRecord.user_id record = alice
    ∧ CustomerRecord.stripe_customer_id record = "cus_new".
Proof.
  destruct (@customer_sync_maps_the_hinted_user sample_runtime sample_datastore
              (Stripe.Customer.mk "cus_new" None (Some {[ "user_id" := alice ]}))
              empty_world eq_refl)
    as (w' & Hrun & _ & _ & _ & record & Hrows & Huser & Hcustomer & _).
  by exists w', record.
Defined.

Lemma create_sends_the_plan_price_witness :
  ∃ params rest,
    stripe_calls
      (trace (@create sample_runtime (User.mk alice None None)
                (CreateSubscriptionDto.mk None None (Some (Plan.id gold_plan))
                   (Some "price_other") (Some 14) None)
                false shop_world).2)
    = stripe_calls (trace shop_world) ++ Stripe.SubscriptionsCreate params :: rest
    ∧ Stripe.SubscriptionCreateParams.customer params = "cus_alice"
    ∧ Stripe.SubscriptionCreateParams.price params = "price_gold".
Proof.
  destruct (@create_sends_the_plan_price sample_runtime (User.mk alice None None)
              (CreateSubscriptionDto.mk None None (Some (Plan.id gold_plan))
                 (Some "price_other") (Some 14) None)
              false shop_world (Plan.id gold_plan) gold_plan alice_customer)
    as (params & rest & Hcalls & _ & Hcustomer & Hprice & _).
  - reflexivity.
  - right. reflexivity.
  - reflexivity.
  - reflexivity.
  - reflexivity.
  - discriminate.
  - reflexivity.
  - left. reflexivity.
  - by exists params, rest.
Defined.

Lemma update_sends_only_what_changes_witness :
  ∃ rest,
    stripe_calls
      (trace (@update sample_runtime row_b alice
                (UpdateSubscriptionDto.mk None None None (Some "price_gold") None None
                   Absent Absent Absent Absent None)
                false (world_of [external_row Active] [alice_customer])).2)
    = stripe_calls (trace (world_of [external_row Active] [alice_customer]))
      ++ Stripe.SubscriptionsRetrieve "sub_1" :: [] ++ rest
    ∧ Forall (among [InvoicesRetrieveEndpoint]) rest.
Proof.
  apply (@update_sends_only_what_changes sample_runtime
           (world_of [external_row Active] [alice_customer]) row_b alice false
           (UpdateSubscriptionDto.mk None None None (Some "price_gold") None None
              Absent Absent Absent Absent None)
           (external_row Active) "sub_1"
           (snapshot "sub_1" (Stripe.CustomerId "cus_alice") "active" None ∅));
    reflexivity.
Defined.


Lemma ensureCustomer_updates_the_email_witness :
  ∃ w',
    @ensureCustomer sample_runtime
      (EnsureCustomerOptions.mk alice (Some "alice@example.org") None None)
      (world_of [] [alice_customer])
    = (Fulfilled alice_customer, w')
    ∧ CustomerRecord.email <$> stripe_customers w' = [Some "alice@example.org"].
Proof.
  pose proof (@ensureCustomer_updates_the_email sample_runtime
                (EnsureCustomerOptions.mk alice (Some "alice@example.org") None None)
                (world_of [] [alice_customer]) alice_customer "alice@example.org"
                eq_refl eq_refl eq_refl ltac:(discriminate)) as Hthm.
  cbn in Hthm.
  destruct Hthm as (w' & Hrun & _ & Hrows & _).
  exists w'. split; [exact Hrun|]. rewrite Hrows. reflexivity.
Defined.

